(** * AP_ICEngine: internal combustion engine controller

    A shallow embedding of [libraries/AP_ICEngine/AP_ICEngine.cpp]: the
    engine life-cycle state machine ([determine_state]), the two-phase gear
    change ([set_ice_transmission_state], [update_gear]), the output mapping
    ([set_output_channels]), the brake override, the sensor filters and the
    [engine_control] command, followed by the properties proved about them.

    Unsigned 32-bit timestamps are integers with the wrap-around written
    out; [float] is IEEE-754 binary32 with round-to-nearest-even, computed
    by the Standard Library's [SpecFloat]. *)

From Stdlib Require Import ZArith Bool List String Lia.
From Stdlib Require Import Floats.SpecFloat.
Import ListNotations.
Open Scope Z_scope.

(** ** Machine integers *)

Module U32.
Definition modulus : Z := 2 ^ 32.
Definition wrap (z : Z) : Z := z mod modulus.
(** [a - b] on [uint32_t]. *)
Definition sub (a b : Z) : Z := wrap (a - b).
(** [a * b] on [uint32_t]. *)
Definition mul (a b : Z) : Z := wrap (a * b).
End U32.

Definition to_uint16 (z : Z) : Z := z mod 65536.

Definition to_int16 (z : Z) : Z :=
  let u := z mod 65536 in if u <? 32768 then u else u - 65536.

Definition to_int32 (z : Z) : Z :=
  let u := z mod 2 ^ 32 in if u <? 2 ^ 31 then u else u - 2 ^ 32.

(** ** Single-precision floats *)

Definition float : Type := spec_float.

Module F32.
Definition prec : Z := 24.
Definition emax : Z := 128.

(** Conversion of an integer to [float] (rounds above 2^24). *)
Definition of_Z (z : Z) : float := binary_normalize prec emax z 0 false.

Definition add : float -> float -> float := SFadd prec emax.
Definition sub : float -> float -> float := SFsub prec emax.
Definition mul : float -> float -> float := SFmul prec emax.
Definition div : float -> float -> float := SFdiv prec emax.
Definition neg : float -> float := SFopp.
Definition abs : float -> float := SFabs.

Definition ltb : float -> float -> bool := SFltb.
Definition leb : float -> float -> bool := SFleb.
Definition gtb (a b : float) : bool := SFltb b a.
Definition geb (a b : float) : bool := SFleb b a.

Definition isinf (x : float) : bool :=
    match x with S754_infinity _ => true | _ => false end.

(** Truncation toward zero, the value of a float-to-integer cast where
      the cast is defined (finite and in range); 0 is returned for
      infinities and NaN, where C++ leaves the cast undefined. *)
Definition trunc (x : float) : Z :=
    match x with
    | S754_finite s m e =>
        let v := if 0 <=? e then Z.pos m * 2 ^ e
                 else Z.quot (Z.pos m) (2 ^ (- e)) in
        if s then - v else v
    | _ => 0
    end.

Definition to_int32 (x : float) : Z := to_int32 (trunc x).
Definition to_uint32 (x : float) : Z := U32.wrap (trunc x).

(** The literals [0.1f] and [0.9f]: the binary32 values nearest to 1/10
      and 9/10. *)
Definition c0_1 : float := Eval vm_compute in div (of_Z 1) (of_Z 10).
Definition c0_9 : float := Eval vm_compute in div (of_Z 9) (of_Z 10).
End F32.

(** ** Enumerations *)

(** [enum ICE_State]. *)
Inductive ICE_State : Type :=
  | ICE_OFF
  | ICE_START_HEIGHT_DELAY
  | ICE_START_DELAY_NO_IGNITION
  | ICE_START_DELAY
  | ICE_STARTING
  | ICE_RUNNING.

Definition ICE_State_eqb (a b : ICE_State) : bool :=
  match a, b with
  | ICE_OFF, ICE_OFF
  | ICE_START_HEIGHT_DELAY, ICE_START_HEIGHT_DELAY
  | ICE_START_DELAY_NO_IGNITION, ICE_START_DELAY_NO_IGNITION
  | ICE_START_DELAY, ICE_START_DELAY
  | ICE_STARTING, ICE_STARTING
  | ICE_RUNNING, ICE_RUNNING => true
  | _, _ => false
  end.

(** [enum ICE_Ignition_State]: the position of the three-way ignition
    switch. *)
Inductive ICE_Ignition_State : Type :=
  | ICE_IGNITION_OFF
  | ICE_IGNITION_ACCESSORY
  | ICE_IGNITION_START_RUN.

Definition ICE_Ignition_State_eqb (a b : ICE_Ignition_State) : bool :=
  match a, b with
  | ICE_IGNITION_OFF, ICE_IGNITION_OFF
  | ICE_IGNITION_ACCESSORY, ICE_IGNITION_ACCESSORY
  | ICE_IGNITION_START_RUN, ICE_IGNITION_START_RUN => true
  | _, _ => false
  end.

(** Modelled from the spec: the numbering of [ICE_Ignition_State] is in
    AP_ICEngine.h, which is not among the sources. The spec lists the three
    positions in the order OFF, ACCESSORY, START_RUN and has [engine_control]
    map the command values 0, 1, 2 to them in that order. *)
Definition ignition_value (i : ICE_Ignition_State) : Z :=
  match i with
  | ICE_IGNITION_OFF => 0
  | ICE_IGNITION_ACCESSORY => 1
  | ICE_IGNITION_START_RUN => 2
  end.

(** The enumerators of MAVLink's [MAV_ICE_TRANSMISSION_GEAR_STATE] that the
    controller names. *)
Inductive MAV_ICE_TRANSMISSION_GEAR_STATE : Type :=
  | MAV_ICE_TRANSMISSION_GEAR_STATE_UNKNOWN
  | MAV_ICE_TRANSMISSION_GEAR_STATE_PARK
  | MAV_ICE_TRANSMISSION_GEAR_STATE_REVERSE
  | MAV_ICE_TRANSMISSION_GEAR_STATE_REVERSE_1
  | MAV_ICE_TRANSMISSION_GEAR_STATE_REVERSE_2
  | MAV_ICE_TRANSMISSION_GEAR_STATE_REVERSE_3
  | MAV_ICE_TRANSMISSION_GEAR_STATE_NEUTRAL
  | MAV_ICE_TRANSMISSION_GEAR_STATE_FORWARD
  | MAV_ICE_TRANSMISSION_GEAR_STATE_FORWARD_1
  | MAV_ICE_TRANSMISSION_GEAR_STATE_FORWARD_2
  | MAV_ICE_TRANSMISSION_GEAR_STATE_FORWARD_3
  | MAV_ICE_TRANSMISSION_GEAR_STATE_FORWARD_4
  | MAV_ICE_TRANSMISSION_GEAR_STATE_FORWARD_5
  | MAV_ICE_TRANSMISSION_GEAR_STATE_FORWARD_6
  | MAV_ICE_TRANSMISSION_GEAR_STATE_FORWARD_7
  | MAV_ICE_TRANSMISSION_GEAR_STATE_FORWARD_8
  | MAV_ICE_TRANSMISSION_GEAR_STATE_FORWARD_9
  | MAV_ICE_TRANSMISSION_GEAR_STATE_PWM_VALUE.

Definition all_gear_states : list MAV_ICE_TRANSMISSION_GEAR_STATE :=
  [ MAV_ICE_TRANSMISSION_GEAR_STATE_UNKNOWN;
    MAV_ICE_TRANSMISSION_GEAR_STATE_PARK;
    MAV_ICE_TRANSMISSION_GEAR_STATE_REVERSE;
    MAV_ICE_TRANSMISSION_GEAR_STATE_REVERSE_1;
    MAV_ICE_TRANSMISSION_GEAR_STATE_REVERSE_2;
    MAV_ICE_TRANSMISSION_GEAR_STATE_REVERSE_3;
    MAV_ICE_TRANSMISSION_GEAR_STATE_NEUTRAL;
    MAV_ICE_TRANSMISSION_GEAR_STATE_FORWARD;
    MAV_ICE_TRANSMISSION_GEAR_STATE_FORWARD_1;
    MAV_ICE_TRANSMISSION_GEAR_STATE_FORWARD_2;
    MAV_ICE_TRANSMISSION_GEAR_STATE_FORWARD_3;
    MAV_ICE_TRANSMISSION_GEAR_STATE_FORWARD_4;
    MAV_ICE_TRANSMISSION_GEAR_STATE_FORWARD_5;
    MAV_ICE_TRANSMISSION_GEAR_STATE_FORWARD_6;
    MAV_ICE_TRANSMISSION_GEAR_STATE_FORWARD_7;
    MAV_ICE_TRANSMISSION_GEAR_STATE_FORWARD_8;
    MAV_ICE_TRANSMISSION_GEAR_STATE_FORWARD_9;
    MAV_ICE_TRANSMISSION_GEAR_STATE_PWM_VALUE ].

Definition gear_tag (g : MAV_ICE_TRANSMISSION_GEAR_STATE) : Z :=
  match g with
  | MAV_ICE_TRANSMISSION_GEAR_STATE_UNKNOWN => 0
  | MAV_ICE_TRANSMISSION_GEAR_STATE_PARK => 1
  | MAV_ICE_TRANSMISSION_GEAR_STATE_REVERSE => 2
  | MAV_ICE_TRANSMISSION_GEAR_STATE_REVERSE_1 => 3
  | MAV_ICE_TRANSMISSION_GEAR_STATE_REVERSE_2 => 4
  | MAV_ICE_TRANSMISSION_GEAR_STATE_REVERSE_3 => 5
  | MAV_ICE_TRANSMISSION_GEAR_STATE_NEUTRAL => 6
  | MAV_ICE_TRANSMISSION_GEAR_STATE_FORWARD => 7
  | MAV_ICE_TRANSMISSION_GEAR_STATE_FORWARD_1 => 8
  | MAV_ICE_TRANSMISSION_GEAR_STATE_FORWARD_2 => 9
  | MAV_ICE_TRANSMISSION_GEAR_STATE_FORWARD_3 => 10
  | MAV_ICE_TRANSMISSION_GEAR_STATE_FORWARD_4 => 11
  | MAV_ICE_TRANSMISSION_GEAR_STATE_FORWARD_5 => 12
  | MAV_ICE_TRANSMISSION_GEAR_STATE_FORWARD_6 => 13
  | MAV_ICE_TRANSMISSION_GEAR_STATE_FORWARD_7 => 14
  | MAV_ICE_TRANSMISSION_GEAR_STATE_FORWARD_8 => 15
  | MAV_ICE_TRANSMISSION_GEAR_STATE_FORWARD_9 => 16
  | MAV_ICE_TRANSMISSION_GEAR_STATE_PWM_VALUE => 17
  end.

(** Equality of enumerators (decided on an internal tag, which is not the
    MAVLink numbering; that numbering is a field of [Platform]). *)
Definition gear_eqb (a b : MAV_ICE_TRANSMISSION_GEAR_STATE) : bool :=
  gear_tag a =? gear_tag b.

(** [enum Temperature_Function], numbered by the TEMP_FUNC parameter
    documentation: 0 linear, 1 inverted, 2 hyperbolic. *)
Inductive Temperature_Function : Type :=
  | FUNCTION_LINEAR
  | FUNCTION_INVERTED
  | FUNCTION_HYPERBOLA.

Definition temperature_function_of (v : Z) : option Temperature_Function :=
  if v =? 0 then Some FUNCTION_LINEAR
  else if v =? 1 then Some FUNCTION_INVERTED
  else if v =? 2 then Some FUNCTION_HYPERBOLA
  else None.

(** What the controller last wrote to a servo function. *)
Inductive ServoCmd : Type :=
  | SrvUntouched
  | SrvTrim                 (* SRV_Channels::set_output_to_trim *)
  | SrvPwm (pwm : Z)        (* SRV_Channels::set_output_pwm *)
  | SrvScaled (v : Z).      (* SRV_Channels::set_output_scaled *)

(** The texts sent to the ground station, with their arguments. *)
Inductive GcsText : Type :=
  | Txt_engine_stopped
  | Txt_starting_height_reached (h : float)
  | Txt_engine_waiting (seconds : Z)
  | Txt_engine_starting (seconds : float)
  | Txt_engine_running_rpm (rpm : Z)
  | Txt_engine_running_no_rpm
  | Txt_start_failed_check_rpm
  | Txt_start_failed_rpm (rpm : Z)
  | Txt_engine_stopped_disarmed
  | Txt_engine_died (rpm : Z)
  | Txt_gear_is_now (g : MAV_ICE_TRANSMISSION_GEAR_STATE)
  | Txt_gear_change (from to : MAV_ICE_TRANSMISSION_GEAR_STATE) (ms : Z)
  | Txt_external_blocked (ms : Z)
  | Txt_start_control_disabled (ms : Z)
  | Txt_takeoff_height (h : float).

(** ** The controller

    The members of [AP_ICEngine] the modelled functions use, each record
    with a setter per member. [starting_attempts] is counted without
    wrap-around: the width of the member is declared in the header.
    [srv_gear], [srv_ignition], [srv_starter], [gpio_output_enable] and
    [gcs_log] are not members: they record what the controller last wrote
    to the servo functions and to the output enable pin, and the texts it
    sent to the ground station. *)

Record Pending_t : Type := Build_Pending_t {
  pending_state : MAV_ICE_TRANSMISSION_GEAR_STATE;
  pending_pwm : Z;
  stop_vehicle_start_ms : Z;
  change_physical_gear_start_ms : Z;
  stop_duration : float;
  change_duration_per_posiiton : float;
  change_duration_total_ms : Z
}.

Definition set_pending_state (v : MAV_ICE_TRANSMISSION_GEAR_STATE) (r : Pending_t) : Pending_t :=
  Build_Pending_t v (pending_pwm r) (stop_vehicle_start_ms r) (change_physical_gear_start_ms r) (stop_duration r) (change_duration_per_posiiton r) (change_duration_total_ms r).

Definition set_pending_pwm (v : Z) (r : Pending_t) : Pending_t :=
  Build_Pending_t (pending_state r) v (stop_vehicle_start_ms r) (change_physical_gear_start_ms r) (stop_duration r) (change_duration_per_posiiton r) (change_duration_total_ms r).

Definition set_stop_vehicle_start_ms (v : Z) (r : Pending_t) : Pending_t :=
  Build_Pending_t (pending_state r) (pending_pwm r) v (change_physical_gear_start_ms r) (stop_duration r) (change_duration_per_posiiton r) (change_duration_total_ms r).

Definition set_change_physical_gear_start_ms (v : Z) (r : Pending_t) : Pending_t :=
  Build_Pending_t (pending_state r) (pending_pwm r) (stop_vehicle_start_ms r) v (stop_duration r) (change_duration_per_posiiton r) (change_duration_total_ms r).

Definition set_stop_duration (v : float) (r : Pending_t) : Pending_t :=
  Build_Pending_t (pending_state r) (pending_pwm r) (stop_vehicle_start_ms r) (change_physical_gear_start_ms r) v (change_duration_per_posiiton r) (change_duration_total_ms r).

Definition set_change_duration_per_posiiton (v : float) (r : Pending_t) : Pending_t :=
  Build_Pending_t (pending_state r) (pending_pwm r) (stop_vehicle_start_ms r) (change_physical_gear_start_ms r) (stop_duration r) v (change_duration_total_ms r).

Definition set_change_duration_total_ms (v : Z) (r : Pending_t) : Pending_t :=
  Build_Pending_t (pending_state r) (pending_pwm r) (stop_vehicle_start_ms r) (change_physical_gear_start_ms r) (stop_duration r) (change_duration_per_posiiton r) v.

Record Gear_t : Type := Build_Gear_t {
  gear_state : MAV_ICE_TRANSMISSION_GEAR_STATE;
  pwm_active : Z;
  pending : Pending_t;
  set_by_automission : bool;
  gear_last_send_ms : Z
}.

Definition set_gear_state (v : MAV_ICE_TRANSMISSION_GEAR_STATE) (r : Gear_t) : Gear_t :=
  Build_Gear_t v (pwm_active r) (pending r) (set_by_automission r) (gear_last_send_ms r).

Definition set_pwm_active (v : Z) (r : Gear_t) : Gear_t :=
  Build_Gear_t (gear_state r) v (pending r) (set_by_automission r) (gear_last_send_ms r).

Definition set_pending (v : Pending_t) (r : Gear_t) : Gear_t :=
  Build_Gear_t (gear_state r) (pwm_active r) v (set_by_automission r) (gear_last_send_ms r).

Definition set_set_by_automission (v : bool) (r : Gear_t) : Gear_t :=
  Build_Gear_t (gear_state r) (pwm_active r) (pending r) v (gear_last_send_ms r).

Definition set_gear_last_send_ms (v : Z) (r : Gear_t) : Gear_t :=
  Build_Gear_t (gear_state r) (pwm_active r) (pending r) (set_by_automission r) v.

Record Sensor_t : Type := Build_Sensor_t {
  value : float;
  last_sample_ms : Z;
  last_send_ms : Z
}.

Definition set_value (v : float) (r : Sensor_t) : Sensor_t :=
  Build_Sensor_t v (last_sample_ms r) (last_send_ms r).

Definition set_last_sample_ms (v : Z) (r : Sensor_t) : Sensor_t :=
  Build_Sensor_t (value r) v (last_send_ms r).

Definition set_last_send_ms (v : Z) (r : Sensor_t) : Sensor_t :=
  Build_Sensor_t (value r) (last_sample_ms r) v.

Record AP_ICEngine : Type := Build_AP_ICEngine {
  state : ICE_State;
  state_prev : ICE_State;
  startControlSelect : ICE_Ignition_State;
  starting_attempts : Z;
  run_once : bool;
  state_change_timestamp_ms : Z;
  starter_start_time_ms : Z;
  starter_last_run_ms : Z;
  engine_power_up_wait_ms : Z;
  running_rpm_fail_timer_ms : Z;
  force_staying_in_DELAY_NO_IGNITION_duration_ms : Z;
  force_send_status : bool;
  auto_mode_active : bool;
  brakeReleaseAllowedIn_Neutral_and_Disarmed : bool;
  height_pending : bool;
  initial_height : float;
  height_required : float;
  gear : Gear_t;
  temperature : Sensor_t;
  temperature_source : bool;
  fuel : Sensor_t;
  srv_gear : ServoCmd;
  srv_ignition : ServoCmd;
  srv_starter : ServoCmd;
  gpio_output_enable : option bool;
  gcs_log : list GcsText
}.

Definition set_state (v : ICE_State) (r : AP_ICEngine) : AP_ICEngine :=
  Build_AP_ICEngine v (state_prev r) (startControlSelect r) (starting_attempts r) (run_once r) (state_change_timestamp_ms r) (starter_start_time_ms r) (starter_last_run_ms r) (engine_power_up_wait_ms r) (running_rpm_fail_timer_ms r) (force_staying_in_DELAY_NO_IGNITION_duration_ms r) (force_send_status r) (auto_mode_active r) (brakeReleaseAllowedIn_Neutral_and_Disarmed r) (height_pending r) (initial_height r) (height_required r) (gear r) (temperature r) (temperature_source r) (fuel r) (srv_gear r) (srv_ignition r) (srv_starter r) (gpio_output_enable r) (gcs_log r).

Definition set_state_prev (v : ICE_State) (r : AP_ICEngine) : AP_ICEngine :=
  Build_AP_ICEngine (state r) v (startControlSelect r) (starting_attempts r) (run_once r) (state_change_timestamp_ms r) (starter_start_time_ms r) (starter_last_run_ms r) (engine_power_up_wait_ms r) (running_rpm_fail_timer_ms r) (force_staying_in_DELAY_NO_IGNITION_duration_ms r) (force_send_status r) (auto_mode_active r) (brakeReleaseAllowedIn_Neutral_and_Disarmed r) (height_pending r) (initial_height r) (height_required r) (gear r) (temperature r) (temperature_source r) (fuel r) (srv_gear r) (srv_ignition r) (srv_starter r) (gpio_output_enable r) (gcs_log r).

Definition set_startControlSelect (v : ICE_Ignition_State) (r : AP_ICEngine) : AP_ICEngine :=
  Build_AP_ICEngine (state r) (state_prev r) v (starting_attempts r) (run_once r) (state_change_timestamp_ms r) (starter_start_time_ms r) (starter_last_run_ms r) (engine_power_up_wait_ms r) (running_rpm_fail_timer_ms r) (force_staying_in_DELAY_NO_IGNITION_duration_ms r) (force_send_status r) (auto_mode_active r) (brakeReleaseAllowedIn_Neutral_and_Disarmed r) (height_pending r) (initial_height r) (height_required r) (gear r) (temperature r) (temperature_source r) (fuel r) (srv_gear r) (srv_ignition r) (srv_starter r) (gpio_output_enable r) (gcs_log r).

Definition set_starting_attempts (v : Z) (r : AP_ICEngine) : AP_ICEngine :=
  Build_AP_ICEngine (state r) (state_prev r) (startControlSelect r) v (run_once r) (state_change_timestamp_ms r) (starter_start_time_ms r) (starter_last_run_ms r) (engine_power_up_wait_ms r) (running_rpm_fail_timer_ms r) (force_staying_in_DELAY_NO_IGNITION_duration_ms r) (force_send_status r) (auto_mode_active r) (brakeReleaseAllowedIn_Neutral_and_Disarmed r) (height_pending r) (initial_height r) (height_required r) (gear r) (temperature r) (temperature_source r) (fuel r) (srv_gear r) (srv_ignition r) (srv_starter r) (gpio_output_enable r) (gcs_log r).

Definition set_run_once (v : bool) (r : AP_ICEngine) : AP_ICEngine :=
  Build_AP_ICEngine (state r) (state_prev r) (startControlSelect r) (starting_attempts r) v (state_change_timestamp_ms r) (starter_start_time_ms r) (starter_last_run_ms r) (engine_power_up_wait_ms r) (running_rpm_fail_timer_ms r) (force_staying_in_DELAY_NO_IGNITION_duration_ms r) (force_send_status r) (auto_mode_active r) (brakeReleaseAllowedIn_Neutral_and_Disarmed r) (height_pending r) (initial_height r) (height_required r) (gear r) (temperature r) (temperature_source r) (fuel r) (srv_gear r) (srv_ignition r) (srv_starter r) (gpio_output_enable r) (gcs_log r).

Definition set_state_change_timestamp_ms (v : Z) (r : AP_ICEngine) : AP_ICEngine :=
  Build_AP_ICEngine (state r) (state_prev r) (startControlSelect r) (starting_attempts r) (run_once r) v (starter_start_time_ms r) (starter_last_run_ms r) (engine_power_up_wait_ms r) (running_rpm_fail_timer_ms r) (force_staying_in_DELAY_NO_IGNITION_duration_ms r) (force_send_status r) (auto_mode_active r) (brakeReleaseAllowedIn_Neutral_and_Disarmed r) (height_pending r) (initial_height r) (height_required r) (gear r) (temperature r) (temperature_source r) (fuel r) (srv_gear r) (srv_ignition r) (srv_starter r) (gpio_output_enable r) (gcs_log r).

Definition set_starter_start_time_ms (v : Z) (r : AP_ICEngine) : AP_ICEngine :=
  Build_AP_ICEngine (state r) (state_prev r) (startControlSelect r) (starting_attempts r) (run_once r) (state_change_timestamp_ms r) v (starter_last_run_ms r) (engine_power_up_wait_ms r) (running_rpm_fail_timer_ms r) (force_staying_in_DELAY_NO_IGNITION_duration_ms r) (force_send_status r) (auto_mode_active r) (brakeReleaseAllowedIn_Neutral_and_Disarmed r) (height_pending r) (initial_height r) (height_required r) (gear r) (temperature r) (temperature_source r) (fuel r) (srv_gear r) (srv_ignition r) (srv_starter r) (gpio_output_enable r) (gcs_log r).

Definition set_starter_last_run_ms (v : Z) (r : AP_ICEngine) : AP_ICEngine :=
  Build_AP_ICEngine (state r) (state_prev r) (startControlSelect r) (starting_attempts r) (run_once r) (state_change_timestamp_ms r) (starter_start_time_ms r) v (engine_power_up_wait_ms r) (running_rpm_fail_timer_ms r) (force_staying_in_DELAY_NO_IGNITION_duration_ms r) (force_send_status r) (auto_mode_active r) (brakeReleaseAllowedIn_Neutral_and_Disarmed r) (height_pending r) (initial_height r) (height_required r) (gear r) (temperature r) (temperature_source r) (fuel r) (srv_gear r) (srv_ignition r) (srv_starter r) (gpio_output_enable r) (gcs_log r).

Definition set_engine_power_up_wait_ms (v : Z) (r : AP_ICEngine) : AP_ICEngine :=
  Build_AP_ICEngine (state r) (state_prev r) (startControlSelect r) (starting_attempts r) (run_once r) (state_change_timestamp_ms r) (starter_start_time_ms r) (starter_last_run_ms r) v (running_rpm_fail_timer_ms r) (force_staying_in_DELAY_NO_IGNITION_duration_ms r) (force_send_status r) (auto_mode_active r) (brakeReleaseAllowedIn_Neutral_and_Disarmed r) (height_pending r) (initial_height r) (height_required r) (gear r) (temperature r) (temperature_source r) (fuel r) (srv_gear r) (srv_ignition r) (srv_starter r) (gpio_output_enable r) (gcs_log r).

Definition set_running_rpm_fail_timer_ms (v : Z) (r : AP_ICEngine) : AP_ICEngine :=
  Build_AP_ICEngine (state r) (state_prev r) (startControlSelect r) (starting_attempts r) (run_once r) (state_change_timestamp_ms r) (starter_start_time_ms r) (starter_last_run_ms r) (engine_power_up_wait_ms r) v (force_staying_in_DELAY_NO_IGNITION_duration_ms r) (force_send_status r) (auto_mode_active r) (brakeReleaseAllowedIn_Neutral_and_Disarmed r) (height_pending r) (initial_height r) (height_required r) (gear r) (temperature r) (temperature_source r) (fuel r) (srv_gear r) (srv_ignition r) (srv_starter r) (gpio_output_enable r) (gcs_log r).

Definition set_force_staying_in_DELAY_NO_IGNITION_duration_ms (v : Z) (r : AP_ICEngine) : AP_ICEngine :=
  Build_AP_ICEngine (state r) (state_prev r) (startControlSelect r) (starting_attempts r) (run_once r) (state_change_timestamp_ms r) (starter_start_time_ms r) (starter_last_run_ms r) (engine_power_up_wait_ms r) (running_rpm_fail_timer_ms r) v (force_send_status r) (auto_mode_active r) (brakeReleaseAllowedIn_Neutral_and_Disarmed r) (height_pending r) (initial_height r) (height_required r) (gear r) (temperature r) (temperature_source r) (fuel r) (srv_gear r) (srv_ignition r) (srv_starter r) (gpio_output_enable r) (gcs_log r).

Definition set_force_send_status (v : bool) (r : AP_ICEngine) : AP_ICEngine :=
  Build_AP_ICEngine (state r) (state_prev r) (startControlSelect r) (starting_attempts r) (run_once r) (state_change_timestamp_ms r) (starter_start_time_ms r) (starter_last_run_ms r) (engine_power_up_wait_ms r) (running_rpm_fail_timer_ms r) (force_staying_in_DELAY_NO_IGNITION_duration_ms r) v (auto_mode_active r) (brakeReleaseAllowedIn_Neutral_and_Disarmed r) (height_pending r) (initial_height r) (height_required r) (gear r) (temperature r) (temperature_source r) (fuel r) (srv_gear r) (srv_ignition r) (srv_starter r) (gpio_output_enable r) (gcs_log r).

Definition set_auto_mode_active (v : bool) (r : AP_ICEngine) : AP_ICEngine :=
  Build_AP_ICEngine (state r) (state_prev r) (startControlSelect r) (starting_attempts r) (run_once r) (state_change_timestamp_ms r) (starter_start_time_ms r) (starter_last_run_ms r) (engine_power_up_wait_ms r) (running_rpm_fail_timer_ms r) (force_staying_in_DELAY_NO_IGNITION_duration_ms r) (force_send_status r) v (brakeReleaseAllowedIn_Neutral_and_Disarmed r) (height_pending r) (initial_height r) (height_required r) (gear r) (temperature r) (temperature_source r) (fuel r) (srv_gear r) (srv_ignition r) (srv_starter r) (gpio_output_enable r) (gcs_log r).

Definition set_brakeReleaseAllowedIn_Neutral_and_Disarmed (v : bool) (r : AP_ICEngine) : AP_ICEngine :=
  Build_AP_ICEngine (state r) (state_prev r) (startControlSelect r) (starting_attempts r) (run_once r) (state_change_timestamp_ms r) (starter_start_time_ms r) (starter_last_run_ms r) (engine_power_up_wait_ms r) (running_rpm_fail_timer_ms r) (force_staying_in_DELAY_NO_IGNITION_duration_ms r) (force_send_status r) (auto_mode_active r) v (height_pending r) (initial_height r) (height_required r) (gear r) (temperature r) (temperature_source r) (fuel r) (srv_gear r) (srv_ignition r) (srv_starter r) (gpio_output_enable r) (gcs_log r).

Definition set_height_pending (v : bool) (r : AP_ICEngine) : AP_ICEngine :=
  Build_AP_ICEngine (state r) (state_prev r) (startControlSelect r) (starting_attempts r) (run_once r) (state_change_timestamp_ms r) (starter_start_time_ms r) (starter_last_run_ms r) (engine_power_up_wait_ms r) (running_rpm_fail_timer_ms r) (force_staying_in_DELAY_NO_IGNITION_duration_ms r) (force_send_status r) (auto_mode_active r) (brakeReleaseAllowedIn_Neutral_and_Disarmed r) v (initial_height r) (height_required r) (gear r) (temperature r) (temperature_source r) (fuel r) (srv_gear r) (srv_ignition r) (srv_starter r) (gpio_output_enable r) (gcs_log r).

Definition set_initial_height (v : float) (r : AP_ICEngine) : AP_ICEngine :=
  Build_AP_ICEngine (state r) (state_prev r) (startControlSelect r) (starting_attempts r) (run_once r) (state_change_timestamp_ms r) (starter_start_time_ms r) (starter_last_run_ms r) (engine_power_up_wait_ms r) (running_rpm_fail_timer_ms r) (force_staying_in_DELAY_NO_IGNITION_duration_ms r) (force_send_status r) (auto_mode_active r) (brakeReleaseAllowedIn_Neutral_and_Disarmed r) (height_pending r) v (height_required r) (gear r) (temperature r) (temperature_source r) (fuel r) (srv_gear r) (srv_ignition r) (srv_starter r) (gpio_output_enable r) (gcs_log r).

Definition set_height_required (v : float) (r : AP_ICEngine) : AP_ICEngine :=
  Build_AP_ICEngine (state r) (state_prev r) (startControlSelect r) (starting_attempts r) (run_once r) (state_change_timestamp_ms r) (starter_start_time_ms r) (starter_last_run_ms r) (engine_power_up_wait_ms r) (running_rpm_fail_timer_ms r) (force_staying_in_DELAY_NO_IGNITION_duration_ms r) (force_send_status r) (auto_mode_active r) (brakeReleaseAllowedIn_Neutral_and_Disarmed r) (height_pending r) (initial_height r) v (gear r) (temperature r) (temperature_source r) (fuel r) (srv_gear r) (srv_ignition r) (srv_starter r) (gpio_output_enable r) (gcs_log r).

Definition set_gear (v : Gear_t) (r : AP_ICEngine) : AP_ICEngine :=
  Build_AP_ICEngine (state r) (state_prev r) (startControlSelect r) (starting_attempts r) (run_once r) (state_change_timestamp_ms r) (starter_start_time_ms r) (starter_last_run_ms r) (engine_power_up_wait_ms r) (running_rpm_fail_timer_ms r) (force_staying_in_DELAY_NO_IGNITION_duration_ms r) (force_send_status r) (auto_mode_active r) (brakeReleaseAllowedIn_Neutral_and_Disarmed r) (height_pending r) (initial_height r) (height_required r) v (temperature r) (temperature_source r) (fuel r) (srv_gear r) (srv_ignition r) (srv_starter r) (gpio_output_enable r) (gcs_log r).

Definition set_temperature (v : Sensor_t) (r : AP_ICEngine) : AP_ICEngine :=
  Build_AP_ICEngine (state r) (state_prev r) (startControlSelect r) (starting_attempts r) (run_once r) (state_change_timestamp_ms r) (starter_start_time_ms r) (starter_last_run_ms r) (engine_power_up_wait_ms r) (running_rpm_fail_timer_ms r) (force_staying_in_DELAY_NO_IGNITION_duration_ms r) (force_send_status r) (auto_mode_active r) (brakeReleaseAllowedIn_Neutral_and_Disarmed r) (height_pending r) (initial_height r) (height_required r) (gear r) v (temperature_source r) (fuel r) (srv_gear r) (srv_ignition r) (srv_starter r) (gpio_output_enable r) (gcs_log r).

Definition set_temperature_source (v : bool) (r : AP_ICEngine) : AP_ICEngine :=
  Build_AP_ICEngine (state r) (state_prev r) (startControlSelect r) (starting_attempts r) (run_once r) (state_change_timestamp_ms r) (starter_start_time_ms r) (starter_last_run_ms r) (engine_power_up_wait_ms r) (running_rpm_fail_timer_ms r) (force_staying_in_DELAY_NO_IGNITION_duration_ms r) (force_send_status r) (auto_mode_active r) (brakeReleaseAllowedIn_Neutral_and_Disarmed r) (height_pending r) (initial_height r) (height_required r) (gear r) (temperature r) v (fuel r) (srv_gear r) (srv_ignition r) (srv_starter r) (gpio_output_enable r) (gcs_log r).

Definition set_fuel (v : Sensor_t) (r : AP_ICEngine) : AP_ICEngine :=
  Build_AP_ICEngine (state r) (state_prev r) (startControlSelect r) (starting_attempts r) (run_once r) (state_change_timestamp_ms r) (starter_start_time_ms r) (starter_last_run_ms r) (engine_power_up_wait_ms r) (running_rpm_fail_timer_ms r) (force_staying_in_DELAY_NO_IGNITION_duration_ms r) (force_send_status r) (auto_mode_active r) (brakeReleaseAllowedIn_Neutral_and_Disarmed r) (height_pending r) (initial_height r) (height_required r) (gear r) (temperature r) (temperature_source r) v (srv_gear r) (srv_ignition r) (srv_starter r) (gpio_output_enable r) (gcs_log r).

Definition set_srv_gear (v : ServoCmd) (r : AP_ICEngine) : AP_ICEngine :=
  Build_AP_ICEngine (state r) (state_prev r) (startControlSelect r) (starting_attempts r) (run_once r) (state_change_timestamp_ms r) (starter_start_time_ms r) (starter_last_run_ms r) (engine_power_up_wait_ms r) (running_rpm_fail_timer_ms r) (force_staying_in_DELAY_NO_IGNITION_duration_ms r) (force_send_status r) (auto_mode_active r) (brakeReleaseAllowedIn_Neutral_and_Disarmed r) (height_pending r) (initial_height r) (height_required r) (gear r) (temperature r) (temperature_source r) (fuel r) v (srv_ignition r) (srv_starter r) (gpio_output_enable r) (gcs_log r).

Definition set_srv_ignition (v : ServoCmd) (r : AP_ICEngine) : AP_ICEngine :=
  Build_AP_ICEngine (state r) (state_prev r) (startControlSelect r) (starting_attempts r) (run_once r) (state_change_timestamp_ms r) (starter_start_time_ms r) (starter_last_run_ms r) (engine_power_up_wait_ms r) (running_rpm_fail_timer_ms r) (force_staying_in_DELAY_NO_IGNITION_duration_ms r) (force_send_status r) (auto_mode_active r) (brakeReleaseAllowedIn_Neutral_and_Disarmed r) (height_pending r) (initial_height r) (height_required r) (gear r) (temperature r) (temperature_source r) (fuel r) (srv_gear r) v (srv_starter r) (gpio_output_enable r) (gcs_log r).

Definition set_srv_starter (v : ServoCmd) (r : AP_ICEngine) : AP_ICEngine :=
  Build_AP_ICEngine (state r) (state_prev r) (startControlSelect r) (starting_attempts r) (run_once r) (state_change_timestamp_ms r) (starter_start_time_ms r) (starter_last_run_ms r) (engine_power_up_wait_ms r) (running_rpm_fail_timer_ms r) (force_staying_in_DELAY_NO_IGNITION_duration_ms r) (force_send_status r) (auto_mode_active r) (brakeReleaseAllowedIn_Neutral_and_Disarmed r) (height_pending r) (initial_height r) (height_required r) (gear r) (temperature r) (temperature_source r) (fuel r) (srv_gear r) (srv_ignition r) v (gpio_output_enable r) (gcs_log r).

Definition set_gpio_output_enable (v : option bool) (r : AP_ICEngine) : AP_ICEngine :=
  Build_AP_ICEngine (state r) (state_prev r) (startControlSelect r) (starting_attempts r) (run_once r) (state_change_timestamp_ms r) (starter_start_time_ms r) (starter_last_run_ms r) (engine_power_up_wait_ms r) (running_rpm_fail_timer_ms r) (force_staying_in_DELAY_NO_IGNITION_duration_ms r) (force_send_status r) (auto_mode_active r) (brakeReleaseAllowedIn_Neutral_and_Disarmed r) (height_pending r) (initial_height r) (height_required r) (gear r) (temperature r) (temperature_source r) (fuel r) (srv_gear r) (srv_ignition r) (srv_starter r) v (gcs_log r).

Definition set_gcs_log (v : list GcsText) (r : AP_ICEngine) : AP_ICEngine :=
  Build_AP_ICEngine (state r) (state_prev r) (startControlSelect r) (starting_attempts r) (run_once r) (state_change_timestamp_ms r) (starter_start_time_ms r) (starter_last_run_ms r) (engine_power_up_wait_ms r) (running_rpm_fail_timer_ms r) (force_staying_in_DELAY_NO_IGNITION_duration_ms r) (force_send_status r) (auto_mode_active r) (brakeReleaseAllowedIn_Neutral_and_Disarmed r) (height_pending r) (initial_height r) (height_required r) (gear r) (temperature r) (temperature_source r) (fuel r) (srv_gear r) (srv_ignition r) (srv_starter r) (gpio_output_enable r) v.

(** ** Parameters, platform and per-call inputs *)

(** The AP_Param values the modelled functions read ([var_info]); the two
    gear durations are members of [gear.pending] and live in [Pending_t]
    because [update_gear] writes them back. *)
Record Params : Type := {
  enable : Z;
  starter_time : float;
  starter_delay : float;
  rpm_threshold_running : Z;
  rpm_instance : Z;
  idle_percent : Z;
  rpm_threshold_starting : Z;
  power_up_time : Z;
  options : Z;
  resarts_allowed : Z;
  master_output_enable_pin : Z;
  temperature_pin : Z;
  temperature_scaler : float;
  temperature_ratiometric : Z;
  temperature_offset : float;
  temperature_function : Z;
  pwm_park_up : Z;
  pwm_park_down : Z;
  pwm_reverse_up : Z;
  pwm_reverse_down : Z;
  pwm_neutral_up : Z;
  pwm_neutral_down : Z;
  pwm_forward1_up : Z;
  pwm_forward1_down : Z;
  pwm_forward2_up : Z;
  pwm_forward2_down : Z
}.

(** The OPTIONS bits. Bits 0 to 3 are documented with the parameter in
    [var_info]. *)
Definition AP_ICENGINE_OPTIONS_MASK_ARMING_REQUIRED_IGNITION : Z := 1.
Definition AP_ICENGINE_OPTIONS_MASK_ARMING_REQUIRED_START : Z := 2.
Definition AP_ICENGINE_OPTIONS_MASK_KEEP_RUNNING_WHEN_DISARMED : Z := 4.
Definition AP_ICENGINE_OPTIONS_MASK_AUTO_ALWAYS_AUTOSTART : Z := 8.

(** Modelled from the spec: the masks of bits 4 to 7 are defined in
    AP_ICEngine.h, which is not among the sources. The spec gives bit 4 as
    the running-RPM fail grace timer, bit 5 as the forced starter-off dwell
    on a running-RPM fail, bit 6 as blocking external start commands and
    bit 7 as auto-missions forcing the FORWARD gear. *)
Definition AP_ICENGINE_OPTIONS_MASK_RPM_FAIL_HAS_TIMER : Z := 16.
Definition AP_ICENGINE_OPTIONS_MASK_RUNNING_FAIL_FORCE_STOP_MOTOR : Z := 32.
Definition AP_ICENGINE_OPTIONS_MASK_BLOCK_EXTERNAL_STARTER_CMDS : Z := 64.
Definition AP_ICENGINE_OPTIONS_MASK_AUTO_SETS_GEAR_FORWARD : Z := 128.

(** [options & mask] used as a condition. *)
Definition option_set (p : Params) (mask : Z) : bool :=
  negb (Z.land (options p) mask =? 0).

Definition AP_ICENGINE_FUEL_LEVEL_INVALID : float := F32.of_Z (-1).
Definition ICE_GEAR_STATE_PWM_INVALID : Z := 0.

(** What the build and the libraries outside AP_ICEngine.cpp decide: the
    AP_Math predicates, the numbering of the MAVLink gear enumeration, and
    whether the build is APMrover2 (which compiles the height delay out). *)
Record Platform : Type := {
  is_equal : float -> float -> bool;
  is_zero : float -> bool;
  is_negative : float -> bool;
  gear_value : MAV_ICE_TRANSMISSION_GEAR_STATE -> Z;
  MAV_ICE_TRANSMISSION_GEAR_STATE_ENUM_END : Z;
  build_is_rover : bool
}.

(** An RC input channel: the current input and the trim. *)
Record RC_Channel : Type := {
  radio_in : Z;
  radio_trim : Z
}.

(** The places where [AP_HAL::millis()] is read. *)
Inductive ClockSite : Type :=
  | At_update_temperature
  | At_update_fuel
  | At_determine_state
  | At_starter_start
  | At_starter_last_run
  | At_update_gear
  | At_set_transmission
  | At_send_status
  | At_engine_control.

(** Everything a call reads from outside the controller. *)
Record Env : Type := {
  millis : ClockSite -> Z;
  soft_armed : bool;
  (* rc().channel(start_chan-1), None for nullptr *)
  rc_start_chan : option RC_Channel;
  (* AP::rpm(), None for nullptr; the function is get_rpm *)
  rpm_sensor : option (Z -> float);
  (* pos.z when get_relative_position_NED_origin succeeds *)
  ahrs_position_z : option float;
  battery_healthy : bool;
  capacity_remaining_pct : float;
  (* whether hal.analogin->channel(pin) yields a handle, and its readings *)
  analogin_channel : bool;
  voltage_average : float;
  voltage_average_ratiometric : float;
  (* the output PWM of the engine_gear function once set to trim,
     None when the function is not assigned *)
  srv_gear_function : option Z;
  (* the trim of the channel carrying the function, None for nullptr *)
  srv_ignition_channel : option Z;
  srv_starter_channel : option Z;
  (* for every active MAVLink channel, the three answers of
     HAVE_PAYLOAD_SPACE in send_status *)
  mavlink_channels : list (bool * bool * bool)
}.

Definition now (e : Env) (site : ClockSite) : Z := U32.wrap (millis e site).

Definition log (t : GcsText) (st : AP_ICEngine) : AP_ICEngine :=
  set_gcs_log (gcs_log st ++ [t]) st.

Definition set_gear_pending (v : Pending_t) (st : AP_ICEngine) : AP_ICEngine :=
  set_gear (set_pending v (gear st)) st.

(** ** Helpers declared in the header *)

(** Modelled from the spec: [gear.pending.is_active()] is defined in
    AP_ICEngine.h, which is not among the sources. The spec's tick runs the
    stop-wait phase while [stop_vehicle_start_ms > 0] and the shift phase
    while [change_physical_gear_start_ms > 0], and calls a change pending
    while one of the phases runs. *)
Definition is_active (pd : Pending_t) : bool :=
  (0 <? stop_vehicle_start_ms pd) || (0 <? change_physical_gear_start_ms pd).

(** Modelled from the spec: [gear.pending.cancel()] is defined in
    AP_ICEngine.h; a change is pending while a phase timestamp is non-zero,
    so cancelling clears both. *)
Definition cancel (pd : Pending_t) : Pending_t :=
  set_change_physical_gear_start_ms 0 (set_stop_vehicle_start_ms 0 pd).

(** Modelled from the spec: [gear.is_forward()] is defined in
    AP_ICEngine.h; the spec reads it as the current gear being a FORWARD
    variant. *)
Definition is_forward (g : Gear_t) : bool :=
  match gear_state g with
  | MAV_ICE_TRANSMISSION_GEAR_STATE_FORWARD
  | MAV_ICE_TRANSMISSION_GEAR_STATE_FORWARD_1
  | MAV_ICE_TRANSMISSION_GEAR_STATE_FORWARD_2
  | MAV_ICE_TRANSMISSION_GEAR_STATE_FORWARD_3
  | MAV_ICE_TRANSMISSION_GEAR_STATE_FORWARD_4
  | MAV_ICE_TRANSMISSION_GEAR_STATE_FORWARD_5
  | MAV_ICE_TRANSMISSION_GEAR_STATE_FORWARD_6
  | MAV_ICE_TRANSMISSION_GEAR_STATE_FORWARD_7
  | MAV_ICE_TRANSMISSION_GEAR_STATE_FORWARD_8
  | MAV_ICE_TRANSMISSION_GEAR_STATE_FORWARD_9 => true
  | _ => false
  end.

(** Modelled from the spec: [Gear_t::get_position_max()] is defined in
    AP_ICEngine.h; the spec gives the maximum position as 5. *)
Definition get_position_max : Z := 5.

(** ** The functions of AP_ICEngine.cpp *)

Definition convertPwmToIgnitionState (pwm : Z) : ICE_Ignition_State :=
  if pwm <=? 1300 then ICE_IGNITION_OFF
  else if 1700 <=? pwm then ICE_IGNITION_START_RUN
  else ICE_IGNITION_ACCESSORY.

Definition convertPwmToGearState (p : Params) (pwm : Z)
  : MAV_ICE_TRANSMISSION_GEAR_STATE :=
  let margin := 20 in
  let within (down up : Z) :=
    ((down <=? up) && (pwm <=? up + margin) && (down - margin <=? pwm))
    || ((up <? down) && (pwm <=? down + margin) && (up - margin <=? pwm)) in
  if within (pwm_forward2_down p) (pwm_forward2_up p) then MAV_ICE_TRANSMISSION_GEAR_STATE_FORWARD_2
  else if within (pwm_forward1_down p) (pwm_forward1_up p) then MAV_ICE_TRANSMISSION_GEAR_STATE_FORWARD
  else if within (pwm_neutral_down p) (pwm_neutral_up p) then MAV_ICE_TRANSMISSION_GEAR_STATE_NEUTRAL
  else if within (pwm_reverse_down p) (pwm_reverse_up p) then MAV_ICE_TRANSMISSION_GEAR_STATE_REVERSE
  else MAV_ICE_TRANSMISSION_GEAR_STATE_PARK.

Definition constrain_pwm_with_direction
  (initial desired pwm_going_down pwm_going_up : Z) : Z :=
  if initial =? desired then initial
  else if desired <? initial then pwm_going_down
  else pwm_going_up.

Definition get_position (g : MAV_ICE_TRANSMISSION_GEAR_STATE) : Z :=
  match g with
  | MAV_ICE_TRANSMISSION_GEAR_STATE_PARK => 1
  | MAV_ICE_TRANSMISSION_GEAR_STATE_REVERSE
  | MAV_ICE_TRANSMISSION_GEAR_STATE_REVERSE_1
  | MAV_ICE_TRANSMISSION_GEAR_STATE_REVERSE_2
  | MAV_ICE_TRANSMISSION_GEAR_STATE_REVERSE_3 => 2
  | MAV_ICE_TRANSMISSION_GEAR_STATE_NEUTRAL => 3
  | MAV_ICE_TRANSMISSION_GEAR_STATE_FORWARD
  | MAV_ICE_TRANSMISSION_GEAR_STATE_FORWARD_1 => 4
  | MAV_ICE_TRANSMISSION_GEAR_STATE_FORWARD_2
  | MAV_ICE_TRANSMISSION_GEAR_STATE_FORWARD_3
  | MAV_ICE_TRANSMISSION_GEAR_STATE_FORWARD_4
  | MAV_ICE_TRANSMISSION_GEAR_STATE_FORWARD_5
  | MAV_ICE_TRANSMISSION_GEAR_STATE_FORWARD_6
  | MAV_ICE_TRANSMISSION_GEAR_STATE_FORWARD_7
  | MAV_ICE_TRANSMISSION_GEAR_STATE_FORWARD_8
  | MAV_ICE_TRANSMISSION_GEAR_STATE_FORWARD_9 => 5
  | MAV_ICE_TRANSMISSION_GEAR_STATE_PWM_VALUE
  | MAV_ICE_TRANSMISSION_GEAR_STATE_UNKNOWN => 0
  end.

(** The first [switch] of [set_ice_transmission_state]: the normalised gear
    and the PWM to approach it with, or [None] for the unhandled gears. The
    arguments of [constrain_pwm_with_direction] are [int16_t] and its result
    is stored in a [uint16_t]. *)
Definition pending_pwm_for (p : Params) (pwm_act : Z)
  (gearState : MAV_ICE_TRANSMISSION_GEAR_STATE) (pwm_value : Z)
  : option (MAV_ICE_TRANSMISSION_GEAR_STATE * Z) :=
  let toward (down up : Z) : Z :=
    to_uint16 (constrain_pwm_with_direction (to_int16 pwm_act)
                 (to_int16 (Z.quot (down + up) 2)) (to_int16 down) (to_int16 up)) in
  match gearState with
  | MAV_ICE_TRANSMISSION_GEAR_STATE_PARK =>
      Some (MAV_ICE_TRANSMISSION_GEAR_STATE_PARK, toward (pwm_park_down p) (pwm_park_up p))
  | MAV_ICE_TRANSMISSION_GEAR_STATE_REVERSE
  | MAV_ICE_TRANSMISSION_GEAR_STATE_REVERSE_1 =>
      Some (MAV_ICE_TRANSMISSION_GEAR_STATE_REVERSE, toward (pwm_reverse_down p) (pwm_reverse_up p))
  | MAV_ICE_TRANSMISSION_GEAR_STATE_NEUTRAL =>
      Some (MAV_ICE_TRANSMISSION_GEAR_STATE_NEUTRAL, toward (pwm_neutral_down p) (pwm_neutral_up p))
  | MAV_ICE_TRANSMISSION_GEAR_STATE_FORWARD
  | MAV_ICE_TRANSMISSION_GEAR_STATE_FORWARD_1 =>
      Some (MAV_ICE_TRANSMISSION_GEAR_STATE_FORWARD, toward (pwm_forward1_down p) (pwm_forward1_up p))
  | MAV_ICE_TRANSMISSION_GEAR_STATE_FORWARD_2 =>
      Some (MAV_ICE_TRANSMISSION_GEAR_STATE_FORWARD_2, toward (pwm_forward2_down p) (pwm_forward2_up p))
  | MAV_ICE_TRANSMISSION_GEAR_STATE_PWM_VALUE => Some (MAV_ICE_TRANSMISSION_GEAR_STATE_PWM_VALUE, pwm_value)
  | _ => None
  end.

Definition set_ice_transmission_state (e : Env) (p : Params)
  (gearState : MAV_ICE_TRANSMISSION_GEAR_STATE) (pwm_value : Z)
  (st : AP_ICEngine) : AP_ICEngine * bool :=
  match pending_pwm_for p (pwm_active (gear st)) gearState pwm_value with
  | None => (st, false)
  | Some (gearState, pendingPwm) =>
      if negb (gear_eqb gearState MAV_ICE_TRANSMISSION_GEAR_STATE_PWM_VALUE)
         && (gear_eqb (gear_state (gear st)) gearState
             || (is_active (pending (gear st))
                 && gear_eqb (pending_state (pending (gear st))) gearState))
      then (st, true)
      else
        let was_active := is_active (pending (gear st)) in
        let pd := set_pending_pwm pendingPwm
                    (set_pending_state gearState (pending (gear st))) in
        let total_steps :=
          if negb was_active then
            let gear_pos_current := get_position (gear_state (gear st)) in
            let gear_pos_pending := get_position (pending_state pd) in
            Z.max 1 (Z.abs (gear_pos_current - gear_pos_pending))
          else get_position_max in
        let pd := set_change_duration_total_ms
                    (F32.to_uint32
                       (F32.mul (F32.mul (change_duration_per_posiiton pd)
                                   (F32.of_Z 1000)) (F32.of_Z total_steps))) pd in
        let pd := set_stop_vehicle_start_ms (now e At_set_transmission) pd in
        let st := set_gear_pending pd st in
        let st := set_force_send_status true st in
        let st := log (Txt_gear_change (gear_state (gear st)) (pending_state pd)
                         (change_duration_total_ms pd)) st in
        (st, true)
  end.

Definition set_output_channels (e : Env) (p : Params) (st : AP_ICEngine)
  : AP_ICEngine :=
  let st :=
    match srv_gear_function e with
    | None =>
        set_gear (set_gear_state MAV_ICE_TRANSMISSION_GEAR_STATE_UNKNOWN
                    (set_pwm_active ICE_GEAR_STATE_PWM_INVALID (gear st))) st
    | Some trim_pwm =>
        if gear_eqb (gear_state (gear st)) MAV_ICE_TRANSMISSION_GEAR_STATE_UNKNOWN then
          let st := set_srv_gear SrvTrim st in
          let g := set_pwm_active (to_uint16 trim_pwm) (gear st) in
          set_gear (set_gear_state (convertPwmToGearState p (pwm_active g)) g) st
        else set_srv_gear (SrvPwm (pwm_active (gear st))) st
    end in
  if is_active (pending (gear st)) && negb (ICE_State_eqb (state st) ICE_OFF)
  then st
  else
    match state st with
    | ICE_OFF | ICE_START_DELAY_NO_IGNITION =>
        let st := match srv_ignition_channel e with
                  | Some trim => set_srv_ignition (SrvPwm trim) st
                  | None => st
                  end in
        match srv_starter_channel e with
        | Some trim => set_srv_starter (SrvPwm trim) st
        | None => st
        end
    | ICE_START_HEIGHT_DELAY | ICE_START_DELAY =>
        set_srv_starter (SrvScaled 0) (set_srv_ignition (SrvScaled 100) st)
    | ICE_STARTING =>
        set_srv_starter (SrvScaled 100) (set_srv_ignition (SrvScaled 100) st)
    | ICE_RUNNING =>
        set_srv_starter (SrvScaled 0) (set_srv_ignition (SrvScaled 100) st)
    end.

(** [init] also overrides the start channel's input with its trim; the
    input seen by the rest of the call is [env_after_init]. *)
Definition init (e : Env) (p : Params) (inhibit_outputs : bool)
  (st : AP_ICEngine) : AP_ICEngine :=
  let st := if 0 <=? master_output_enable_pin p
            then set_gpio_output_enable (Some inhibit_outputs) st else st in
  let st := set_output_channels e p st in
  let st := match rc_start_chan e with
            | Some c =>
                let boot_up_value := radio_trim c in
                set_startControlSelect (convertPwmToIgnitionState boot_up_value) st
            | None => set_startControlSelect ICE_IGNITION_OFF st
            end in
  set_gear_pending (cancel (pending (gear st))) st.

Definition env_after_init (e : Env) : Env :=
  {| millis := millis e;
     soft_armed := soft_armed e;
     rc_start_chan :=
       match rc_start_chan e with
       | Some c => Some {| radio_in := radio_trim c; radio_trim := radio_trim c |}
       | None => None
       end;
     rpm_sensor := rpm_sensor e;
     ahrs_position_z := ahrs_position_z e;
     battery_healthy := battery_healthy e;
     capacity_remaining_pct := capacity_remaining_pct e;
     analogin_channel := analogin_channel e;
     voltage_average := voltage_average e;
     voltage_average_ratiometric := voltage_average_ratiometric e;
     srv_gear_function := srv_gear_function e;
     srv_ignition_channel := srv_ignition_channel e;
     srv_starter_channel := srv_starter_channel e;
     mavlink_channels := mavlink_channels e |}.

(** *** Sensors *)

Definition update_fuel (e : Env) (st : AP_ICEngine) : AP_ICEngine :=
  if negb (battery_healthy e) then
    set_fuel (set_value AP_ICENGINE_FUEL_LEVEL_INVALID (fuel st)) st
  else
    let now_ms := now e At_update_fuel in
    let new_value := capacity_remaining_pct e in
    let f := fuel st in
    let f := if (last_sample_ms f =? 0)
                || (5000 <? U32.sub (last_sample_ms f) now_ms)
             then set_value new_value f else f in
    let f := set_value (F32.add (F32.mul F32.c0_1 (value f))
                          (F32.mul F32.c0_9 new_value)) f in
    let f := set_last_sample_ms now_ms f in
    set_fuel f st.

(** The temperature the sample converts to, [None] where the function
    returns without averaging the sample in. *)
Definition temperature_of_voltage (pf : Platform) (p : Params) (v : float)
  : option float :=
  match temperature_function_of (temperature_function p) with
  | Some FUNCTION_LINEAR =>
      Some (F32.mul (F32.sub v (temperature_offset p)) (temperature_scaler p))
  | Some FUNCTION_INVERTED =>
      Some (F32.mul (F32.sub (temperature_offset p) v) (temperature_scaler p))
  | Some FUNCTION_HYPERBOLA =>
      if is_zero pf (F32.sub v (temperature_offset p)) then None
      else Some (F32.div (temperature_scaler p) (F32.sub v (temperature_offset p)))
  | None => None
  end.

Definition update_temperature (pf : Platform) (e : Env) (p : Params)
  (st : AP_ICEngine) : AP_ICEngine :=
  if negb (temperature_source st) then
    set_temperature_source (analogin_channel e) st
  else if temperature_pin p <=? 0 then
    set_temperature
      (set_last_sample_ms 0 (set_value (F32.of_Z 0) (temperature st))) st
  else
    let v := if negb (temperature_ratiometric p =? 0)
             then voltage_average_ratiometric e else voltage_average e in
    match temperature_of_voltage pf p v with
    | None => st
    | Some new_temp_value =>
        if negb (F32.isinf new_temp_value) then
          let now_ms := now e At_update_temperature in
          let t := temperature st in
          let t := if (last_sample_ms t =? 0)
                      || (5000 <? U32.sub (last_sample_ms t) now_ms)
                   then set_value new_temp_value t else t in
          let t := set_value (F32.add (F32.mul F32.c0_1 (value t))
                                (F32.mul F32.c0_9 new_temp_value)) t in
          let t := set_last_sample_ms now_ms t in
          set_temperature t st
        else st
    end.

(** *** The engine state machine *)

(** [case ICE_OFF]. *)
Definition case_ICE_OFF (system_should_be_off : bool) (st : AP_ICEngine)
  : AP_ICEngine :=
  let st := set_starting_attempts 0 st in
  if negb system_should_be_off
     && negb (ICE_Ignition_State_eqb (startControlSelect st) ICE_IGNITION_OFF)
  then set_state ICE_START_DELAY st
  else st.

(** [case ICE_START_HEIGHT_DELAY], compiled for every build but APMrover2. *)
Definition case_ICE_START_HEIGHT_DELAY (e : Env) (is_soft_armed : bool)
  (st : AP_ICEngine) : AP_ICEngine :=
  match ahrs_position_z e with
  | None => st
  | Some pos_z =>
      if height_pending st || negb is_soft_armed then
        set_initial_height (F32.neg pos_z) (set_height_pending false st)
      else if F32.geb (F32.neg pos_z)
                (F32.add (initial_height st) (height_required st)) then
        let st := log (Txt_starting_height_reached
                         (F32.sub (F32.neg pos_z) (initial_height st))) st in
        set_state ICE_STARTING st
      else st
  end.

(** [case ICE_START_DELAY_NO_IGNITION]. *)
Definition case_ICE_START_DELAY_NO_IGNITION (now_ms : Z) (st : AP_ICEngine)
  : AP_ICEngine :=
  if (0 <? force_staying_in_DELAY_NO_IGNITION_duration_ms st)
     && (U32.sub now_ms (state_change_timestamp_ms st)
         <? force_staying_in_DELAY_NO_IGNITION_duration_ms st)
  then st
  else set_force_staying_in_DELAY_NO_IGNITION_duration_ms 0 st.

(** [case ICE_START_DELAY]. *)
Definition case_ICE_START_DELAY (p : Params) (now_ms : Z)
  (arming_OK_to_start_or_run : bool) (st : AP_ICEngine) : AP_ICEngine :=
  if negb (ICE_Ignition_State_eqb (startControlSelect st) ICE_IGNITION_START_RUN)
     || negb arming_OK_to_start_or_run
  then st
  else if (0 <=? resarts_allowed p) && (resarts_allowed p <? starting_attempts st)
  then st
  else
    let go (st : AP_ICEngine) : AP_ICEngine :=
      if F32.leb (starter_delay p) (F32.of_Z 0) then set_state ICE_STARTING st
      else if (starter_last_run_ms st =? 0)
              || F32.geb (F32.of_Z (U32.sub now_ms (starter_last_run_ms st)))
                   (F32.mul (starter_delay p) (F32.of_Z 1000))
      then set_state ICE_STARTING (log (Txt_engine_starting (starter_delay p)) st)
      else st in
    if 0 <? power_up_time p then
      if engine_power_up_wait_ms st =? 0 then
        set_engine_power_up_wait_ms now_ms
          (log (Txt_engine_waiting (power_up_time p)) st)
      else if U32.sub now_ms (engine_power_up_wait_ms st)
              <? U32.mul (U32.wrap (power_up_time p)) 1000
      then st
      else go st
    else go st.

(** The comparison [now_ms - starter_start_time_ms >= starter_time*1000]. *)
Definition starter_time_expired (p : Params) (now_ms start_ms : Z) : bool :=
  F32.geb (F32.of_Z (U32.sub now_ms start_ms))
    (F32.mul (starter_time p) (F32.of_Z 1000)).

(** [case ICE_STARTING]. *)
Definition case_ICE_STARTING (e : Env) (p : Params) (now_ms current_rpm : Z)
  (arming_OK_to_start_or_run : bool) (st : AP_ICEngine) : AP_ICEngine :=
  let st := set_engine_power_up_wait_ms 0 st in
  let st := if starter_start_time_ms st =? 0 then
              set_starter_start_time_ms (now e At_starter_start)
                (set_starting_attempts (starting_attempts st + 1) st)
            else st in
  let st := set_starter_last_run_ms (now e At_starter_last_run) st in
  if negb arming_OK_to_start_or_run then
    set_state ICE_START_DELAY (log Txt_engine_stopped st)
  else if (0 <? rpm_threshold_starting p)
          && (rpm_threshold_starting p <=? current_rpm) then
    set_state ICE_RUNNING (log (Txt_engine_running_rpm current_rpm) st)
  else if starter_time_expired p now_ms (starter_start_time_ms st) then
    if rpm_threshold_starting p <=? 0 then
      set_state ICE_RUNNING (log Txt_engine_running_no_rpm st)
    else if current_rpm <? 0 then
      set_state ICE_OFF (log Txt_start_failed_check_rpm st)
    else if current_rpm <? rpm_threshold_starting p then
      set_state ICE_START_DELAY (log (Txt_start_failed_rpm current_rpm) st)
    else st
  else st.

(** [case ICE_RUNNING]. *)
Definition case_ICE_RUNNING (p : Params) (now_ms current_rpm : Z)
  (is_soft_armed : bool) (st : AP_ICEngine) : AP_ICEngine :=
  let st := set_engine_power_up_wait_ms 0 st in
  if negb is_soft_armed && (idle_percent p <=? 0)
     && negb (option_set p AP_ICENGINE_OPTIONS_MASK_KEEP_RUNNING_WHEN_DISARMED)
  then log Txt_engine_stopped_disarmed (set_state ICE_OFF st)
  else if (0 <? rpm_threshold_running p) && (0 <=? current_rpm)
          && (current_rpm <? rpm_threshold_running p) then
    let st := if running_rpm_fail_timer_ms st =? 0
              then set_running_rpm_fail_timer_ms now_ms st else st in
    if option_set p AP_ICENGINE_OPTIONS_MASK_RPM_FAIL_HAS_TIMER
       && (U32.sub now_ms (running_rpm_fail_timer_ms st) <=? 500)
    then st
    else
      let st :=
        if option_set p AP_ICENGINE_OPTIONS_MASK_RUNNING_FAIL_FORCE_STOP_MOTOR
        then set_force_staying_in_DELAY_NO_IGNITION_duration_ms 3000
               (set_state ICE_START_DELAY_NO_IGNITION st)
        else set_state ICE_START_DELAY st in
      if negb (ICE_State_eqb (state st) ICE_RUNNING)
      then log (Txt_engine_died current_rpm) st else st
  else set_running_rpm_fail_timer_ms 0 st.

(** The resolution of the ignition switch at the head of
    [determine_state]. *)
Definition resolve_startControlSelect (e : Env) (p : Params)
  (st : AP_ICEngine) : AP_ICEngine :=
  if auto_mode_active st
     && option_set p AP_ICENGINE_OPTIONS_MASK_AUTO_ALWAYS_AUTOSTART then
    if negb (ICE_Ignition_State_eqb (startControlSelect st) ICE_IGNITION_START_RUN)
    then set_force_send_status true
           (set_startControlSelect ICE_IGNITION_START_RUN st)
    else st
  else
    match rc_start_chan e with
    | Some c =>
        set_startControlSelect (convertPwmToIgnitionState (radio_in c)) st
    | None => st
    end.

Definition arming_OK_to_ign (e : Env) (p : Params) : bool :=
  soft_armed e
  || (negb (soft_armed e)
      && negb (option_set p AP_ICENGINE_OPTIONS_MASK_ARMING_REQUIRED_IGNITION)).

Definition arming_OK_to_start_or_run (e : Env) (p : Params) : bool :=
  soft_armed e
  || (negb (soft_armed e)
      && negb (option_set p AP_ICENGINE_OPTIONS_MASK_ARMING_REQUIRED_START)).

Definition system_should_be_off (e : Env) (p : Params) (st : AP_ICEngine)
  : bool :=
  ICE_Ignition_State_eqb (startControlSelect st) ICE_IGNITION_OFF
  || negb (arming_OK_to_ign e p).

(** [current_rpm]: -1 unless an RPM instance is configured and present. *)
Definition read_current_rpm (e : Env) (p : Params) : Z :=
  if 0 <? rpm_instance p then
    match rpm_sensor e with
    | Some get_rpm => F32.to_int32 (get_rpm (rpm_instance p - 1))
    | None => -1
    end
  else -1.

(** The [switch (state)]; a state without a [case] takes [default]. *)
Definition switch_state (pf : Platform) (e : Env) (p : Params)
  (now_ms current_rpm : Z) (should_be_off : bool) (st : AP_ICEngine)
  : AP_ICEngine :=
  match state st with
  | ICE_OFF => case_ICE_OFF should_be_off st
  | ICE_START_HEIGHT_DELAY =>
      if build_is_rover pf then set_state ICE_OFF st
      else case_ICE_START_HEIGHT_DELAY e (soft_armed e) st
  | ICE_START_DELAY_NO_IGNITION => case_ICE_START_DELAY_NO_IGNITION now_ms st
  | ICE_START_DELAY =>
      case_ICE_START_DELAY p now_ms (arming_OK_to_start_or_run e p) st
  | ICE_STARTING =>
      case_ICE_STARTING e p now_ms current_rpm (arming_OK_to_start_or_run e p) st
  | ICE_RUNNING => case_ICE_RUNNING p now_ms current_rpm (soft_armed e) st
  end.

Definition determine_state (pf : Platform) (e : Env) (p : Params)
  (st : AP_ICEngine) : AP_ICEngine :=
  let st := resolve_startControlSelect e p st in
  let now_ms := now e At_determine_state in
  let should_be_off := system_should_be_off e p st in
  let st := if should_be_off then
              let st := if negb (ICE_State_eqb (state st) ICE_OFF)
                        then log Txt_engine_stopped st else st in
              set_state ICE_OFF st
            else st in
  let current_rpm := read_current_rpm e p in
  let st := switch_state pf e p now_ms current_rpm should_be_off st in
  let st := if negb (ICE_State_eqb (state st) ICE_STARTING)
            then set_starter_start_time_ms 0 st else st in
  let st := if negb (ICE_State_eqb (state_prev st) (state st))
            then set_state_change_timestamp_ms now_ms st else st in
  set_state_prev (state st) st.

(** *** The gear state machine *)

Definition update_gear (pf : Platform) (e : Env) (p : Params)
  (st : AP_ICEngine) : AP_ICEngine :=
  let now_ms := now e At_update_gear in
  let st := if is_negative pf (stop_duration (pending (gear st)))
            then set_gear_pending
                   (set_stop_duration (F32.of_Z 0) (pending (gear st))) st
            else st in
  let st := if is_negative pf (change_duration_per_posiiton (pending (gear st)))
            then set_gear_pending
                   (set_change_duration_per_posiiton (F32.of_Z 2)
                      (pending (gear st))) st
            else st in
  let pd := pending (gear st) in
  if 0 <? stop_vehicle_start_ms pd then
    if F32.geb (F32.of_Z (U32.sub now_ms (stop_vehicle_start_ms pd)))
         (F32.mul (stop_duration pd) (F32.of_Z 1000))
    then
      let pd := set_change_physical_gear_start_ms now_ms pd in
      let pd := set_stop_vehicle_start_ms 0 pd in
      let g := set_pending pd (gear st) in
      let g := set_pwm_active (pending_pwm pd) g in
      let g := set_gear_state (pending_state pd) g in
      set_force_send_status true (set_gear g st)
    else st
  else if 0 <? change_physical_gear_start_ms pd then
    if change_duration_total_ms pd
       <=? U32.sub now_ms (change_physical_gear_start_ms pd)
    then
      let st := log (Txt_gear_is_now (gear_state (gear st))) st in
      let st := set_gear_pending (set_change_physical_gear_start_ms 0 pd) st in
      set_force_send_status true st
    else st
  else if auto_mode_active st
          && ICE_State_eqb (state st) ICE_RUNNING
          && option_set p AP_ICENGINE_OPTIONS_MASK_AUTO_SETS_GEAR_FORWARD
          && negb (set_by_automission (gear st))
          && negb (is_forward (gear st))
          && negb (is_active (pending (gear st)))
  then fst (set_ice_transmission_state e p MAV_ICE_TRANSMISSION_GEAR_STATE_FORWARD 0 st)
  else st.

(** *** Telemetry

    Only what [send_status] leaves in the controller is modelled: the
    one-shot [force_send_status] and the three send timestamps. *)
Definition send_status (e : Env) (st : AP_ICEngine) : AP_ICEngine :=
  let now_ms := now e At_send_status in
  let force := force_send_status st in
  let st := set_force_send_status false st in
  let send_temp :=
    force || (1000 <=? U32.sub now_ms (last_send_ms (temperature st))) in
  let hasGear := match srv_gear_function e with Some _ => true | None => false end in
  let send_gear :=
    force || (1000 <=? U32.sub now_ms (gear_last_send_ms (gear st))) in
  let send_fuel :=
    force || (1000 <=? U32.sub now_ms (last_send_ms (fuel st))) in
  let temp_sent :=
    existsb (fun c => send_temp && fst (fst c)) (mavlink_channels e) in
  let gear_sent :=
    existsb (fun c => hasGear && send_gear && snd (fst c)) (mavlink_channels e) in
  let fuel_sent :=
    existsb (fun c => send_fuel && snd c) (mavlink_channels e) in
  let st := if temp_sent
            then set_temperature (set_last_send_ms now_ms (temperature st)) st
            else st in
  let st := if gear_sent
            then set_gear (set_gear_last_send_ms now_ms (gear st)) st
            else st in
  if fuel_sent then set_fuel (set_last_send_ms now_ms (fuel st)) st else st.

(** *** The tick *)

Definition update (pf : Platform) (e : Env) (p : Params) (st : AP_ICEngine)
  : AP_ICEngine :=
  if enable p =? 0 then
    let st := set_state ICE_OFF st in
    if run_once st then init e p true (set_run_once false st) else st
  else
    let first_run := negb (run_once st) in
    let st := if first_run then init e p false (set_run_once true st) else st in
    let e := if first_run then env_after_init e else e in
    let st := update_temperature pf e p st in
    let st := update_fuel e st in
    let st := determine_state pf e p st in
    let st := update_gear pf e p st in
    let st := set_output_channels e p st in
    send_status e st.

(** *** Brake override *)

Definition brake_override (pf : Platform) (e : Env) (p : Params)
  (st : AP_ICEngine) (brake_percent desired_speed : float)
  (speed_is_valid : bool) (speed : float) : float * bool :=
  let brake_percent_start := brake_percent in
  if enable p =? 0 then (brake_percent, false)
  else
    let brake_percent :=
      match gear_state (gear st) with
      | MAV_ICE_TRANSMISSION_GEAR_STATE_REVERSE
      | MAV_ICE_TRANSMISSION_GEAR_STATE_REVERSE_1
      | MAV_ICE_TRANSMISSION_GEAR_STATE_REVERSE_2
      | MAV_ICE_TRANSMISSION_GEAR_STATE_REVERSE_3
      | MAV_ICE_TRANSMISSION_GEAR_STATE_FORWARD
      | MAV_ICE_TRANSMISSION_GEAR_STATE_FORWARD_1
      | MAV_ICE_TRANSMISSION_GEAR_STATE_FORWARD_2
      | MAV_ICE_TRANSMISSION_GEAR_STATE_FORWARD_3
      | MAV_ICE_TRANSMISSION_GEAR_STATE_FORWARD_4
      | MAV_ICE_TRANSMISSION_GEAR_STATE_FORWARD_5
      | MAV_ICE_TRANSMISSION_GEAR_STATE_FORWARD_6
      | MAV_ICE_TRANSMISSION_GEAR_STATE_FORWARD_7
      | MAV_ICE_TRANSMISSION_GEAR_STATE_FORWARD_8
      | MAV_ICE_TRANSMISSION_GEAR_STATE_FORWARD_9 =>
          if negb (soft_armed e) then F32.of_Z 100
          else if is_equal pf desired_speed (F32.of_Z 0) && speed_is_valid
                  && F32.ltb (F32.abs speed) F32.c0_1
          then F32.of_Z 100
          else brake_percent
      | MAV_ICE_TRANSMISSION_GEAR_STATE_NEUTRAL =>
          if negb (soft_armed e) then F32.of_Z 100
          else if brakeReleaseAllowedIn_Neutral_and_Disarmed st then F32.of_Z 0
          else brake_percent
      | MAV_ICE_TRANSMISSION_GEAR_STATE_UNKNOWN
      | MAV_ICE_TRANSMISSION_GEAR_STATE_PARK
      | MAV_ICE_TRANSMISSION_GEAR_STATE_PWM_VALUE =>
          brake_percent
      end in
    let brake_percent :=
      if is_active (pending (gear st)) then F32.of_Z 100 else brake_percent in
    (brake_percent, negb (is_equal pf brake_percent brake_percent_start)).

(** *** The DO_ENGINE_CONTROL command *)

(** The enumerator a raw value names, if any; a value naming none takes
    the [default] of a [switch]. *)
Definition gear_of_value (pf : Platform) (v : Z)
  : option MAV_ICE_TRANSMISSION_GEAR_STATE :=
  find (fun g => gear_value pf g =? v) all_gear_states.

(** The condition guarding the "start control disabled" rejection, as
    written: the comparison with ICE_IGNITION_OFF is the argument of
    [convertPwmToIgnitionState], and the [uint8_t] it returns is the
    condition. *)
Definition rc_start_control_disabled (e : Env) : bool :=
  match rc_start_chan e with
  | Some c =>
      let arg := if radio_in c =? ignition_value ICE_IGNITION_OFF then 1 else 0 in
      negb (ignition_value (convertPwmToIgnitionState arg) =? 0)
  | None => false
  end.

Definition engine_control (pf : Platform) (e : Env) (p : Params)
  (start_control cold_start height_delay gear_state_f : float)
  (being_set_by_auto_mission : bool) (st : AP_ICEngine)
  : AP_ICEngine * bool :=
  let gear_state := F32.to_int32 gear_state_f in
  if option_set p AP_ICENGINE_OPTIONS_MASK_BLOCK_EXTERNAL_STARTER_CMDS then
    (log (Txt_external_blocked (now e At_engine_control)) st, false)
  else if negb (auto_mode_active st
                && option_set p AP_ICENGINE_OPTIONS_MASK_AUTO_ALWAYS_AUTOSTART)
          && rc_start_control_disabled e then
    (log (Txt_start_control_disabled (now e At_engine_control)) st, false)
  else
    let st :=
      if negb (build_is_rover pf) && F32.gtb height_delay (F32.of_Z 0) then
        let st := set_height_pending true st in
        let st := set_initial_height (F32.of_Z 0) st in
        let st := set_height_required height_delay st in
        let st := set_state ICE_START_HEIGHT_DELAY st in
        log (Txt_takeoff_height height_delay) st
      else st in
    let select (i : ICE_Ignition_State) (st : AP_ICEngine) : AP_ICEngine :=
      let st := set_startControlSelect i st in
      let st := set_force_send_status true st in
      set_gear (set_set_by_automission being_set_by_auto_mission (gear st)) st in
    let st :=
      if is_equal pf start_control (F32.of_Z 0) then select ICE_IGNITION_OFF st
      else if is_equal pf start_control (F32.of_Z 1) then
        select ICE_IGNITION_ACCESSORY st
      else if is_equal pf start_control (F32.of_Z 2) then
        select ICE_IGNITION_START_RUN st
      else st in
    let st :=
      if (0 <? gear_state)
         && negb (gear_state =? gear_value pf MAV_ICE_TRANSMISSION_GEAR_STATE_UNKNOWN)
         && negb (gear_state =? gear_value pf MAV_ICE_TRANSMISSION_GEAR_STATE_PWM_VALUE)
         && F32.ltb gear_state_f (F32.of_Z (MAV_ICE_TRANSMISSION_GEAR_STATE_ENUM_END pf))
      then
        match gear_of_value pf gear_state with
        | Some g =>
            let r := set_ice_transmission_state e p g 0 st in
            if snd r then
              let st := set_force_send_status true (fst r) in
              set_gear (set_set_by_automission being_set_by_auto_mission
                          (gear st)) st
            else fst r
        | None => st
        end
      else st in
    (st, true).

(** ** Runs *)

(** Modelled from the spec: the member initialisers are in AP_ICEngine.h,
    which is not among the sources. The spec's scenarios start with the
    engine OFF, no start attempt made, every timestamp clear, the gear
    unknown until it is read back from the servo, and no gear change
    pending. The two gear durations are parameters (GEAR_STOP, GEAR_DUR). *)
Definition boot (gear_stop gear_dur : float) : AP_ICEngine :=
  {| state := ICE_OFF;
     state_prev := ICE_OFF;
     startControlSelect := ICE_IGNITION_OFF;
     starting_attempts := 0;
     run_once := false;
     state_change_timestamp_ms := 0;
     starter_start_time_ms := 0;
     starter_last_run_ms := 0;
     engine_power_up_wait_ms := 0;
     running_rpm_fail_timer_ms := 0;
     force_staying_in_DELAY_NO_IGNITION_duration_ms := 0;
     force_send_status := false;
     auto_mode_active := false;
     brakeReleaseAllowedIn_Neutral_and_Disarmed := false;
     height_pending := false;
     initial_height := F32.of_Z 0;
     height_required := F32.of_Z 0;
     gear := {| gear_state := MAV_ICE_TRANSMISSION_GEAR_STATE_UNKNOWN;
                pwm_active := 0;
                pending := {| pending_state := MAV_ICE_TRANSMISSION_GEAR_STATE_UNKNOWN;
                              pending_pwm := 0;
                              stop_vehicle_start_ms := 0;
                              change_physical_gear_start_ms := 0;
                              stop_duration := gear_stop;
                              change_duration_per_posiiton := gear_dur;
                              change_duration_total_ms := 0 |};
                set_by_automission := false;
                gear_last_send_ms := 0 |};
     temperature := {| value := F32.of_Z 0; last_sample_ms := 0; last_send_ms := 0 |};
     temperature_source := false;
     fuel := {| value := F32.of_Z 0; last_sample_ms := 0; last_send_ms := 0 |};
     srv_gear := SrvUntouched;
     srv_ignition := SrvUntouched;
     srv_starter := SrvUntouched;
     gpio_output_enable := None;
     gcs_log := [] |}.

(** What happens to the controller between boot and now: ticks,
    DO_ENGINE_CONTROL commands, and the vehicle code feeding the auto-mode
    flag. *)
Inductive Event : Type :=
  | Tick (e : Env)
  | SetAutoMode (active : bool)
  | Command (e : Env)
      (start_control cold_start height_delay gear_state_f : float)
      (being_set_by_auto_mission : bool).

Definition step (pf : Platform) (p : Params) (st : AP_ICEngine) (ev : Event)
  : AP_ICEngine :=
  match ev with
  | Tick e => update pf e p st
  | SetAutoMode b => set_auto_mode_active b st
  | Command e start_control cold_start height_delay gear_state_f from_mission =>
      fst (engine_control pf e p start_control cold_start height_delay
             gear_state_f from_mission st)
  end.

Definition run (pf : Platform) (p : Params) (evs : list Event)
  (st : AP_ICEngine) : AP_ICEngine :=
  fold_left (step pf p) evs st.

(** ** A concrete platform, parameter set and environment

    Used to evaluate the functions on concrete inputs. The AP_Math
    predicates compare against FLT_EPSILON; the gear enumerators are
    numbered in the order they are listed; the build is APMrover2. *)

Definition FLT_EPSILON : float := S754_finite false 8388608 (-46).

Definition rover_platform : Platform :=
  {| is_equal := fun a b => F32.ltb (F32.abs (F32.sub a b)) FLT_EPSILON;
     is_zero := fun a => F32.ltb (F32.abs a) FLT_EPSILON;
     is_negative := fun a => F32.leb a (F32.neg FLT_EPSILON);
     gear_value := gear_tag;
     MAV_ICE_TRANSMISSION_GEAR_STATE_ENUM_END := 18;
     build_is_rover := true |}.

(** The defaults of [var_info], with the controller enabled and OPTIONS,
    RESTART_CNT, RPM_CHAN and RPM_THRESH2 as given. *)
Definition default_params (opts restarts rpm_chan rpm_thresh2 : Z) : Params :=
  {| enable := 1;
     starter_time := F32.of_Z 3;
     starter_delay := F32.of_Z 2;
     rpm_threshold_running := 100;
     rpm_instance := rpm_chan;
     idle_percent := 0;
     rpm_threshold_starting := rpm_thresh2;
     power_up_time := 0;
     options := opts;
     resarts_allowed := restarts;
     master_output_enable_pin := -1;
     temperature_pin := -1;
     temperature_scaler := F32.of_Z 1;
     temperature_ratiometric := 1;
     temperature_offset := F32.of_Z 0;
     temperature_function := 0;
     pwm_park_up := 1000;
     pwm_park_down := 1000;
     pwm_reverse_up := 1200;
     pwm_reverse_down := 1200;
     pwm_neutral_up := 1295;
     pwm_neutral_down := 1295;
     pwm_forward1_up := 1425;
     pwm_forward1_down := 1425;
     pwm_forward2_up := 1600;
     pwm_forward2_down := 1600 |}.

(** An environment in which every clock reading of the call is [t], the
    start switch reads [rc_pwm] (trim 1500), the vehicle is armed or not,
    the RPM sensor (if asked) reports [rpm], and the gear, ignition and
    starter servos are assigned with trims 1000, 1100 and 1100. *)
Definition env_at (t rc_pwm : Z) (armed : bool) (rpm : Z) : Env :=
  {| millis := fun _ => t;
     soft_armed := armed;
     rc_start_chan := Some {| radio_in := rc_pwm; radio_trim := 1500 |};
     rpm_sensor := Some (fun _ => F32.of_Z rpm);
     ahrs_position_z := None;
     battery_healthy := false;
     capacity_remaining_pct := F32.of_Z 0;
     analogin_channel := false;
     voltage_average := F32.of_Z 0;
     voltage_average_ratiometric := F32.of_Z 0;
     srv_gear_function := Some 1000;
     srv_ignition_channel := Some 1100;
     srv_starter_channel := Some 1100;
     mavlink_channels := [] |}.

(** Boot with GEAR_STOP = 0 and GEAR_DUR = 1.5, the defaults. *)
Definition boot_default : AP_ICEngine :=
  boot (F32.of_Z 0) (F32.div (F32.of_Z 3) (F32.of_Z 2)).

(** Four ticks that take the engine from boot to RUNNING when no RPM
    feedback is configured: armed, switch at START_RUN, the starter run for
    its 3 s. *)
Definition start_up : list Event :=
  [ Tick (env_at 100 1800 true 0); Tick (env_at 120 1800 true 0);
    Tick (env_at 140 1800 true 0); Tick (env_at 3200 1800 true 0) ].

(** The run that ends the tick after the engine died: RPM feedback on
    instance 1, no reading above RPM_THRESH, read at 4000 ms. *)
Definition died_at_4000 : list Event :=
  start_up ++ [ Tick (env_at 4000 1800 true 0) ].

(** Two failed start attempts with RESTART_CNT = 1 and RPM_THRESH2 = 300:
    the RPM sensor reads 0 throughout, and the run ends in START_DELAY
    with both attempts counted. *)
Definition two_failed_starts : list Event :=
  [ Tick (env_at 100 1800 true 0); Tick (env_at 120 1800 true 0);
    Tick (env_at 140 1800 true 0); Tick (env_at 3200 1800 true 0);
    Tick (env_at 5300 1800 true 0); Tick (env_at 5320 1800 true 0);
    Tick (env_at 8400 1800 true 0) ].

(** Ticks around the wrap of the millisecond clock: the third reads 0. *)
Definition start_across_clock_wrap : list Event :=
  [ Tick (env_at 4294967256 1800 true 0); Tick (env_at 4294967276 1800 true 0);
    Tick (env_at 0 1800 true 0); Tick (env_at 20 1800 true 0) ].

(** The transmission in NEUTRAL with no change pending and the brake
    release flag set. *)
Definition neutral_with_release : AP_ICEngine :=
  set_brakeReleaseAllowedIn_Neutral_and_Disarmed true
    (set_gear (set_pwm_active 1295
                 (set_gear_state MAV_ICE_TRANSMISSION_GEAR_STATE_NEUTRAL (gear boot_default)))
       boot_default).

(** An environment for the sensors: the clock reads [t], the battery is
    healthy with [pct] percent remaining, and the temperature input reads
    [volts]. *)
Definition sensor_env (t pct volts : Z) : Env :=
  {| millis := fun _ => t;
     soft_armed := false;
     rc_start_chan := None;
     rpm_sensor := None;
     ahrs_position_z := None;
     battery_healthy := true;
     capacity_remaining_pct := F32.of_Z pct;
     analogin_channel := true;
     voltage_average := F32.of_Z volts;
     voltage_average_ratiometric := F32.of_Z volts;
     srv_gear_function := None;
     srv_ignition_channel := None;
     srv_starter_channel := None;
     mavlink_channels := [] |}.

(** The defaults with the temperature input on pin 50 (linear, scaler 1,
    offset 0). *)
Definition sensor_params : Params :=
  {| enable := 1;
     starter_time := F32.of_Z 3;
     starter_delay := F32.of_Z 2;
     rpm_threshold_running := 100;
     rpm_instance := 0;
     idle_percent := 0;
     rpm_threshold_starting := 0;
     power_up_time := 0;
     options := 0;
     resarts_allowed := -1;
     master_output_enable_pin := -1;
     temperature_pin := 50;
     temperature_scaler := F32.of_Z 1;
     temperature_ratiometric := 1;
     temperature_offset := F32.of_Z 0;
     temperature_function := 0;
     pwm_park_up := 1000;
     pwm_park_down := 1000;
     pwm_reverse_up := 1200;
     pwm_reverse_down := 1200;
     pwm_neutral_up := 1295;
     pwm_neutral_down := 1295;
     pwm_forward1_up := 1425;
     pwm_forward1_down := 1425;
     pwm_forward2_up := 1600;
     pwm_forward2_down := 1600 |}.

(** Both filters holding 0 from a sample taken at 1000 ms. *)
Definition sampled_at_1000 : AP_ICEngine :=
  set_temperature_source true
    (set_temperature {| value := F32.of_Z 0; last_sample_ms := 1000; last_send_ms := 0 |}
       (set_fuel {| value := F32.of_Z 0; last_sample_ms := 1000; last_send_ms := 0 |}
          boot_default)).

(** The controller after its first tick, the gear read back as PARK. *)
Definition parked : AP_ICEngine :=
  update rover_platform (env_at 100 1200 true 0) (default_params 0 (-1) 0 0)
    boot_default.

(** A change to FORWARD commanded at 5000 ms, the tick at 5020 ms that
    ends its (zero-length) stop-wait and begins the shift, and a change to
    NEUTRAL commanded at 5040 ms, during the shift. *)
Definition forward_then_neutral : AP_ICEngine :=
  let p := default_params 0 (-1) 0 0 in
  let st := fst (set_ice_transmission_state (env_at 5000 1200 true 0) p
                   MAV_ICE_TRANSMISSION_GEAR_STATE_FORWARD 0 parked) in
  let st := update_gear rover_platform (env_at 5020 1200 true 0) p st in
  fst (set_ice_transmission_state (env_at 5040 1200 true 0) p
         MAV_ICE_TRANSMISSION_GEAR_STATE_NEUTRAL 0 st).

(** The controller after a first tick and a second that reads the start
    switch at 1200: engine OFF, ignition intent OFF. *)
Definition switched_off : AP_ICEngine :=
  update rover_platform (env_at 120 1200 true 0) (default_params 0 (-1) 0 0)
    parked.

(** ** Notions used in the statements *)

(** The members the engine state machine owns. *)
Definition engine_core (st : AP_ICEngine) :=
  (state st, state_prev st, starting_attempts st, starter_start_time_ms st,
   run_once st, auto_mode_active st).

(** The members the rest of the tick leaves to [determine_state]. *)
Definition engine_io (st : AP_ICEngine) :=
  (startControlSelect st, srv_starter st, srv_ignition st).

(** [update] while enabled is a composition of the steps of the tick, run
    on [tick_start] in the environment [tick_env]: the first enabled tick
    runs [init] and sees the start switch at its trim. *)
Definition tick_env (e : Env) (st : AP_ICEngine) : Env :=
  if negb (run_once st) then env_after_init e else e.

Definition tick_start (e : Env) (p : Params) (st : AP_ICEngine) : AP_ICEngine :=
  if negb (run_once st) then init e p false (set_run_once true st) else st.

(** The state [determine_state] runs on within [update]. *)
Definition tick_sensed (pf : Platform) (e : Env) (p : Params)
  (st : AP_ICEngine) : AP_ICEngine :=
  update_fuel (tick_env e st)
    (update_temperature pf (tick_env e st) p (tick_start e p st)).

(** [determine_state] in three steps: the switch resolution and the
    forced OFF ([gate_off]), the [switch] ([switch_state]), and the
    book-keeping after it ([settle]). *)
Definition gate_off (e : Env) (p : Params) (st : AP_ICEngine) : AP_ICEngine :=
  let st := resolve_startControlSelect e p st in
  if system_should_be_off e p st then
    set_state ICE_OFF
      (if negb (ICE_State_eqb (state st) ICE_OFF)
       then log Txt_engine_stopped st else st)
  else st.

Definition settle (now_ms : Z) (st : AP_ICEngine) : AP_ICEngine :=
  let st := if negb (ICE_State_eqb (state st) ICE_STARTING)
            then set_starter_start_time_ms 0 st else st in
  let st := if negb (ICE_State_eqb (state_prev st) (state st))
            then set_state_change_timestamp_ms now_ms st else st in
  set_state_prev (state st) st.

(** The restart budget as an invariant of the tick: the counter is within
    RESTART_CNT + 1, and within RESTART_CNT while a start attempt is yet to
    be counted (STARTING with [starter_start_time_ms] still clear). Builds
    with the height delay never enter it on a tick; only a command with a
    height delay above 0 puts them there. *)
Definition attempts_bounded (pf : Platform) (p : Params) (st : AP_ICEngine)
  : Prop :=
  starting_attempts st <= resarts_allowed p + 1
  /\ (state st = ICE_STARTING -> starter_start_time_ms st = 0 ->
      starting_attempts st <= resarts_allowed p)
  /\ (build_is_rover pf = false -> state st <> ICE_START_HEIGHT_DELAY).

(** The clock does not read 0 where a start attempt is stamped. *)
Definition clock_nonzero (ev : Event) : Prop :=
  match ev with
  | Tick e => now e At_starter_start <> 0
  | SetAutoMode _ => True
  | Command _ _ _ _ _ _ => True
  end.

(** The event is not a command that takes the height-delay branch of
    [engine_control]: the build is APMrover2, where the branch is compiled
    out, or the command's height delay is not above 0. *)
Definition height_delay_free (pf : Platform) (ev : Event) : Prop :=
  match ev with
  | Command _ _ _ height_delay _ _ =>
      build_is_rover pf = true \/ F32.gtb height_delay (F32.of_Z 0) = false
  | _ => True
  end.

(** The low-pass filter step [0.1f * y + 0.9f * x]. *)
Definition low_pass (y x : float) : float :=
  F32.add (F32.mul F32.c0_1 y) (F32.mul F32.c0_9 x).

(** The two phases of a gear change, told by their [uint32_t] timestamps
    being non-zero. *)
Definition stop_wait_running (pd : Pending_t) : Prop :=
  0 < stop_vehicle_start_ms pd.

Definition shift_running (pd : Pending_t) : Prop :=
  0 < change_physical_gear_start_ms pd.

Definition phases_overlap (pd : Pending_t) : Prop :=
  stop_wait_running pd /\ shift_running pd.

(** The test of [update_gear] for the end of the stop-wait. *)
Definition stop_wait_elapsed (e : Env) (pd : Pending_t) : bool :=
  F32.geb (F32.of_Z (U32.sub (now e At_update_gear) (stop_vehicle_start_ms pd)))
    (F32.mul (stop_duration pd) (F32.of_Z 1000)).

(** The gears [set_ice_transmission_state] has a [case] for. *)
Definition gear_handled (g : MAV_ICE_TRANSMISSION_GEAR_STATE) : bool :=
  match g with
  | MAV_ICE_TRANSMISSION_GEAR_STATE_PARK
  | MAV_ICE_TRANSMISSION_GEAR_STATE_REVERSE
  | MAV_ICE_TRANSMISSION_GEAR_STATE_REVERSE_1
  | MAV_ICE_TRANSMISSION_GEAR_STATE_NEUTRAL
  | MAV_ICE_TRANSMISSION_GEAR_STATE_FORWARD
  | MAV_ICE_TRANSMISSION_GEAR_STATE_FORWARD_1
  | MAV_ICE_TRANSMISSION_GEAR_STATE_FORWARD_2
  | MAV_ICE_TRANSMISSION_GEAR_STATE_PWM_VALUE => true
  | _ => false
  end.

(** Whether the [gear_state] argument of [engine_control] names a gear the
    command sets: it passes the range guard and names a handled
    enumerator. *)
Definition names_settable_gear (pf : Platform) (gear_state_f : float) : bool :=
  let gear_state := F32.to_int32 gear_state_f in
  (0 <? gear_state)
  && negb (gear_state =? gear_value pf MAV_ICE_TRANSMISSION_GEAR_STATE_UNKNOWN)
  && negb (gear_state =? gear_value pf MAV_ICE_TRANSMISSION_GEAR_STATE_PWM_VALUE)
  && F32.ltb gear_state_f (F32.of_Z (MAV_ICE_TRANSMISSION_GEAR_STATE_ENUM_END pf))
  && match gear_of_value pf gear_state with
     | Some g => gear_handled g
     | None => false
     end.

(** The RC gate of [engine_control]: not in forced auto-start mode, and
    the condition on the start channel holds. *)
Definition rc_gate_rejects (e : Env) (p : Params) (st : AP_ICEngine) : bool :=
  negb (auto_mode_active st
        && option_set p AP_ICENGINE_OPTIONS_MASK_AUTO_ALWAYS_AUTOSTART)
  && rc_start_control_disabled e.

(** ** More of AP_ICEngine.cpp *)

(** [get_gear_name]. *)
Definition get_gear_name (gearState : MAV_ICE_TRANSMISSION_GEAR_STATE)
  : string :=
  match gearState with
  | MAV_ICE_TRANSMISSION_GEAR_STATE_PARK => "Park"%string
  | MAV_ICE_TRANSMISSION_GEAR_STATE_REVERSE
  | MAV_ICE_TRANSMISSION_GEAR_STATE_REVERSE_1
  | MAV_ICE_TRANSMISSION_GEAR_STATE_REVERSE_2
  | MAV_ICE_TRANSMISSION_GEAR_STATE_REVERSE_3 => "Reverse"%string
  | MAV_ICE_TRANSMISSION_GEAR_STATE_NEUTRAL => "Neutral"%string
  | MAV_ICE_TRANSMISSION_GEAR_STATE_FORWARD
  | MAV_ICE_TRANSMISSION_GEAR_STATE_FORWARD_1 => "Forward"%string
  | MAV_ICE_TRANSMISSION_GEAR_STATE_FORWARD_2
  | MAV_ICE_TRANSMISSION_GEAR_STATE_FORWARD_3
  | MAV_ICE_TRANSMISSION_GEAR_STATE_FORWARD_4
  | MAV_ICE_TRANSMISSION_GEAR_STATE_FORWARD_5
  | MAV_ICE_TRANSMISSION_GEAR_STATE_FORWARD_6
  | MAV_ICE_TRANSMISSION_GEAR_STATE_FORWARD_7
  | MAV_ICE_TRANSMISSION_GEAR_STATE_FORWARD_8
  | MAV_ICE_TRANSMISSION_GEAR_STATE_FORWARD_9 => "Forward High"%string
  | MAV_ICE_TRANSMISSION_GEAR_STATE_PWM_VALUE
  | MAV_ICE_TRANSMISSION_GEAR_STATE_UNKNOWN => "Unknown"%string
  end.

(** [throttle_override]. What it reads from outside the file is given as
    arguments: AP_Math's [constrain_float], the answers of the header's
    [too_cold()] and [too_hot()], the TEMP_HOT_THR parameter, and the
    scaled output of the throttle servo function. The result is the
    percentage the reference is left with and the returned flag. *)
Definition throttle_override (pf : Platform)
  (constrain_float : float -> float -> float -> float)
  (too_cold too_hot : bool) (too_hot_throttle_reduction_factor : float)
  (throttle_output_scaled : Z) (p : Params) (st : AP_ICEngine)
  (percentage : float) : float * bool :=
  if enable p =? 0 then (percentage, false)
  else
    let percentage_old := percentage in
    let r :=
      if ICE_State_eqb (state st) ICE_RUNNING
         && (0 <? idle_percent p) && (idle_percent p <? 100)
         && (throttle_output_scaled <? to_int16 (idle_percent p))
      then (true, percentage)
      else if ICE_State_eqb (state st) ICE_STARTING
              || ICE_State_eqb (state st) ICE_START_DELAY
              || too_cold || is_active (pending (gear st))
      then (true, percentage)
      else if too_hot then
        (false,
         F32.mul percentage
           (constrain_float too_hot_throttle_reduction_factor
              (F32.of_Z 0) (F32.of_Z 1)))
      else (false, percentage) in
    let use_idle_percent := fst r in
    let percentage := snd r in
    let percentage :=
      if use_idle_percent then F32.of_Z (idle_percent p) else percentage in
    (percentage, negb (is_equal pf percentage_old percentage)).

(** ** Notions used in the further statements *)

(** The edges of the engine state machine: the states one call of
    [determine_state] can lead to from a state, for the APMrover2 build
    ([rover]) and for the others. *)
Definition may_step (rover : bool) (a b : ICE_State) : bool :=
  match a, b with
  | _, ICE_OFF => true
  | ICE_OFF, ICE_START_DELAY => true
  | ICE_START_HEIGHT_DELAY, ICE_START_HEIGHT_DELAY => negb rover
  | ICE_START_HEIGHT_DELAY, ICE_STARTING => negb rover
  | ICE_START_DELAY_NO_IGNITION, ICE_START_DELAY_NO_IGNITION => true
  | ICE_START_DELAY, ICE_START_DELAY => true
  | ICE_START_DELAY, ICE_STARTING => true
  | ICE_STARTING, ICE_STARTING => true
  | ICE_STARTING, ICE_START_DELAY => true
  | ICE_STARTING, ICE_RUNNING => true
  | ICE_RUNNING, ICE_RUNNING => true
  | ICE_RUNNING, ICE_START_DELAY => true
  | ICE_RUNNING, ICE_START_DELAY_NO_IGNITION => true
  | _, _ => false
  end.

(** Whether the start switch is overridden by auto mode. *)
Definition auto_always_autostart (p : Params) (st : AP_ICEngine) : bool :=
  auto_mode_active st
  && option_set p AP_ICENGINE_OPTIONS_MASK_AUTO_ALWAYS_AUTOSTART.

(** The band test of [convertPwmToGearState] for one gear: [pwm] within
    the gear's two PWM values, in either order, widened by the margin of
    20. *)
Definition band_catches (down up pwm : Z) : bool :=
  ((down <=? up) && (pwm <=? up + 20) && (down - 20 <=? pwm))
  || ((up <? down) && (pwm <=? down + 20) && (up - 20 <=? pwm)).

(** The two PWM values (down, up) the table holds for a gear that
    [set_ice_transmission_state] looks up. *)
Definition gear_pwm_pair (p : Params) (g : MAV_ICE_TRANSMISSION_GEAR_STATE)
  : Z * Z :=
  match g with
  | MAV_ICE_TRANSMISSION_GEAR_STATE_PARK => (pwm_park_down p, pwm_park_up p)
  | MAV_ICE_TRANSMISSION_GEAR_STATE_REVERSE =>
      (pwm_reverse_down p, pwm_reverse_up p)
  | MAV_ICE_TRANSMISSION_GEAR_STATE_NEUTRAL =>
      (pwm_neutral_down p, pwm_neutral_up p)
  | MAV_ICE_TRANSMISSION_GEAR_STATE_FORWARD =>
      (pwm_forward1_down p, pwm_forward1_up p)
  | MAV_ICE_TRANSMISSION_GEAR_STATE_FORWARD_2 =>
      (pwm_forward2_down p, pwm_forward2_up p)
  | _ => (0, 0)
  end.

(** A PWM value that fits [int16_t] and is not negative. *)
Definition pwm_in_range (v : Z) : Prop := 0 <= v < 32768.

Definition table_in_range (p : Params) : Prop :=
  pwm_in_range (pwm_park_down p) /\ pwm_in_range (pwm_park_up p)
  /\ pwm_in_range (pwm_reverse_down p) /\ pwm_in_range (pwm_reverse_up p)
  /\ pwm_in_range (pwm_neutral_down p) /\ pwm_in_range (pwm_neutral_up p)
  /\ pwm_in_range (pwm_forward1_down p) /\ pwm_in_range (pwm_forward1_up p)
  /\ pwm_in_range (pwm_forward2_down p) /\ pwm_in_range (pwm_forward2_up p).

(** Two gears' PWM values, widened by the margin on both sides, do not
    meet. *)
Definition pairs_apart (a b : Z * Z) : Prop :=
  Z.max (fst a) (snd a) + 20 < Z.min (fst b) (snd b) - 20
  \/ Z.max (fst b) (snd b) + 20 < Z.min (fst a) (snd a) - 20.

Definition bands_apart (p : Params) : Prop :=
  let park := gear_pwm_pair p MAV_ICE_TRANSMISSION_GEAR_STATE_PARK in
  let rev := gear_pwm_pair p MAV_ICE_TRANSMISSION_GEAR_STATE_REVERSE in
  let ntrl := gear_pwm_pair p MAV_ICE_TRANSMISSION_GEAR_STATE_NEUTRAL in
  let fwd1 := gear_pwm_pair p MAV_ICE_TRANSMISSION_GEAR_STATE_FORWARD in
  let fwd2 := gear_pwm_pair p MAV_ICE_TRANSMISSION_GEAR_STATE_FORWARD_2 in
  pairs_apart park rev /\ pairs_apart park ntrl /\ pairs_apart park fwd1
  /\ pairs_apart park fwd2 /\ pairs_apart rev ntrl /\ pairs_apart rev fwd1
  /\ pairs_apart rev fwd2 /\ pairs_apart ntrl fwd1 /\ pairs_apart ntrl fwd2
  /\ pairs_apart fwd1 fwd2.

(** The test of [update_gear] for the end of the shift. *)
Definition shift_elapsed (e : Env) (pd : Pending_t) : bool :=
  change_duration_total_ms pd
  <=? U32.sub (now e At_update_gear) (change_physical_gear_start_ms pd).

(** ** Further scenarios *)

(** The parameters [p] with ICE_ENABLE set to 0. *)
Definition disabled (p : Params) : Params :=
  {| enable := 0;
     starter_time := starter_time p;
     starter_delay := starter_delay p;
     rpm_threshold_running := rpm_threshold_running p;
     rpm_instance := rpm_instance p;
     idle_percent := idle_percent p;
     rpm_threshold_starting := rpm_threshold_starting p;
     power_up_time := power_up_time p;
     options := options p;
     resarts_allowed := resarts_allowed p;
     master_output_enable_pin := master_output_enable_pin p;
     temperature_pin := temperature_pin p;
     temperature_scaler := temperature_scaler p;
     temperature_ratiometric := temperature_ratiometric p;
     temperature_offset := temperature_offset p;
     temperature_function := temperature_function p;
     pwm_park_up := pwm_park_up p;
     pwm_park_down := pwm_park_down p;
     pwm_reverse_up := pwm_reverse_up p;
     pwm_reverse_down := pwm_reverse_down p;
     pwm_neutral_up := pwm_neutral_up p;
     pwm_neutral_down := pwm_neutral_down p;
     pwm_forward1_up := pwm_forward1_up p;
     pwm_forward1_down := pwm_forward1_down p;
     pwm_forward2_up := pwm_forward2_up p;
     pwm_forward2_down := pwm_forward2_down p |}.

(** The parameters [p] with the temperature scaler set to [s]. *)
Definition with_temperature_scaler (s : float) (p : Params) : Params :=
  {| enable := enable p;
     starter_time := starter_time p;
     starter_delay := starter_delay p;
     rpm_threshold_running := rpm_threshold_running p;
     rpm_instance := rpm_instance p;
     idle_percent := idle_percent p;
     rpm_threshold_starting := rpm_threshold_starting p;
     power_up_time := power_up_time p;
     options := options p;
     resarts_allowed := resarts_allowed p;
     master_output_enable_pin := master_output_enable_pin p;
     temperature_pin := temperature_pin p;
     temperature_scaler := s;
     temperature_ratiometric := temperature_ratiometric p;
     temperature_offset := temperature_offset p;
     temperature_function := temperature_function p;
     pwm_park_up := pwm_park_up p;
     pwm_park_down := pwm_park_down p;
     pwm_reverse_up := pwm_reverse_up p;
     pwm_reverse_down := pwm_reverse_down p;
     pwm_neutral_up := pwm_neutral_up p;
     pwm_neutral_down := pwm_neutral_down p;
     pwm_forward1_up := pwm_forward1_up p;
     pwm_forward1_down := pwm_forward1_down p;
     pwm_forward2_up := pwm_forward2_up p;
     pwm_forward2_down := pwm_forward2_down p |}.

(** A build other than APMrover2, with the helpers of [rover_platform]. *)
Definition plane_platform : Platform :=
  {| is_equal := is_equal rover_platform;
     is_zero := is_zero rover_platform;
     is_negative := is_negative rover_platform;
     gear_value := gear_value rover_platform;
     MAV_ICE_TRANSMISSION_GEAR_STATE_ENUM_END :=
       MAV_ICE_TRANSMISSION_GEAR_STATE_ENUM_END rover_platform;
     build_is_rover := false |}.

(** An analog input whose voltage reads infinite, at 1100 ms. *)
Definition infinite_voltage_env : Env :=
  {| millis := fun _ => 1100;
     soft_armed := false;
     rc_start_chan := None;
     rpm_sensor := None;
     ahrs_position_z := None;
     battery_healthy := true;
     capacity_remaining_pct := F32.of_Z 10;
     analogin_channel := true;
     voltage_average := S754_infinity false;
     voltage_average_ratiometric := S754_infinity false;
     srv_gear_function := None;
     srv_ignition_channel := None;
     srv_starter_channel := None;
     mavlink_channels := [] |}.

(** The environment of [env_at] with one active telemetry channel that
    has room for every message. *)
Definition telemetry_env (t : Z) : Env :=
  {| millis := fun _ => t;
     soft_armed := true;
     rc_start_chan := Some {| radio_in := 1200; radio_trim := 1500 |};
     rpm_sensor := None;
     ahrs_position_z := None;
     battery_healthy := false;
     capacity_remaining_pct := F32.of_Z 0;
     analogin_channel := false;
     voltage_average := F32.of_Z 0;
     voltage_average_ratiometric := F32.of_Z 0;
     srv_gear_function := Some 1000;
     srv_ignition_channel := Some 1100;
     srv_starter_channel := Some 1100;
     mavlink_channels := [(true, true, true)] |}.

(** The environment of [env_at], armed with the start switch at START_RUN,
    and a position estimate [z] metres down from the origin. *)
Definition env_at_height (t z : Z) : Env :=
  {| millis := fun _ => t;
     soft_armed := true;
     rc_start_chan := Some {| radio_in := 1800; radio_trim := 1500 |};
     rpm_sensor := Some (fun _ => F32.of_Z 0);
     ahrs_position_z := Some (F32.of_Z z);
     battery_healthy := false;
     capacity_remaining_pct := F32.of_Z 0;
     analogin_channel := false;
     voltage_average := F32.of_Z 0;
     voltage_average_ratiometric := F32.of_Z 0;
     srv_gear_function := Some 1000;
     srv_ignition_channel := Some 1100;
     srv_starter_channel := Some 1100;
     mavlink_channels := [] |}.

(** A start attempt counted at 140 ms, a DO_ENGINE_CONTROL command with a
    height delay of 1 m at 170 ms, and the ticks that take the height
    delay to STARTING again: the height is reset at 180 ms, reached (5 m
    up) at 200 ms, and the new attempt counted at 220 ms. *)
Definition restart_through_height_delay : list Event :=
  [ Tick (env_at_height 100 0); Tick (env_at_height 120 0);
    Tick (env_at_height 140 0); Tick (env_at_height 160 0);
    Command (env_at_height 170 0) (F32.of_Z 2) (F32.of_Z 0) (F32.of_Z 1)
      (F32.of_Z 0) false;
    Tick (env_at_height 180 0); Tick (env_at_height 200 (-5));
    Tick (env_at_height 220 (-5)) ].

(** * Properties *)

(** ** Tactics and frame lemmas *)

#[global] Arguments F32.of_Z : simpl never.
#[global] Arguments F32.add : simpl never.
#[global] Arguments F32.sub : simpl never.
#[global] Arguments F32.mul : simpl never.
#[global] Arguments F32.div : simpl never.
#[global] Arguments F32.neg : simpl never.
#[global] Arguments F32.abs : simpl never.
#[global] Arguments F32.ltb : simpl never.
#[global] Arguments F32.leb : simpl never.
#[global] Arguments F32.gtb : simpl never.
#[global] Arguments F32.geb : simpl never.
#[global] Arguments F32.to_int32 : simpl never.
#[global] Arguments F32.to_uint32 : simpl never.
#[global] Arguments U32.sub : simpl never.
#[global] Arguments U32.mul : simpl never.
#[global] Arguments U32.wrap : simpl never.
#[global] Arguments now : simpl never.
#[global] Arguments option_set : simpl never.
#[global] Arguments starter_time_expired : simpl never.
#[global] Arguments switch_state : simpl never.
#[global] Arguments resolve_startControlSelect : simpl never.
#[global] Arguments read_current_rpm : simpl never.
#[global] Arguments system_should_be_off : simpl never.
#[global] Arguments convertPwmToGearState : simpl never.

Ltac break_if :=
  match goal with
  | |- context [if ?c then _ else _] => destruct c eqn:?
  end.

Ltac break_match :=
  match goal with
  | |- context [match ?x with _ => _ end] => destruct x eqn:?
  end.

Ltac frame :=
  repeat (break_if || break_match); simpl; try reflexivity; try congruence.

Lemma set_ice_transmission_state_core e p g v st :
  engine_core (fst (set_ice_transmission_state e p g v st)) = engine_core st.
Proof.
  unfold set_ice_transmission_state.
  destruct (pending_pwm_for p (pwm_active (gear st)) g v) as [[g' pw]|];
    simpl; [| reflexivity ].
  break_if; reflexivity.
Qed.

Lemma set_ice_transmission_state_io e p g v st :
  engine_io (fst (set_ice_transmission_state e p g v st)) = engine_io st.
Proof.
  unfold set_ice_transmission_state.
  destruct (pending_pwm_for p (pwm_active (gear st)) g v) as [[g' pw]|];
    simpl; [| reflexivity ].
  break_if; reflexivity.
Qed.

Lemma update_gear_core pf e p st :
  engine_core (update_gear pf e p st) = engine_core st.
Proof.
  unfold update_gear; cbv zeta.
  repeat break_if; try rewrite set_ice_transmission_state_core; reflexivity.
Qed.

Lemma update_gear_io pf e p st :
  engine_io (update_gear pf e p st) = engine_io st.
Proof.
  unfold update_gear; cbv zeta.
  repeat break_if; try rewrite set_ice_transmission_state_io; reflexivity.
Qed.

Lemma send_status_core e st : engine_core (send_status e st) = engine_core st.
Proof. unfold send_status; cbv zeta. repeat break_if; reflexivity. Qed.

Lemma send_status_io e st : engine_io (send_status e st) = engine_io st.
Proof. unfold send_status; cbv zeta. repeat break_if; reflexivity. Qed.

Lemma send_status_pending e st :
  pending (gear (send_status e st)) = pending (gear st).
Proof. unfold send_status; cbv zeta. repeat break_if; reflexivity. Qed.

Lemma set_output_channels_core e p st :
  engine_core (set_output_channels e p st) = engine_core st.
Proof.
  unfold set_output_channels; cbv zeta.
  repeat (break_if || break_match); reflexivity.
Qed.

Lemma set_output_channels_startControlSelect e p st :
  startControlSelect (set_output_channels e p st) = startControlSelect st.
Proof.
  unfold set_output_channels; cbv zeta.
  repeat (break_if || break_match); reflexivity.
Qed.

Lemma set_output_channels_pending e p st :
  pending (gear (set_output_channels e p st)) = pending (gear st).
Proof.
  unfold set_output_channels; cbv zeta.
  repeat (break_if || break_match); reflexivity.
Qed.

Lemma init_core e p b st : engine_core (init e p b st) = engine_core st.
Proof.
  unfold init; cbv zeta.
  assert (H : forall s, engine_core
            (set_gear_pending (cancel (pending (gear s))) s) = engine_core s)
    by reflexivity.
  destruct (rc_start_chan e); rewrite H;
    match goal with
    | |- engine_core (set_startControlSelect ?i ?s) = _ =>
        change (engine_core (set_startControlSelect i s)) with (engine_core s)
    end;
    rewrite set_output_channels_core; break_if; reflexivity.
Qed.

Lemma update_sensors_core pf e p st :
  engine_core (update_fuel e (update_temperature pf e p st)) = engine_core st.
Proof.
  unfold update_fuel, update_temperature; cbv zeta.
  repeat (break_if || break_match); reflexivity.
Qed.

Lemma update_sensors_io pf e p st :
  engine_io (update_fuel e (update_temperature pf e p st)) = engine_io st.
Proof.
  unfold update_fuel, update_temperature; cbv zeta.
  repeat (break_if || break_match); reflexivity.
Qed.

Lemma core_state a b : engine_core a = engine_core b -> state a = state b.
Proof. unfold engine_core; congruence. Qed.

Lemma core_state_prev a b :
  engine_core a = engine_core b -> state_prev a = state_prev b.
Proof. unfold engine_core; congruence. Qed.

Lemma core_starting_attempts a b :
  engine_core a = engine_core b -> starting_attempts a = starting_attempts b.
Proof. unfold engine_core; congruence. Qed.

Lemma core_starter_start_time_ms a b :
  engine_core a = engine_core b ->
  starter_start_time_ms a = starter_start_time_ms b.
Proof. unfold engine_core; congruence. Qed.

Lemma core_run_once a b : engine_core a = engine_core b -> run_once a = run_once b.
Proof. unfold engine_core; congruence. Qed.

Lemma io_startControlSelect a b :
  engine_io a = engine_io b -> startControlSelect a = startControlSelect b.
Proof. unfold engine_io; congruence. Qed.

Lemma io_srv_starter a b :
  engine_io a = engine_io b -> srv_starter a = srv_starter b.
Proof. unfold engine_io; congruence. Qed.

Lemma io_srv_ignition a b :
  engine_io a = engine_io b -> srv_ignition a = srv_ignition b.
Proof. unfold engine_io; congruence. Qed.

(** ** The tick as a composition *)

Lemma update_enabled pf e p st :
  enable p <> 0 ->
  update pf e p st
  = send_status (tick_env e st)
      (set_output_channels (tick_env e st) p
         (update_gear pf (tick_env e st) p
            (determine_state pf (tick_env e st) p (tick_sensed pf e p st)))).
Proof.
  intros H. unfold update, tick_sensed, tick_env, tick_start.
  destruct (Z.eqb_spec (enable p) 0); [contradiction | reflexivity].
Qed.

Lemma update_disabled_core pf e p st :
  enable p = 0 ->
  engine_core (update pf e p st)
  = engine_core (set_run_once false (set_state ICE_OFF st)).
Proof.
  intros H. unfold update. rewrite H. simpl.
  destruct (run_once st) eqn:Hr.
  - rewrite init_core. reflexivity.
  - unfold engine_core; simpl. rewrite Hr. reflexivity.
Qed.

Lemma update_core pf e p st :
  enable p <> 0 ->
  engine_core (update pf e p st)
  = engine_core (determine_state pf (tick_env e st) p (tick_sensed pf e p st)).
Proof.
  intros H. rewrite (update_enabled pf e p st H).
  rewrite send_status_core, set_output_channels_core, update_gear_core.
  reflexivity.
Qed.

Lemma tick_start_core e p st :
  engine_core (tick_start e p st) = engine_core (set_run_once true st).
Proof.
  unfold tick_start. destruct (run_once st) eqn:Hr; simpl.
  - unfold engine_core; simpl. rewrite Hr. reflexivity.
  - apply init_core.
Qed.

Lemma tick_sensed_core pf e p st :
  engine_core (tick_sensed pf e p st) = engine_core (set_run_once true st).
Proof.
  unfold tick_sensed. rewrite update_sensors_core. apply tick_start_core.
Qed.

Lemma soft_armed_tick_env e st : soft_armed (tick_env e st) = soft_armed e.
Proof. unfold tick_env; destruct (negb (run_once st)); reflexivity. Qed.

Lemma now_tick_env e st site : now (tick_env e st) site = now e site.
Proof. unfold tick_env; destruct (negb (run_once st)); reflexivity. Qed.

Lemma srv_starter_channel_tick_env e st :
  srv_starter_channel (tick_env e st) = srv_starter_channel e.
Proof. unfold tick_env; destruct (negb (run_once st)); reflexivity. Qed.

(** ** The engine state machine *)

Lemma ICE_State_eqb_eq a b : ICE_State_eqb a b = true <-> a = b.
Proof. destruct a, b; simpl; split; congruence. Qed.

Lemma ICE_State_eqb_neq a b : ICE_State_eqb a b = false <-> a <> b.
Proof. destruct a, b; simpl; split; congruence. Qed.

Lemma ICE_Ignition_State_eqb_eq a b :
  ICE_Ignition_State_eqb a b = true <-> a = b.
Proof. destruct a, b; simpl; split; congruence. Qed.

Lemma switch_state_io pf e p now_ms rpm off st :
  engine_io (switch_state pf e p now_ms rpm off st) = engine_io st.
Proof.
  unfold switch_state. destruct (state st).
  - unfold case_ICE_OFF; frame.
  - unfold case_ICE_START_HEIGHT_DELAY; frame.
  - unfold case_ICE_START_DELAY_NO_IGNITION; frame.
  - unfold case_ICE_START_DELAY; frame.
  - unfold case_ICE_STARTING; frame.
  - unfold case_ICE_RUNNING; frame.
Qed.

Lemma determine_state_io pf e p st :
  engine_io (determine_state pf e p st)
  = engine_io (resolve_startControlSelect e p st).
Proof.
  unfold determine_state; cbv zeta.
  assert (H : forall s v, engine_io (set_state_prev v s) = engine_io s)
    by reflexivity.
  rewrite H.
  repeat break_if;
    repeat match goal with
      | |- engine_io (set_state_change_timestamp_ms ?v ?s) = _ =>
          change (engine_io (set_state_change_timestamp_ms v s))
            with (engine_io s)
      | |- engine_io (set_starter_start_time_ms ?v ?s) = _ =>
          change (engine_io (set_starter_start_time_ms v s)) with (engine_io s)
      end;
    rewrite switch_state_io; reflexivity.
Qed.

Lemma resolve_startControlSelect_outputs e p st :
  srv_starter (resolve_startControlSelect e p st) = srv_starter st
  /\ srv_ignition (resolve_startControlSelect e p st) = srv_ignition st
  /\ engine_core (resolve_startControlSelect e p st) = engine_core st.
Proof. unfold resolve_startControlSelect; frame; repeat split. Qed.

(** When the gates say the system should be off, [determine_state] leaves
    the engine OFF. *)
Lemma determine_state_off pf e p st :
  system_should_be_off e p (resolve_startControlSelect e p st) = true ->
  state (determine_state pf e p st) = ICE_OFF.
Proof.
  intros Hoff. unfold determine_state; cbv zeta. rewrite Hoff.
  unfold switch_state; simpl. unfold case_ICE_OFF; simpl.
  repeat break_if; reflexivity.
Qed.

Lemma system_should_be_off_intro e p st :
  startControlSelect st = ICE_IGNITION_OFF
  \/ (option_set p AP_ICENGINE_OPTIONS_MASK_ARMING_REQUIRED_IGNITION = true
      /\ soft_armed e = false) ->
  system_should_be_off e p st = true.
Proof.
  unfold system_should_be_off, arming_OK_to_ign.
  intros [-> | [-> ->]]; simpl; [reflexivity | apply orb_true_r].
Qed.

Lemma update_startControlSelect pf e p st :
  enable p <> 0 ->
  startControlSelect (update pf e p st)
  = startControlSelect
      (resolve_startControlSelect (tick_env e st) p (tick_sensed pf e p st)).
Proof.
  intros H. rewrite (update_enabled pf e p st H).
  rewrite (io_startControlSelect _ _ (send_status_io _ _)).
  rewrite set_output_channels_startControlSelect.
  rewrite (io_startControlSelect _ _ (update_gear_io _ _ _ _)).
  apply io_startControlSelect, determine_state_io.
Qed.

Lemma update_state pf e p st :
  enable p <> 0 ->
  state (update pf e p st)
  = state (determine_state pf (tick_env e st) p (tick_sensed pf e p st)).
Proof. intros H. apply core_state, update_core, H. Qed.

(** C1: at the end of every tick the engine state is OFF whenever the
    controller is not enabled, or the ignition intent the tick resolved is
    IGN_OFF, or OPTIONS bit 0 (arming required for ignition) is set and the
    vehicle is disarmed. *)
Theorem C1_engine_off_when_gated pf e p st :
  enable p = 0
  \/ startControlSelect (update pf e p st) = ICE_IGNITION_OFF
  \/ (option_set p AP_ICENGINE_OPTIONS_MASK_ARMING_REQUIRED_IGNITION = true
      /\ soft_armed e = false) ->
  state (update pf e p st) = ICE_OFF.
Proof.
  intros H.
  destruct (Z.eq_dec (enable p) 0) as [Hen | Hen].
  - rewrite (core_state _ _ (update_disabled_core pf e p st Hen)). reflexivity.
  - destruct H as [H | H]; [contradiction |].
    rewrite (update_state pf e p st Hen).
    apply determine_state_off, system_should_be_off_intro.
    destruct H as [H | [Ho Ha]].
    + left. rewrite <- H. symmetry.
      apply update_startControlSelect; assumption.
    + right. rewrite soft_armed_tick_env. split; assumption.
Qed.

(** A running engine is switched off by the tick that reads the switch at
    1200. *)
Lemma C1_engine_off_when_gated_witness :
  let st := run rover_platform (default_params 0 (-1) 0 0) start_up boot_default in
  let e := env_at 3300 1200 true 0 in
  state st = ICE_RUNNING
  /\ startControlSelect (update rover_platform e (default_params 0 (-1) 0 0) st)
     = ICE_IGNITION_OFF
  /\ state (update rover_platform e (default_params 0 (-1) 0 0) st) = ICE_OFF.
Proof.
  cbv zeta. split; [vm_compute; reflexivity |].
  split; [vm_compute; reflexivity |].
  apply C1_engine_off_when_gated. right. left. vm_compute. reflexivity.
Defined.

(** *** [determine_state] step by step *)

Lemma determine_state_steps pf e p st :
  determine_state pf e p st
  = settle (now e At_determine_state)
      (switch_state pf e p (now e At_determine_state) (read_current_rpm e p)
         (system_should_be_off e p (resolve_startControlSelect e p st))
         (gate_off e p st)).
Proof. reflexivity. Qed.

Lemma settle_state now_ms st : state (settle now_ms st) = state st.
Proof. unfold settle; cbv zeta. repeat break_if; reflexivity. Qed.

Lemma settle_starting_attempts now_ms st :
  starting_attempts (settle now_ms st) = starting_attempts st.
Proof. unfold settle; cbv zeta. repeat break_if; reflexivity. Qed.

Lemma settle_starter_start_time_ms now_ms st :
  starter_start_time_ms (settle now_ms st)
  = if ICE_State_eqb (state st) ICE_STARTING
    then starter_start_time_ms st else 0.
Proof.
  unfold settle; cbv zeta.
  destruct (ICE_State_eqb (state st) ICE_STARTING); simpl;
    break_if; reflexivity.
Qed.

Lemma settle_outputs now_ms st :
  srv_starter (settle now_ms st) = srv_starter st
  /\ srv_ignition (settle now_ms st) = srv_ignition st
  /\ gear (settle now_ms st) = gear st
  /\ run_once (settle now_ms st) = run_once st.
Proof. unfold settle; cbv zeta. repeat break_if; repeat split. Qed.

Lemma gate_off_state e p st :
  state (gate_off e p st)
  = if system_should_be_off e p (resolve_startControlSelect e p st)
    then ICE_OFF else state st.
Proof.
  unfold gate_off; cbv zeta.
  destruct (resolve_startControlSelect_outputs e p st) as (_ & _ & Hc).
  break_if; simpl; [reflexivity | apply core_state, Hc].
Qed.

Lemma gate_off_members e p st :
  starting_attempts (gate_off e p st) = starting_attempts st
  /\ starter_start_time_ms (gate_off e p st) = starter_start_time_ms st
  /\ srv_starter (gate_off e p st) = srv_starter st
  /\ srv_ignition (gate_off e p st) = srv_ignition st
  /\ gear (gate_off e p st) = gear st
  /\ run_once (gate_off e p st) = run_once st
  /\ startControlSelect (gate_off e p st)
     = startControlSelect (resolve_startControlSelect e p st).
Proof.
  unfold gate_off, resolve_startControlSelect; cbv zeta.
  repeat (break_if || break_match); repeat split.
Qed.

(** *** The forced no-ignition dwell *)

(** [determine_state] never takes the engine out of
    START_DELAY_NO_IGNITION except to OFF. *)
Lemma no_ignition_only_leaves_to_off pf e p st :
  state st = ICE_START_DELAY_NO_IGNITION ->
  state (determine_state pf e p st) = ICE_START_DELAY_NO_IGNITION
  \/ state (determine_state pf e p st) = ICE_OFF.
Proof.
  intros Hs.
  destruct (system_should_be_off e p (resolve_startControlSelect e p st)) eqn:Hoff.
  - right. apply determine_state_off, Hoff.
  - left. rewrite determine_state_steps, settle_state.
    pose proof (gate_off_state e p st) as Hg. rewrite Hoff, Hs in Hg.
    unfold switch_state. rewrite Hg.
    unfold case_ICE_START_DELAY_NO_IGNITION. break_if; simpl; exact Hg.
Qed.

(** C2: after the forced no-ignition dwell has elapsed the state is meant
    to behave as START_DELAY (ignition back on, STARTING reachable). The
    code leaves the engine in START_DELAY_NO_IGNITION with the ignition at
    trim: the engine died at 4000 ms with OPTIONS bit 5 set; the ticks at
    7100 ms and 60000 ms, switch at START_RUN and armed, change nothing,
    where the tick at 7100 ms from START_DELAY goes to STARTING with the
    ignition on. *)
Theorem C2_no_ignition_dwell_never_ends :
  let p := default_params 32 (-1) 1 0 in
  let st0 := run rover_platform p died_at_4000 boot_default in
  let st1 := update rover_platform (env_at 7100 1800 true 0) p st0 in
  let st2 := update rover_platform (env_at 60000 1800 true 0) p st1 in
  let st1' := update rover_platform (env_at 7100 1800 true 0) p
                (set_state_prev ICE_START_DELAY (set_state ICE_START_DELAY st0)) in
  (state st0 = ICE_START_DELAY_NO_IGNITION
   /\ force_staying_in_DELAY_NO_IGNITION_duration_ms st0 = 3000
   /\ state_change_timestamp_ms st0 = 4000
   /\ starting_attempts st0 = 1)
  /\ (state st1 = ICE_START_DELAY_NO_IGNITION
      /\ force_staying_in_DELAY_NO_IGNITION_duration_ms st1 = 0
      /\ srv_ignition st1 = SrvPwm 1100
      /\ srv_starter st1 = SrvPwm 1100)
  /\ (state st2 = ICE_START_DELAY_NO_IGNITION
      /\ srv_ignition st2 = SrvPwm 1100)
  /\ (state st1' = ICE_STARTING
      /\ srv_ignition st1' = SrvScaled 100).
Proof. vm_compute. repeat split. Qed.

(** *** The starter output *)

Lemma set_output_channels_starter e p st trim :
  srv_starter_channel e = Some trim ->
  (is_active (pending (gear st)) && negb (ICE_State_eqb (state st) ICE_OFF)
   = false ->
   (state st = ICE_STARTING ->
    srv_starter (set_output_channels e p st) = SrvScaled 100)
   /\ (state st <> ICE_STARTING ->
       srv_starter (set_output_channels e p st) = SrvScaled 0
       \/ srv_starter (set_output_channels e p st) = SrvPwm trim))
  /\ (is_active (pending (gear st)) && negb (ICE_State_eqb (state st) ICE_OFF)
      = true ->
      srv_starter (set_output_channels e p st) = srv_starter st).
Proof.
  intros Hch. unfold set_output_channels; cbv zeta. rewrite Hch.
  destruct (srv_gear_function e) as [t|];
    [destruct (gear_eqb (gear_state (gear st)) MAV_ICE_TRANSMISSION_GEAR_STATE_UNKNOWN) |]; simpl;
    (split; intros Hg; rewrite Hg;
     [ split; intros Hs;
       [ rewrite Hs; reflexivity
       | destruct (state st); try congruence; simpl;
         repeat break_match; auto ]
     | reflexivity ]).
Qed.

(** C3 (amended): on every tick with the controller enabled and a starter
    channel assigned, if the tick ends with no gear change in flight or
    with the engine OFF, the starter output is driven high exactly when the
    engine state is STARTING and is driven off (scaled 0 or trim) in every
    other state; if the tick, not being the first, ends with a gear change
    in flight and the engine not OFF, the starter output is not driven and
    keeps the value it had before the tick. *)
Theorem C3_starter_output_per_tick pf e p st trim :
  enable p <> 0 ->
  srv_starter_channel e = Some trim ->
  let st' := update pf e p st in
  (is_active (pending (gear st')) = false \/ state st' = ICE_OFF ->
   (state st' = ICE_STARTING -> srv_starter st' = SrvScaled 100)
   /\ (state st' <> ICE_STARTING ->
       srv_starter st' = SrvScaled 0 \/ srv_starter st' = SrvPwm trim))
  /\ (is_active (pending (gear st')) = true -> state st' <> ICE_OFF ->
      run_once st = true ->
      srv_starter st' = srv_starter st).
Proof.
  intros Hen Hch st'. subst st'.
  rewrite (update_enabled pf e p st Hen).
  set (e' := tick_env e st).
  set (x := update_gear pf e' p (determine_state pf e' p (tick_sensed pf e p st))).
  rewrite send_status_pending, set_output_channels_pending.
  rewrite (core_state _ _ (send_status_core _ _)).
  rewrite (core_state _ _ (set_output_channels_core _ _ _)).
  rewrite (io_srv_starter _ _ (send_status_io _ _)).
  assert (Hch' : srv_starter_channel e' = Some trim)
    by (unfold e'; rewrite srv_starter_channel_tick_env; exact Hch).
  destruct (set_output_channels_starter e' p x trim Hch') as [Hdrive Hkeep].
  split.
  - intros Hidle. apply Hdrive.
    destruct Hidle as [-> | ->]; [reflexivity | apply andb_false_r].
  - intros Hact Hs Hro. rewrite Hkeep.
    + unfold x. rewrite (io_srv_starter _ _ (update_gear_io _ _ _ _)).
      rewrite (io_srv_starter _ _ (determine_state_io _ _ _ _)).
      destruct (resolve_startControlSelect_outputs e' p (tick_sensed pf e p st))
        as (-> & _).
      unfold tick_sensed.
      rewrite (io_srv_starter _ _ (update_sensors_io _ _ _ _)).
      unfold tick_start. rewrite Hro. reflexivity.
    + rewrite Hact. apply ICE_State_eqb_neq in Hs. rewrite Hs. reflexivity.
Qed.

(** The first tick does not drive the starter either while a gear change
    is in flight; here the tick that takes the engine to RUNNING. *)
Lemma C3_starter_output_per_tick_witness :
  let p := default_params 128 (-1) 0 0 in
  let e := env_at 3200 1800 true 0 in
  let st := run rover_platform p
              [ SetAutoMode true; Tick (env_at 100 1800 true 0);
                Tick (env_at 120 1800 true 0); Tick (env_at 140 1800 true 0) ]
              boot_default in
  let st' := update rover_platform e p st in
  enable p <> 0
  /\ srv_starter_channel e = Some 1100
  /\ (is_active (pending (gear st')) = false \/ state st' = ICE_OFF ->
      (state st' = ICE_STARTING -> srv_starter st' = SrvScaled 100)
      /\ (state st' <> ICE_STARTING ->
          srv_starter st' = SrvScaled 0 \/ srv_starter st' = SrvPwm 1100))
  /\ (is_active (pending (gear st')) = true -> state st' <> ICE_OFF ->
      run_once st = true ->
      srv_starter st' = srv_starter st).
Proof.
  cbv zeta. split; [discriminate |]. split; [reflexivity |].
  apply (C3_starter_output_per_tick rover_platform
           (env_at 3200 1800 true 0) (default_params 128 (-1) 0 0));
    [discriminate | reflexivity].
Defined.

(** C3 as stated fails: with auto mode active and OPTIONS bit 7 set, the
    tick on which the engine is found RUNNING starts the change to FORWARD,
    so the outputs are skipped and the starter stays at its STARTING value;
    the next tick leaves it there too. *)
Lemma C3_starter_high_while_running :
  let p := default_params 128 (-1) 0 0 in
  let st := run rover_platform p (SetAutoMode true :: start_up) boot_default in
  let st' := update rover_platform (env_at 3220 1800 true 0) p st in
  (state st = ICE_RUNNING /\ srv_starter st = SrvScaled 100
   /\ is_active (pending (gear st)) = true)
  /\ (state st' = ICE_RUNNING /\ srv_starter st' = SrvScaled 100).
Proof. vm_compute. repeat split. Qed.

(** *** The restart budget *)

Lemma attempts_bounded_core pf p a b :
  engine_core a = engine_core b ->
  attempts_bounded pf p b -> attempts_bounded pf p a.
Proof.
  intros H. unfold attempts_bounded.
  rewrite (core_state _ _ H), (core_starting_attempts _ _ H),
    (core_starter_start_time_ms _ _ H).
  trivial.
Qed.

Lemma gate_off_attempts_bounded pf e p st :
  attempts_bounded pf p st -> attempts_bounded pf p (gate_off e p st).
Proof.
  unfold attempts_bounded.
  destruct (gate_off_members e p st) as (-> & -> & _).
  rewrite gate_off_state.
  destruct (system_should_be_off e p (resolve_startControlSelect e p st));
    [| trivial].
  intros (H1 & _ & _). repeat split; try assumption; discriminate.
Qed.

Lemma settle_attempts_bounded pf p now_ms st :
  attempts_bounded pf p st -> attempts_bounded pf p (settle now_ms st).
Proof.
  unfold attempts_bounded.
  rewrite settle_state, settle_starting_attempts, settle_starter_start_time_ms.
  intros (H1 & H2 & H3). repeat split; try assumption.
  intros Hs. rewrite Hs in *. simpl. auto.
Qed.

Lemma switch_state_attempts_bounded pf e p now_ms rpm off st :
  0 <= resarts_allowed p ->
  now e At_starter_start <> 0 ->
  attempts_bounded pf p st ->
  attempts_bounded pf p (switch_state pf e p now_ms rpm off st).
Proof.
  intros Hrc Hclk (H1 & H2 & H3). unfold attempts_bounded, switch_state.
  destruct (state st) eqn:Hs.
  - unfold case_ICE_OFF. break_if; simpl; rewrite ?Hs;
      repeat split; try lia; try discriminate.
  - destruct (build_is_rover pf) eqn:Hb.
    + simpl. repeat split; try assumption; discriminate.
    + exfalso. apply (H3 eq_refl). reflexivity.
  - unfold case_ICE_START_DELAY_NO_IGNITION. break_if; simpl; rewrite ?Hs;
      repeat split; try assumption; discriminate.
  - unfold case_ICE_START_DELAY.
    destruct (negb (ICE_Ignition_State_eqb (startControlSelect st)
                      ICE_IGNITION_START_RUN)
              || negb (arming_OK_to_start_or_run e p));
      [rewrite Hs; repeat split; try assumption; discriminate |].
    destruct ((0 <=? resarts_allowed p)
              && (resarts_allowed p <? starting_attempts st)) eqn:Hbudget;
      [rewrite Hs; repeat split; try assumption; discriminate |].
    assert (Hle : starting_attempts st <= resarts_allowed p).
    { apply andb_false_iff in Hbudget. destruct Hbudget as [Hb | Hb].
      - apply Z.leb_gt in Hb. lia.
      - apply Z.ltb_ge in Hb. exact Hb. }
    repeat break_if; simpl; rewrite ?Hs;
      repeat split; try assumption; try discriminate; intros; lia.
  - unfold case_ICE_STARTING; cbv zeta.
    destruct (starter_start_time_ms (set_engine_power_up_wait_ms 0 st) =? 0)
      eqn:Hz; simpl in Hz.
    + apply Z.eqb_eq in Hz. specialize (H2 eq_refl Hz).
      repeat break_if; simpl; rewrite ?Hs;
        repeat split; try lia; try discriminate; intros; contradiction.
    + apply Z.eqb_neq in Hz.
      repeat break_if; simpl; rewrite ?Hs;
        repeat split; try lia; try discriminate; intros; contradiction.
  - unfold case_ICE_RUNNING; cbv zeta.
    repeat break_if; simpl; rewrite ?Hs;
      repeat split; try assumption; try discriminate.
Qed.

Lemma determine_state_attempts_bounded pf e p st :
  0 <= resarts_allowed p ->
  now e At_starter_start <> 0 ->
  attempts_bounded pf p st ->
  attempts_bounded pf p (determine_state pf e p st).
Proof.
  intros Hrc Hclk Hinv. rewrite determine_state_steps.
  apply settle_attempts_bounded, switch_state_attempts_bounded;
    try assumption.
  apply gate_off_attempts_bounded, Hinv.
Qed.

Lemma update_attempts_bounded pf e p st :
  0 <= resarts_allowed p ->
  now e At_starter_start <> 0 ->
  attempts_bounded pf p st ->
  attempts_bounded pf p (update pf e p st).
Proof.
  intros Hrc Hclk Hinv.
  destruct (Z.eq_dec (enable p) 0) as [Hen | Hen].
  - apply (attempts_bounded_core _ _ _ _ (update_disabled_core pf e p st Hen)).
    destruct Hinv as (H1 & _ & _).
    repeat split; simpl; try assumption; discriminate.
  - apply (attempts_bounded_core _ _ _ _ (update_core pf e p st Hen)).
    apply determine_state_attempts_bounded; try assumption.
    + rewrite now_tick_env. exact Hclk.
    + apply (attempts_bounded_core _ _ _ _ (tick_sensed_core pf e p st)).
      exact Hinv.
Qed.

(** A command that does not take the height-delay branch leaves the
    members of the engine state machine alone. *)
Lemma engine_control_core pf e p sc cs hd gs fm st :
  build_is_rover pf = true \/ F32.gtb hd (F32.of_Z 0) = false ->
  engine_core (fst (engine_control pf e p sc cs hd gs fm st)) = engine_core st.
Proof.
  intros Hfree.
  assert (Hb : negb (build_is_rover pf) && F32.gtb hd (F32.of_Z 0) = false)
    by (destruct Hfree as [H | H]; rewrite H;
        [reflexivity | apply andb_false_r]).
  assert (H : forall e p g v s,
             engine_core (fst (set_ice_transmission_state e p g v s))
             = engine_core s)
    by (intros; apply set_ice_transmission_state_core).
  unfold engine_control; cbv zeta. rewrite Hb.
  revert H. generalize set_ice_transmission_state. intros f H.
  repeat (break_if || break_match); cbn [fst];
    try match goal with
        | |- context [fst (f ?a ?b ?c ?d ?s)] =>
            transitivity (engine_core (fst (f a b c d s)));
              [reflexivity | rewrite H]
        end;
    reflexivity.
Qed.

Lemma run_attempts_bounded pf p evs : forall st,
  0 <= resarts_allowed p ->
  Forall clock_nonzero evs ->
  Forall (height_delay_free pf) evs ->
  attempts_bounded pf p st ->
  attempts_bounded pf p (run pf p evs st).
Proof.
  induction evs as [| ev evs IH]; intros st Hrc Hclk Hfree Hinv; simpl.
  - exact Hinv.
  - inversion Hclk as [| ? ? Hev Hrest]; subst.
    inversion Hfree as [| ? ? Hfev Hfrest]; subst.
    apply IH; try assumption.
    destruct ev as [e | b | e sc cs hd gs fm]; simpl.
    + apply update_attempts_bounded; assumption.
    + exact Hinv.
    + apply (attempts_bounded_core _ _ _ _
               (engine_control_core pf e p sc cs hd gs fm st Hfev)).
      exact Hinv.
Qed.

Lemma boot_attempts_bounded pf p g1 g2 :
  0 <= resarts_allowed p -> attempts_bounded pf p (boot g1 g2).
Proof.
  intros H. unfold attempts_bounded; simpl.
  repeat split; try lia; discriminate.
Qed.

Lemma determine_state_lingers pf e p st :
  0 <= resarts_allowed p ->
  state st = ICE_START_DELAY ->
  resarts_allowed p < starting_attempts st ->
  state (determine_state pf e p st) = ICE_START_DELAY
  \/ state (determine_state pf e p st) = ICE_OFF.
Proof.
  intros Hrc Hs Hover.
  destruct (system_should_be_off e p (resolve_startControlSelect e p st)) eqn:Hoff.
  - right. apply determine_state_off, Hoff.
  - left. rewrite determine_state_steps, settle_state.
    pose proof (gate_off_state e p st) as Hg. rewrite Hoff, Hs in Hg.
    destruct (gate_off_members e p st) as (Ha & _).
    unfold switch_state. rewrite Hg. unfold case_ICE_START_DELAY.
    break_if; [exact Hg |].
    rewrite Ha.
    replace (0 <=? resarts_allowed p) with true by (symmetry; apply Z.leb_le; lia).
    replace (resarts_allowed p <? starting_attempts st) with true
      by (symmetry; apply Z.ltb_lt; lia).
    simpl. exact Hg.
Qed.

(** The [switch] changes the counter in two places only: the count of a
    start attempt in STARTING and the reset in OFF. *)
Lemma switch_state_starting_attempts pf e p now_ms rpm off st :
  let st' := switch_state pf e p now_ms rpm off st in
  starting_attempts st' = starting_attempts st
  \/ (state st = ICE_STARTING
      /\ starting_attempts st' = starting_attempts st + 1)
  \/ (state st = ICE_OFF /\ starting_attempts st' = 0).
Proof.
  unfold switch_state. destruct (state st) eqn:Hs.
  - right; right. unfold case_ICE_OFF. break_if; simpl; auto.
  - left. unfold case_ICE_START_HEIGHT_DELAY. frame.
  - left. unfold case_ICE_START_DELAY_NO_IGNITION. frame.
  - left. unfold case_ICE_START_DELAY. frame.
  - unfold case_ICE_STARTING; cbv zeta.
    destruct (starter_start_time_ms (set_engine_power_up_wait_ms 0 st) =? 0);
      [right; left; split; [reflexivity |] | left]; frame.
  - left. unfold case_ICE_RUNNING; cbv zeta. frame.
Qed.

Lemma determine_state_clears_in_off pf e p st :
  starting_attempts (determine_state pf e p st) < starting_attempts st ->
  starting_attempts (determine_state pf e p st) = 0
  /\ state (gate_off e p st) = ICE_OFF.
Proof.
  rewrite determine_state_steps, settle_starting_attempts.
  destruct (gate_off_members e p st) as (Ha & _).
  pose proof (switch_state_starting_attempts pf e p (now e At_determine_state)
                (read_current_rpm e p)
                (system_should_be_off e p (resolve_startControlSelect e p st))
                (gate_off e p st)) as H.
  cbv zeta in H. rewrite Ha in H.
  intros Hlt. destruct H as [H | [[_ H] | [Hs H]]]; try lia.
  split; assumption.
Qed.

(** A command never changes the restart counter. *)
Lemma engine_control_starting_attempts pf e p sc cs hd gs fm st :
  starting_attempts (fst (engine_control pf e p sc cs hd gs fm st))
  = starting_attempts st.
Proof.
  assert (H : forall e p g v s,
             starting_attempts (fst (set_ice_transmission_state e p g v s))
             = starting_attempts s)
    by (intros; apply core_starting_attempts,
          set_ice_transmission_state_core).
  unfold engine_control; cbv zeta.
  revert H. generalize set_ice_transmission_state. intros f H.
  repeat (break_if || break_match); cbn [fst]; simpl; rewrite ?H;
    reflexivity.
Qed.

(** C4 (amended): with RESTART_CNT >= 0, over every sequence of ticks and
    DO_ENGINE_CONTROL commands from boot on which the clock does not read
    0 where a start attempt is stamped and no command with a height delay
    above 0 reaches a build other than APMrover2, [starting_attempts]
    never exceeds RESTART_CNT + 1; a tick that finds the engine in
    START_DELAY with the counter above RESTART_CNT leaves it in
    START_DELAY or takes it to OFF, never to STARTING; a tick lowers the
    counter only by clearing it in the OFF case of the state machine; and
    a command never changes the counter. *)
Theorem C4_restart_budget pf p :
  0 <= resarts_allowed p ->
  (forall evs g1 g2,
      Forall clock_nonzero evs ->
      Forall (height_delay_free pf) evs ->
      starting_attempts (run pf p evs (boot g1 g2)) <= resarts_allowed p + 1)
  /\ (forall e st,
         state st = ICE_START_DELAY ->
         resarts_allowed p < starting_attempts st ->
         state (update pf e p st) = ICE_START_DELAY
         \/ state (update pf e p st) = ICE_OFF)
  /\ (forall e st,
         starting_attempts (update pf e p st) < starting_attempts st ->
         starting_attempts (update pf e p st) = 0
         /\ state (gate_off (tick_env e st) p (tick_sensed pf e p st)) = ICE_OFF)
  /\ (forall e sc cs hd gs fm st,
         starting_attempts (fst (engine_control pf e p sc cs hd gs fm st))
         = starting_attempts st).
Proof.
  intros Hrc. split; [| split; [| split]].
  - intros evs g1 g2 Hclk Hfree.
    apply (run_attempts_bounded pf p evs (boot g1 g2) Hrc Hclk Hfree).
    apply boot_attempts_bounded, Hrc.
  - intros e st Hs Hover.
    destruct (Z.eq_dec (enable p) 0) as [Hen | Hen].
    + right. rewrite (core_state _ _ (update_disabled_core pf e p st Hen)).
      reflexivity.
    + rewrite (update_state pf e p st Hen).
      pose proof (tick_sensed_core pf e p st) as Hc.
      apply determine_state_lingers; try assumption.
      * rewrite (core_state _ _ Hc). exact Hs.
      * rewrite (core_starting_attempts _ _ Hc). exact Hover.
  - intros e st H.
    destruct (Z.eq_dec (enable p) 0) as [Hen | Hen].
    + rewrite (core_starting_attempts _ _ (update_disabled_core pf e p st Hen))
        in H. simpl in H. lia.
    + rewrite (core_starting_attempts _ _ (update_core pf e p st Hen)) in *.
      pose proof (core_starting_attempts _ _ (tick_sensed_core pf e p st)) as Hc.
      simpl in Hc. rewrite <- Hc in H.
      apply determine_state_clears_in_off, H.
  - intros. apply engine_control_starting_attempts.
Qed.

(** The second failed attempt of scenario S2 (RESTART_CNT = 1) spends the
    budget: the counter is 2, the next tick lingers in START_DELAY, and
    the tick that reads the switch at OFF clears the counter. *)
Lemma C4_restart_budget_witness :
  let p := default_params 0 1 1 300 in
  let st := run rover_platform p two_failed_starts boot_default in
  0 <= resarts_allowed p
  /\ starting_attempts st <= resarts_allowed p + 1
  /\ (state (update rover_platform (env_at 10500 1800 true 0) p st)
      = ICE_START_DELAY
      \/ state (update rover_platform (env_at 10500 1800 true 0) p st) = ICE_OFF)
  /\ starting_attempts (update rover_platform (env_at 10500 1200 true 0) p st) = 0.
Proof.
  cbv zeta.
  assert (Hrc : 0 <= resarts_allowed (default_params 0 1 1 300))
    by (vm_compute; discriminate).
  destruct (C4_restart_budget rover_platform (default_params 0 1 1 300) Hrc)
    as (Hbound & Hlinger & Hclear & _).
  split; [exact Hrc |]. split; [| split].
  - apply Hbound; unfold two_failed_starts.
    + repeat constructor; vm_compute; discriminate.
    + repeat constructor.
  - apply Hlinger; vm_compute; reflexivity.
  - apply Hclear. vm_compute. reflexivity.
Defined.

(** C4 as stated fails when the clock reads 0 on the tick that begins a
    start attempt (RESTART_CNT = 0, the millisecond clock wrapping):
    [starter_start_time_ms] stays 0, the next tick counts the same attempt
    again, and the counter is 2. *)
Lemma C4_counter_exceeds_budget :
  let p := default_params 0 0 0 0 in
  let st := run rover_platform p start_across_clock_wrap boot_default in
  0 <= resarts_allowed p
  /\ starting_attempts st = 2
  /\ ~ starting_attempts st <= resarts_allowed p + 1.
Proof. vm_compute. repeat split; discriminate || (intros H; apply H; reflexivity). Qed.

(** The bound also fails, with the clock never reading 0, when a command
    with a height delay reaches a build that has the height delay
    (RESTART_CNT = 0): the command takes the engine from STARTING, its one
    attempt counted, to START_HEIGHT_DELAY, which leads back to STARTING
    without the budget test of START_DELAY, and the counter is 2. *)
Lemma C4_height_delay_command_exceeds_budget :
  let p := default_params 0 0 0 0 in
  let st := run plane_platform p restart_through_height_delay boot_default in
  Forall clock_nonzero restart_through_height_delay
  /\ 0 <= resarts_allowed p
  /\ state st = ICE_STARTING
  /\ starting_attempts st = 2
  /\ ~ starting_attempts st <= resarts_allowed p + 1.
Proof.
  cbv zeta. split.
  - unfold restart_through_height_delay.
    repeat constructor; vm_compute; discriminate.
  - vm_compute.
    repeat split; discriminate || (intros H; apply H; reflexivity).
Qed.

(** *** The exits of STARTING *)

(** The state [case ICE_STARTING] leaves, with run permission granted. *)
Lemma case_ICE_STARTING_state e p now_ms rpm st :
  state st = ICE_STARTING ->
  state (case_ICE_STARTING e p now_ms rpm true st)
  = if (0 <? rpm_threshold_starting p) && (rpm_threshold_starting p <=? rpm)
    then ICE_RUNNING
    else if starter_time_expired p now_ms
              (if starter_start_time_ms st =? 0
               then now e At_starter_start else starter_start_time_ms st)
    then if rpm_threshold_starting p <=? 0 then ICE_RUNNING
         else if rpm <? 0 then ICE_OFF
         else if rpm <? rpm_threshold_starting p then ICE_START_DELAY
         else ICE_STARTING
    else ICE_STARTING.
Proof.
  intros Hs. unfold case_ICE_STARTING; cbv zeta. cbn [negb].
  cbn [starter_start_time_ms set_engine_power_up_wait_ms].
  destruct (starter_start_time_ms st =? 0);
    cbn [starter_start_time_ms set_starter_last_run_ms
         set_starter_start_time_ms set_starting_attempts
         set_engine_power_up_wait_ms];
    repeat break_if; simpl; auto.
Qed.

(** C5: when the state machine runs its STARTING case with run permission
    granted, a tick on which RPM_THRESH2 > 0 and rpm >= RPM_THRESH2 takes
    the engine to RUNNING; otherwise, once [now - starter_start_ms >=
    STARTER_TIME * 1000], the next state is RUNNING if RPM_THRESH2 <= 0,
    else OFF if rpm < 0, else START_DELAY if rpm < RPM_THRESH2. The start
    time compared is the one the tick has just stamped when none was
    recorded. *)
Theorem C5_starting_exits pf e p st :
  state (gate_off e p st) = ICE_STARTING ->
  arming_OK_to_start_or_run e p = true ->
  let rpm := read_current_rpm e p in
  let thresh2 := rpm_threshold_starting p in
  let start_ms := if starter_start_time_ms st =? 0
                  then now e At_starter_start else starter_start_time_ms st in
  let st' := determine_state pf e p st in
  (0 < thresh2 -> thresh2 <= rpm -> state st' = ICE_RUNNING)
  /\ (~ (0 < thresh2 /\ thresh2 <= rpm) ->
      starter_time_expired p (now e At_determine_state) start_ms = true ->
      (thresh2 <= 0 -> state st' = ICE_RUNNING)
      /\ (0 < thresh2 -> rpm < 0 -> state st' = ICE_OFF)
      /\ (0 < thresh2 -> 0 <= rpm -> rpm < thresh2 ->
          state st' = ICE_START_DELAY)).
Proof.
  intros Hg Hrun rpm thresh2 start_ms st'. subst st'.
  rewrite determine_state_steps, settle_state.
  destruct (gate_off_members e p st) as (_ & Hst & _).
  unfold switch_state. rewrite Hg. rewrite Hrun.
  rewrite (case_ICE_STARTING_state _ _ _ _ _ Hg), Hst.
  fold rpm. fold thresh2. fold start_ms.
  split.
  - intros H1 H2.
    replace (0 <? thresh2) with true by (symmetry; apply Z.ltb_lt; lia).
    replace (thresh2 <=? rpm) with true by (symmetry; apply Z.leb_le; lia).
    reflexivity.
  - intros Hnot Hexp. rewrite Hexp.
    replace ((0 <? thresh2) && (thresh2 <=? rpm)) with false
      by (symmetry; apply andb_false_iff;
          destruct (Z.ltb_spec 0 thresh2);
          [right; apply Z.leb_gt; lia | left; reflexivity]).
    repeat split.
    + intros H. replace (thresh2 <=? 0) with true
        by (symmetry; apply Z.leb_le; lia). reflexivity.
    + intros H1 H2.
      replace (thresh2 <=? 0) with false by (symmetry; apply Z.leb_gt; lia).
      replace (rpm <? 0) with true by (symmetry; apply Z.ltb_lt; lia).
      reflexivity.
    + intros H1 H2 H3.
      replace (thresh2 <=? 0) with false by (symmetry; apply Z.leb_gt; lia).
      replace (rpm <? 0) with false by (symmetry; apply Z.ltb_ge; lia).
      replace (rpm <? thresh2) with true by (symmetry; apply Z.ltb_lt; lia).
      reflexivity.
Qed.

(** Scenario S1: RPM_THRESH2 = 300, the starter engaged at 140 ms, and
    350 rpm read at 2500 ms. *)
Lemma C5_starting_exits_witness :
  let p := default_params 0 (-1) 1 300 in
  let e := env_at 2500 1800 true 350 in
  let st := run rover_platform p
              [ Tick (env_at 100 1800 true 0); Tick (env_at 120 1800 true 0);
                Tick (env_at 140 1800 true 0) ] boot_default in
  state (gate_off e p st) = ICE_STARTING
  /\ arming_OK_to_start_or_run e p = true
  /\ 0 < rpm_threshold_starting p
  /\ rpm_threshold_starting p <= read_current_rpm e p
  /\ state (determine_state rover_platform e p st) = ICE_RUNNING.
Proof.
  cbv zeta.
  assert (H1 : state (gate_off (env_at 2500 1800 true 350)
                        (default_params 0 (-1) 1 300)
                        (run rover_platform (default_params 0 (-1) 1 300)
              [ Tick (env_at 100 1800 true 0); Tick (env_at 120 1800 true 0);
                Tick (env_at 140 1800 true 0) ] boot_default)) = ICE_STARTING)
    by (vm_compute; reflexivity).
  assert (H3 : arming_OK_to_start_or_run (env_at 2500 1800 true 350)
                 (default_params 0 (-1) 1 300) = true)
    by (vm_compute; reflexivity).
  assert (H4 : 0 < rpm_threshold_starting (default_params 0 (-1) 1 300))
    by (vm_compute; reflexivity).
  assert (H5 : rpm_threshold_starting (default_params 0 (-1) 1 300)
               <= read_current_rpm (env_at 2500 1800 true 350)
                    (default_params 0 (-1) 1 300))
    by (vm_compute; discriminate).
  repeat (split; [assumption |]).
  exact (proj1 (C5_starting_exits rover_platform _ _ _ H1 H3) H4 H5).
Defined.

(** ** Brake override *)

(** In NEUTRAL with no gear change in flight, the brake is forced to 100
    whenever the vehicle is disarmed; the release flag is looked at only
    when it is armed. *)
Lemma brake_override_neutral pf e p st b ds valid speed :
  enable p <> 0 ->
  gear_state (gear st) = MAV_ICE_TRANSMISSION_GEAR_STATE_NEUTRAL ->
  is_active (pending (gear st)) = false ->
  fst (brake_override pf e p st b ds valid speed)
  = if negb (soft_armed e) then F32.of_Z 100
    else if brakeReleaseAllowedIn_Neutral_and_Disarmed st then F32.of_Z 0
    else b.
Proof.
  intros Hen Hg Ha. unfold brake_override.
  destruct (Z.eqb_spec (enable p) 0); [contradiction |].
  cbv zeta. rewrite Hg, Ha. reflexivity.
Qed.

(** C6: with the gear in NEUTRAL, no gear change in flight, the vehicle
    disarmed and [brake_release_in_neutral] set, the brake is meant to be
    released (0). The code applies it fully: a brake of 50 comes back as
    100, and the release to 0 happens only when the vehicle is armed. *)
Theorem C6_neutral_disarmed_release_brakes :
  let p := default_params 0 (-1) 0 0 in
  let call armed :=
    brake_override rover_platform (env_at 5000 1500 armed 0) p
      neutral_with_release (F32.of_Z 50) (F32.of_Z 0) false (F32.of_Z 0) in
  enable p <> 0
  /\ gear_state (gear neutral_with_release) = MAV_ICE_TRANSMISSION_GEAR_STATE_NEUTRAL
  /\ is_active (pending (gear neutral_with_release)) = false
  /\ brakeReleaseAllowedIn_Neutral_and_Disarmed neutral_with_release = true
  /\ call false = (F32.of_Z 100, true)
  /\ call true = (F32.of_Z 0, true).
Proof. vm_compute. repeat split; discriminate. Qed.

(** ** The sensor filters *)

Lemma stale_test_of_recent_sample last_ms now_ms :
  0 < last_ms -> last_ms < now_ms -> now_ms < U32.modulus ->
  now_ms - last_ms < U32.modulus - 5000 ->
  (5000 <? U32.sub last_ms now_ms) = true.
Proof.
  intros H1 H2 H3 H4. unfold U32.sub, U32.wrap, U32.modulus in *.
  apply Z.ltb_lt.
  replace (last_ms - now_ms) with ((last_ms - now_ms + 2 ^ 32) + (-1) * 2 ^ 32)
    by lia.
  rewrite Z.mod_add by lia. rewrite Z.mod_small; lia.
Qed.

(** Every fuel sample that follows an earlier one (by less than the clock
    period minus 5 s) is taken as stale: the stored value is overwritten
    before the filter runs, whatever it was. *)
Lemma update_fuel_forgets_value e st :
  battery_healthy e = true ->
  0 < last_sample_ms (fuel st) ->
  last_sample_ms (fuel st) < now e At_update_fuel ->
  now e At_update_fuel - last_sample_ms (fuel st) < U32.modulus - 5000 ->
  value (fuel (update_fuel e st))
  = low_pass (capacity_remaining_pct e) (capacity_remaining_pct e).
Proof.
  intros Hb H1 H2 H3. unfold update_fuel. rewrite Hb. cbv zeta. cbn [negb].
  rewrite stale_test_of_recent_sample; try assumption.
  - rewrite orb_true_r. reflexivity.
  - unfold now, U32.wrap. apply Z.mod_pos_bound. reflexivity.
Qed.

(** C7: a sample taken 100 ms after the previous one is meant to go
    through the filter, 0.1 * y + 0.9 * x. The staleness test subtracts
    the wrong way round ([last_sample_ms - now_ms] on unsigned integers),
    so the sample is taken as stale and replaces the stored value: from
    y = 0 and x = 10 both the fuel level and the temperature become 10,
    where the filter gives 9. *)
Theorem C7_recent_sample_bypasses_filter :
  let e := sensor_env 1100 10 10 in
  let st := update_fuel e
              (update_temperature rover_platform e sensor_params sampled_at_1000) in
  (value (fuel sampled_at_1000) = F32.of_Z 0
   /\ last_sample_ms (fuel sampled_at_1000) = 1000
   /\ value (temperature sampled_at_1000) = F32.of_Z 0
   /\ last_sample_ms (temperature sampled_at_1000) = 1000)
  /\ low_pass (F32.of_Z 0) (F32.of_Z 10) = F32.of_Z 9
  /\ value (fuel st) = F32.of_Z 10
  /\ value (temperature st) = F32.of_Z 10.
Proof. vm_compute. repeat split. Qed.

(** ** The gear state machine *)

Lemma is_active_iff pd :
  is_active pd = true <-> stop_wait_running pd \/ shift_running pd.
Proof.
  unfold is_active, stop_wait_running, shift_running.
  rewrite orb_true_iff, !Z.ltb_lt. tauto.
Qed.

(** The command stamps the stop-wait and leaves the shift timestamp as it
    finds it. *)
Lemma set_ice_transmission_state_shift e p g v st :
  change_physical_gear_start_ms
    (pending (gear (fst (set_ice_transmission_state e p g v st))))
  = change_physical_gear_start_ms (pending (gear st)).
Proof.
  unfold set_ice_transmission_state.
  destruct (pending_pwm_for p (pwm_active (gear st)) g v) as [[g' pw]|];
    [| reflexivity].
  break_if; reflexivity.
Qed.

(** The tick runs the stop-wait before the shift: the two timestamps are
    non-zero after it only if they were before it and the stop-wait has
    not elapsed. *)
Lemma update_gear_overlap pf e p st :
  phases_overlap (pending (gear (update_gear pf e p st))) ->
  phases_overlap (pending (gear st))
  /\ stop_wait_elapsed e (pending (gear (update_gear pf e p st))) = false.
Proof.
  unfold update_gear, phases_overlap, stop_wait_running, shift_running,
    stop_wait_elapsed; cbv zeta.
  destruct (is_negative pf (stop_duration (pending (gear st))));
    destruct (is_negative pf (change_duration_per_posiiton _));
    cbn [pending gear set_gear_pending set_gear set_pending
         stop_vehicle_start_ms change_physical_gear_start_ms
         set_stop_duration set_change_duration_per_posiiton stop_duration];
    (destruct (0 <? stop_vehicle_start_ms (pending (gear st))) eqn:Hstop;
     [ break_if; cbn; [lia | intros H; split; [exact H | assumption]]
     | apply Z.ltb_ge in Hstop;
       destruct (0 <? change_physical_gear_start_ms (pending (gear st)))
         eqn:Hshift;
       [ break_if; cbn; lia
       | apply Z.ltb_ge in Hshift;
         break_if;
         [ intros [_ H]; rewrite set_ice_transmission_state_shift in H;
           cbn in H; lia
         | cbn; lia ] ] ]).
Qed.

(** C8 (amended): a pending gear change is active iff at least one of the
    two timestamps is non-zero. A gear tick never brings the two phases to
    overlap: they overlap after it only if they did before it and the
    stop-wait has not yet elapsed. A command leaves the shift timestamp as
    it finds it, so the phases overlap after a command only if it was
    given while a shift was in flight; the stop-wait it starts then runs
    first. *)
Theorem C8_gear_phases pf e p st :
  (is_active (pending (gear st)) = true <->
   stop_wait_running (pending (gear st)) \/ shift_running (pending (gear st)))
  /\ (phases_overlap (pending (gear (update_gear pf e p st))) ->
      phases_overlap (pending (gear st))
      /\ stop_wait_elapsed e (pending (gear (update_gear pf e p st))) = false)
  /\ (forall g v,
         phases_overlap
           (pending (gear (fst (set_ice_transmission_state e p g v st)))) ->
         shift_running (pending (gear st))).
Proof.
  split; [apply is_active_iff |]. split; [apply update_gear_overlap |].
  intros g v [_ H]. unfold shift_running in *.
  rewrite set_ice_transmission_state_shift in H. exact H.
Qed.

(** The change to NEUTRAL commanded during the shift to FORWARD: the
    phases overlap after it, and the shift was running before it. *)
Lemma C8_gear_phases_witness :
  let p := default_params 0 (-1) 0 0 in
  let e := env_at 5040 1200 true 0 in
  let st := update_gear rover_platform (env_at 5020 1200 true 0) p
              (fst (set_ice_transmission_state (env_at 5000 1200 true 0) p
                      MAV_ICE_TRANSMISSION_GEAR_STATE_FORWARD 0 parked)) in
  phases_overlap
    (pending (gear (fst (set_ice_transmission_state e p MAV_ICE_TRANSMISSION_GEAR_STATE_NEUTRAL 0 st))))
  /\ shift_running (pending (gear st)).
Proof.
  cbv zeta.
  assert (H : phases_overlap
    (pending (gear (fst (set_ice_transmission_state (env_at 5040 1200 true 0)
       (default_params 0 (-1) 0 0) MAV_ICE_TRANSMISSION_GEAR_STATE_NEUTRAL 0
       (update_gear rover_platform (env_at 5020 1200 true 0)
          (default_params 0 (-1) 0 0)
          (fst (set_ice_transmission_state (env_at 5000 1200 true 0)
                  (default_params 0 (-1) 0 0) MAV_ICE_TRANSMISSION_GEAR_STATE_FORWARD 0 parked))))))))
    by (vm_compute; split; reflexivity).
  split; [exact H |].
  exact (proj2 (proj2 (C8_gear_phases rover_platform _ _ _)) _ _ H).
Defined.

(** C8 as stated fails: after FORWARD is commanded at 5000 ms, the tick at
    5020 ms begins the shift, and NEUTRAL is commanded at 5040 ms, both
    timestamps are non-zero. *)
Lemma C8_both_timestamps_nonzero :
  let pd := pending (gear forward_then_neutral) in
  is_active pd = true
  /\ stop_vehicle_start_ms pd = 5040
  /\ change_physical_gear_start_ms pd = 5020
  /\ phases_overlap pd.
Proof. vm_compute. repeat split. Qed.

(** ** The DO_ENGINE_CONTROL command *)

(** The condition of the RC gate never holds: whatever the start channel
    reads, the value handed to [convertPwmToIgnitionState] is 0 or 1, which
    converts to ICE_IGNITION_OFF, and that is 0. *)
Lemma rc_start_control_disabled_never e : rc_start_control_disabled e = false.
Proof.
  unfold rc_start_control_disabled.
  destruct (rc_start_chan e) as [c |]; [| reflexivity].
  destruct (radio_in c =? ignition_value ICE_IGNITION_OFF); reflexivity.
Qed.

(** C9: with the start switch at 1200 (IGN_OFF), not in forced auto-start
    mode, a command to start is meant to be rejected with "start control
    disabled" and to change nothing. The code accepts it: the call returns
    true, sends no such text, and sets the ignition intent to START_RUN. *)
Theorem C9_command_accepted_with_switch_off :
  let p := default_params 0 (-1) 0 0 in
  let e := env_at 5000 1200 true 0 in
  let r := engine_control rover_platform e p (F32.of_Z 2) (F32.of_Z 0)
             (F32.of_Z 0) (F32.of_Z 0) false switched_off in
  (auto_mode_active switched_off = false
   /\ option_set p AP_ICENGINE_OPTIONS_MASK_BLOCK_EXTERNAL_STARTER_CMDS = false
   /\ option_map (fun c => convertPwmToIgnitionState (radio_in c))
        (rc_start_chan e) = Some ICE_IGNITION_OFF
   /\ startControlSelect switched_off = ICE_IGNITION_OFF)
  /\ snd r = true
  /\ gcs_log (fst r) = gcs_log switched_off
  /\ startControlSelect (fst r) = ICE_IGNITION_START_RUN.
Proof. vm_compute. repeat split. Qed.

Lemma pending_pwm_for_unhandled p pwm g v :
  gear_handled g = false -> pending_pwm_for p pwm g v = None.
Proof. destruct g; simpl; intros H; try discriminate; reflexivity. Qed.

(** C10: a command that neither the blocked-external-commands option nor
    the RC gate rejects returns true; and when [start_control] is none of
    0, 1, 2 and [gear_state] names no settable gear, it returns true
    having changed neither the ignition intent nor the gear. *)
Theorem C10_engine_control_accepts pf e p start_control cold_start
  height_delay gear_state_f from_mission st :
  option_set p AP_ICENGINE_OPTIONS_MASK_BLOCK_EXTERNAL_STARTER_CMDS = false ->
  rc_gate_rejects e p st = false ->
  let r := engine_control pf e p start_control cold_start height_delay
             gear_state_f from_mission st in
  snd r = true
  /\ (is_equal pf start_control (F32.of_Z 0) = false ->
      is_equal pf start_control (F32.of_Z 1) = false ->
      is_equal pf start_control (F32.of_Z 2) = false ->
      names_settable_gear pf gear_state_f = false ->
      startControlSelect (fst r) = startControlSelect st
      /\ gear (fst r) = gear st).
Proof.
  intros Hblock Hgate r. subst r. unfold engine_control.
  unfold rc_gate_rejects in Hgate. rewrite Hblock, Hgate. cbv zeta.
  split; [reflexivity |].
  intros H0 H1 H2 Hgear. rewrite H0, H1, H2.
  unfold names_settable_gear in Hgear; cbv zeta in Hgear.
  cbn [fst].
  set (st1 := if negb (build_is_rover pf) && F32.gtb height_delay (F32.of_Z 0)
              then _ else st).
  assert (Hst1 : startControlSelect st1 = startControlSelect st
                 /\ gear st1 = gear st)
    by (unfold st1; break_if; split; reflexivity).
  destruct Hst1 as [<- <-].
  destruct ((0 <? F32.to_int32 gear_state_f)
            && negb (F32.to_int32 gear_state_f =? gear_value pf MAV_ICE_TRANSMISSION_GEAR_STATE_UNKNOWN)
            && negb (F32.to_int32 gear_state_f =? gear_value pf MAV_ICE_TRANSMISSION_GEAR_STATE_PWM_VALUE)
            && F32.ltb gear_state_f (F32.of_Z (MAV_ICE_TRANSMISSION_GEAR_STATE_ENUM_END pf)));
    [| split; reflexivity].
  cbn [andb] in Hgear.
  destruct (gear_of_value pf (F32.to_int32 gear_state_f)) as [g |];
    [| split; reflexivity].
  unfold set_ice_transmission_state.
  rewrite (pending_pwm_for_unhandled _ _ _ _ Hgear). cbn. split; reflexivity.
Qed.

(** A command with [start_control] = -1 and [gear_state] = 0 while the
    engine runs: accepted, nothing changed. *)
Lemma C10_engine_control_accepts_witness :
  let p := default_params 0 (-1) 0 0 in
  let e := env_at 3300 1800 true 0 in
  let st := run rover_platform p start_up boot_default in
  let r := engine_control rover_platform e p (F32.of_Z (-1)) (F32.of_Z 0)
             (F32.of_Z 0) (F32.of_Z 0) false st in
  snd r = true
  /\ startControlSelect (fst r) = startControlSelect st
  /\ gear (fst r) = gear st.
Proof.
  cbv zeta.
  destruct (C10_engine_control_accepts rover_platform (env_at 3300 1800 true 0)
              (default_params 0 (-1) 0 0) (F32.of_Z (-1)) (F32.of_Z 0)
              (F32.of_Z 0) (F32.of_Z 0) false
              (run rover_platform (default_params 0 (-1) 0 0) start_up
                 boot_default))
    as [Hacc Hsame]; try (vm_compute; reflexivity).
  split; [exact Hacc |].
  apply Hsame; vm_compute; reflexivity.
Defined.

(** * Further properties *)

#[global] Arguments set_ice_transmission_state : simpl never.

(** ** The ignition intent *)

Lemma resolve_startControlSelect_auto e p st :
  auto_mode_active (resolve_startControlSelect e p st) = auto_mode_active st.
Proof. unfold resolve_startControlSelect; frame. Qed.

(** X1: [determine_state] resolves the ignition intent afresh on every
    call: to START_RUN when auto mode overrides the switch, else to the
    band the start channel reads, whatever the intent was; only with no
    start channel is the intent kept. *)
Theorem intent_resolution pf e p st :
  let st' := determine_state pf e p st in
  (auto_always_autostart p st = true ->
   startControlSelect st' = ICE_IGNITION_START_RUN)
  /\ (auto_always_autostart p st = false ->
      forall c, rc_start_chan e = Some c ->
      startControlSelect st' = convertPwmToIgnitionState (radio_in c))
  /\ (auto_always_autostart p st = false ->
      rc_start_chan e = None ->
      startControlSelect st' = startControlSelect st).
Proof.
  cbv zeta.
  rewrite (io_startControlSelect _ _ (determine_state_io pf e p st)).
  unfold auto_always_autostart, resolve_startControlSelect.
  split; [| split].
  - intros ->.
    destruct (ICE_Ignition_State_eqb (startControlSelect st)
                ICE_IGNITION_START_RUN) eqn:Heq; simpl.
    + apply ICE_Ignition_State_eqb_eq, Heq.
    + reflexivity.
  - intros -> c ->. reflexivity.
  - intros -> ->. reflexivity.
Qed.

Lemma intent_resolution_witness :
  let p := default_params 8 (-1) 0 0 in
  let st := set_auto_mode_active true switched_off in
  auto_always_autostart p st = true
  /\ startControlSelect st = ICE_IGNITION_OFF
  /\ startControlSelect
       (determine_state rover_platform (env_at 200 1200 true 0) p st)
     = ICE_IGNITION_START_RUN.
Proof.
  cbv zeta.
  assert (H : auto_always_autostart (default_params 8 (-1) 0 0)
                (set_auto_mode_active true switched_off) = true)
    by (vm_compute; reflexivity).
  split; [exact H |]. split; [vm_compute; reflexivity |].
  exact (proj1 (intent_resolution rover_platform (env_at 200 1200 true 0)
                  _ _) H).
Defined.

Lemma set_ice_transmission_state_auto e p g v st :
  auto_mode_active (fst (set_ice_transmission_state e p g v st))
  = auto_mode_active st.
Proof.
  pose proof (set_ice_transmission_state_core e p g v st) as H.
  unfold engine_core in H. congruence.
Qed.

Lemma engine_control_auto pf e p sc cs hd gs fm st :
  auto_mode_active (fst (engine_control pf e p sc cs hd gs fm st))
  = auto_mode_active st.
Proof.
  unfold engine_control; cbv zeta.
  repeat (break_if || break_match); simpl;
    rewrite ?set_ice_transmission_state_auto; reflexivity.
Qed.

Lemma core_auto_mode_active a b :
  engine_core a = engine_core b -> auto_mode_active a = auto_mode_active b.
Proof. unfold engine_core; congruence. Qed.

Lemma update_intent_from_channel pf e p st c :
  enable p <> 0 ->
  auto_always_autostart p st = false ->
  rc_start_chan (tick_env e st) = Some c ->
  startControlSelect (update pf e p st)
  = convertPwmToIgnitionState (radio_in c).
Proof.
  intros Hen Hauto Hc. rewrite (update_startControlSelect pf e p st Hen).
  unfold resolve_startControlSelect.
  rewrite (core_auto_mode_active _ _ (tick_sensed_core pf e p st)).
  unfold auto_always_autostart in Hauto. simpl. rewrite Hauto, Hc.
  reflexivity.
Qed.

(** X2: an enabled tick with a start channel, auto mode not overriding
    it, ends with the intent of the band the channel reads; but the first
    enabled tick, which runs [init], ends with the band of the channel's
    trim, whatever the channel reads. *)
Theorem update_intent_first_tick_reads_trim pf e p st c :
  enable p <> 0 ->
  auto_always_autostart p st = false ->
  rc_start_chan e = Some c ->
  startControlSelect (update pf e p st)
  = convertPwmToIgnitionState (if run_once st then radio_in c else radio_trim c).
Proof.
  intros Hen Hauto Hc.
  destruct (run_once st) eqn:Hr.
  - apply update_intent_from_channel; try assumption.
    unfold tick_env. rewrite Hr. exact Hc.
  - apply (update_intent_from_channel pf e p st
             {| radio_in := radio_trim c; radio_trim := radio_trim c |});
      try assumption.
    unfold tick_env. rewrite Hr. simpl. rewrite Hc. reflexivity.
Qed.

(** At boot the switch reads 1800 (START_RUN) with trim 1500: the first
    tick ends with the intent ACCESSORY. *)
Lemma update_intent_first_tick_reads_trim_witness :
  let p := default_params 0 (-1) 0 0 in
  let e := env_at 100 1800 true 0 in
  enable p <> 0
  /\ auto_always_autostart p boot_default = false
  /\ rc_start_chan e = Some {| radio_in := 1800; radio_trim := 1500 |}
  /\ startControlSelect (update rover_platform e p boot_default)
     = ICE_IGNITION_ACCESSORY.
Proof.
  cbv zeta.
  assert (H1 : enable (default_params 0 (-1) 0 0) <> 0) by discriminate.
  assert (H2 : auto_always_autostart (default_params 0 (-1) 0 0) boot_default
               = false) by reflexivity.
  assert (H3 : rc_start_chan (env_at 100 1800 true 0)
               = Some {| radio_in := 1800; radio_trim := 1500 |})
    by reflexivity.
  repeat (split; [assumption |]).
  exact (update_intent_first_tick_reads_trim rover_platform _ _ _ _ H1 H2 H3).
Defined.

Lemma engine_control_run_once pf e p sc cs hd gs fm st :
  run_once (fst (engine_control pf e p sc cs hd gs fm st)) = run_once st.
Proof.
  assert (H : forall e p g v s,
             run_once (fst (set_ice_transmission_state e p g v s)) = run_once s)
    by (intros; apply core_run_once, set_ice_transmission_state_core).
  unfold engine_control; cbv zeta.
  repeat (break_if || break_match); simpl; rewrite ?H; reflexivity.
Qed.

(** X3: what the tick after a DO_ENGINE_CONTROL command makes of the
    intent the command set, with a start channel configured and auto mode
    not overriding it. A tick of the enabled controller replaces it by the
    intent of the band the channel reads, or of the band of the channel's
    trim when it is the first enabled tick (which runs [init]). A tick of
    the disabled controller replaces it by the band of the trim when the
    controller was initialised (the tick runs [init]) and keeps the
    commanded intent only when the controller was not. *)
Theorem command_intent_overridden_by_switch pf e1 e2 p start_control
  cold_start height_delay gear_state_f from_mission st c :
  auto_always_autostart p st = false ->
  rc_start_chan e2 = Some c ->
  let st1 := fst (engine_control pf e1 p start_control cold_start height_delay
                    gear_state_f from_mission st) in
  (enable p <> 0 ->
   startControlSelect (update pf e2 p st1)
   = convertPwmToIgnitionState
       (if run_once st then radio_in c else radio_trim c))
  /\ (enable p = 0 ->
      startControlSelect (update pf e2 p st1)
      = if run_once st then convertPwmToIgnitionState (radio_trim c)
        else startControlSelect st1).
Proof.
  intros Hauto Hc. cbv zeta. split.
  - intros Hen.
    assert (Hauto1 : auto_always_autostart p
                       (fst (engine_control pf e1 p start_control cold_start
                               height_delay gear_state_f from_mission st))
                     = false)
      by (unfold auto_always_autostart in *; rewrite engine_control_auto;
          exact Hauto).
    destruct (run_once st) eqn:Hr.
    + apply update_intent_from_channel; try assumption.
      unfold tick_env. rewrite engine_control_run_once, Hr. exact Hc.
    + apply (update_intent_from_channel pf e2 p _
               {| radio_in := radio_trim c; radio_trim := radio_trim c |});
        try assumption.
      unfold tick_env. rewrite engine_control_run_once, Hr. simpl.
      rewrite Hc. reflexivity.
  - intros Hen. unfold update. rewrite Hen. cbn [Z.eqb]. cbv zeta.
    replace (run_once (set_state ICE_OFF
                         (fst (engine_control pf e1 p start_control cold_start
                                 height_delay gear_state_f from_mission st))))
      with (run_once st)
      by (symmetry; apply engine_control_run_once).
    destruct (run_once st).
    + unfold init; cbv zeta. rewrite Hc. reflexivity.
    + reflexivity.
Qed.

(** A command to start, accepted while the engine runs with the switch at
    ACCESSORY: the next tick reads the switch and the intent is ACCESSORY
    again. *)
Lemma command_intent_overridden_by_switch_witness :
  let p := default_params 0 (-1) 0 0 in
  let st := run rover_platform p start_up boot_default in
  let r := engine_control rover_platform (env_at 3300 1500 true 0) p
             (F32.of_Z 2) (F32.of_Z 0) (F32.of_Z 0) (F32.of_Z 0) false st in
  auto_always_autostart p st = false
  /\ startControlSelect (fst r) = ICE_IGNITION_START_RUN
  /\ startControlSelect
       (update rover_platform (env_at 3320 1500 true 0) p (fst r))
     = ICE_IGNITION_ACCESSORY.
Proof.
  cbv zeta.
  assert (Hauto : auto_always_autostart (default_params 0 (-1) 0 0)
                    (run rover_platform (default_params 0 (-1) 0 0) start_up
                       boot_default) = false)
    by (vm_compute; reflexivity).
  assert (Hen : enable (default_params 0 (-1) 0 0) <> 0) by discriminate.
  split; [exact Hauto |]. split; [vm_compute; reflexivity |].
  pose proof (proj1 (command_intent_overridden_by_switch rover_platform
                       (env_at 3300 1500 true 0) (env_at 3320 1500 true 0)
                       (default_params 0 (-1) 0 0) (F32.of_Z 2) (F32.of_Z 0)
                       (F32.of_Z 0) (F32.of_Z 0) false
                       (run rover_platform (default_params 0 (-1) 0 0)
                          start_up boot_default)
                       {| radio_in := 1500; radio_trim := 1500 |}
                       Hauto eq_refl) Hen) as H.
  rewrite H. vm_compute. reflexivity.
Defined.

(** ** The book-keeping of [determine_state] *)

Lemma switch_state_bookkeeping pf e p now_ms rpm off st :
  state_prev (switch_state pf e p now_ms rpm off st) = state_prev st
  /\ state_change_timestamp_ms (switch_state pf e p now_ms rpm off st)
     = state_change_timestamp_ms st.
Proof.
  unfold switch_state. destruct (state st).
  - unfold case_ICE_OFF; frame; split; reflexivity.
  - unfold case_ICE_START_HEIGHT_DELAY; frame; split; reflexivity.
  - unfold case_ICE_START_DELAY_NO_IGNITION; frame; split; reflexivity.
  - unfold case_ICE_START_DELAY; frame; split; reflexivity.
  - unfold case_ICE_STARTING; frame; split; reflexivity.
  - unfold case_ICE_RUNNING; frame; split; reflexivity.
Qed.

Lemma gate_off_bookkeeping e p st :
  state_prev (gate_off e p st) = state_prev st
  /\ state_change_timestamp_ms (gate_off e p st) = state_change_timestamp_ms st.
Proof.
  unfold gate_off, resolve_startControlSelect; cbv zeta.
  repeat (break_if || break_match); split; reflexivity.
Qed.

Lemma settle_bookkeeping now_ms s :
  state_prev (settle now_ms s) = state s
  /\ state_change_timestamp_ms (settle now_ms s)
     = (if ICE_State_eqb (state_prev s) (state s)
        then state_change_timestamp_ms s else now_ms).
Proof.
  unfold settle; cbv zeta.
  destruct (ICE_State_eqb (state s) ICE_STARTING); simpl;
    destruct (ICE_State_eqb (state_prev s) (state s)); simpl;
    split; reflexivity.
Qed.

(** X4: after [determine_state] the previous state is the state;
    [state_change_timestamp_ms] is the time of the call if the state
    differs from the previous state the call found, and is untouched
    otherwise; and [starter_start_time_ms] is zero unless the state is
    STARTING. *)
Theorem determine_state_bookkeeping pf e p st :
  let st' := determine_state pf e p st in
  state_prev st' = state st'
  /\ state_change_timestamp_ms st'
     = (if ICE_State_eqb (state_prev st) (state st')
        then state_change_timestamp_ms st
        else now e At_determine_state)
  /\ (state st' <> ICE_STARTING -> starter_start_time_ms st' = 0).
Proof.
  cbv zeta. rewrite determine_state_steps.
  set (s := switch_state pf e p (now e At_determine_state)
              (read_current_rpm e p)
              (system_should_be_off e p (resolve_startControlSelect e p st))
              (gate_off e p st)).
  assert (Hp : state_prev s = state_prev st /\
               state_change_timestamp_ms s = state_change_timestamp_ms st).
  { unfold s.
    destruct (switch_state_bookkeeping pf e p (now e At_determine_state)
                (read_current_rpm e p)
                (system_should_be_off e p (resolve_startControlSelect e p st))
                (gate_off e p st)) as [-> ->].
    apply gate_off_bookkeeping. }
  destruct Hp as [Hp Ht].
  rewrite settle_state, settle_starter_start_time_ms.
  destruct (settle_bookkeeping (now e At_determine_state) s) as [-> ->].
  rewrite Hp, Ht.
  split; [reflexivity | split; [reflexivity |]].
  intros Hs. apply ICE_State_eqb_neq in Hs. rewrite Hs. reflexivity.
Qed.

Lemma determine_state_bookkeeping_witness :
  let p := default_params 0 (-1) 0 0 in
  let st := run rover_platform p start_up boot_default in
  let st' := determine_state rover_platform (env_at 3300 1200 true 0) p st in
  state st' <> ICE_STARTING
  /\ starter_start_time_ms st' = 0.
Proof.
  cbv zeta.
  assert (H : state (determine_state rover_platform (env_at 3300 1200 true 0)
                       (default_params 0 (-1) 0 0)
                       (run rover_platform (default_params 0 (-1) 0 0)
                          start_up boot_default)) <> ICE_STARTING)
    by (vm_compute; discriminate).
  split; [exact H |].
  exact (proj2 (proj2 (determine_state_bookkeeping rover_platform _ _ _)) H).
Defined.

(** ** The edges of the state machine *)

Lemma switch_state_may_step pf e p now_ms rpm off st :
  may_step (build_is_rover pf) (state st)
    (state (switch_state pf e p now_ms rpm off st)) = true.
Proof.
  unfold switch_state. destruct (state st) eqn:Hs.
  - unfold case_ICE_OFF.
    repeat break_if; simpl; rewrite ?Hs; reflexivity.
  - destruct (build_is_rover pf); [reflexivity |].
    unfold case_ICE_START_HEIGHT_DELAY.
    repeat (break_if || break_match); simpl; rewrite ?Hs; reflexivity.
  - unfold case_ICE_START_DELAY_NO_IGNITION.
    repeat break_if; simpl; rewrite ?Hs; reflexivity.
  - unfold case_ICE_START_DELAY.
    repeat break_if; simpl; rewrite ?Hs; reflexivity.
  - unfold case_ICE_STARTING; cbv zeta.
    repeat break_if; simpl; rewrite ?Hs; reflexivity.
  - unfold case_ICE_RUNNING; cbv zeta.
    repeat break_if; simpl; rewrite ?Hs; reflexivity.
Qed.

Lemma determine_state_may_step pf e p st :
  may_step (build_is_rover pf) (state st)
    (state (determine_state pf e p st)) = true.
Proof.
  destruct (system_should_be_off e p (resolve_startControlSelect e p st))
    eqn:Hoff.
  - rewrite (determine_state_off pf e p st Hoff).
    destruct (state st); reflexivity.
  - rewrite determine_state_steps, settle_state.
    pose proof (switch_state_may_step pf e p (now e At_determine_state)
                  (read_current_rpm e p)
                  (system_should_be_off e p (resolve_startControlSelect e p st))
                  (gate_off e p st)) as H.
    rewrite gate_off_state, Hoff in H. rewrite Hoff. exact H.
Qed.

(** X5: every tick follows an edge of the state machine. In particular
    STARTING is entered only from START_DELAY (or from START_HEIGHT_DELAY,
    outside APMrover2), RUNNING only from STARTING, and from OFF the
    engine goes no further than START_DELAY in one tick. *)
Theorem tick_follows_edges pf e p st :
  may_step (build_is_rover pf) (state st) (state (update pf e p st)) = true.
Proof.
  destruct (Z.eq_dec (enable p) 0) as [Hen | Hen].
  - rewrite (core_state _ _ (update_disabled_core pf e p st Hen)). simpl.
    destruct (state st); reflexivity.
  - rewrite (update_state pf e p st Hen).
    pose proof (determine_state_may_step pf (tick_env e st) p
                  (tick_sensed pf e p st)) as H.
    rewrite (core_state _ _ (tick_sensed_core pf e p st)) in H. exact H.
Qed.

(** ** Leaving START_DELAY *)

Lemma gate_off_timers e p st :
  engine_power_up_wait_ms (gate_off e p st) = engine_power_up_wait_ms st
  /\ starter_last_run_ms (gate_off e p st) = starter_last_run_ms st
  /\ running_rpm_fail_timer_ms (gate_off e p st) = running_rpm_fail_timer_ms st
  /\ height_pending (gate_off e p st) = height_pending st
  /\ initial_height (gate_off e p st) = initial_height st
  /\ height_required (gate_off e p st) = height_required st.
Proof.
  unfold gate_off, resolve_startControlSelect; cbv zeta.
  repeat (break_if || break_match); repeat split.
Qed.

Lemma case_ICE_START_DELAY_starting p now_ms ok st :
  state st = ICE_START_DELAY ->
  state (case_ICE_START_DELAY p now_ms ok st) = ICE_STARTING ->
  startControlSelect st = ICE_IGNITION_START_RUN
  /\ ok = true
  /\ (0 <= resarts_allowed p -> starting_attempts st <= resarts_allowed p)
  /\ (0 < power_up_time p ->
      engine_power_up_wait_ms st <> 0
      /\ U32.mul (U32.wrap (power_up_time p)) 1000
         <= U32.sub now_ms (engine_power_up_wait_ms st))
  /\ (F32.leb (starter_delay p) (F32.of_Z 0) = false ->
      starter_last_run_ms st = 0
      \/ F32.geb (F32.of_Z (U32.sub now_ms (starter_last_run_ms st)))
           (F32.mul (starter_delay p) (F32.of_Z 1000)) = true).
Proof.
  intros Hs. unfold case_ICE_START_DELAY.
  destruct (ICE_Ignition_State_eqb (startControlSelect st)
              ICE_IGNITION_START_RUN) eqn:Hsel;
    [| simpl; rewrite Hs; discriminate].
  destruct ok; [| simpl; rewrite Hs; discriminate]. simpl.
  destruct ((0 <=? resarts_allowed p)
            && (resarts_allowed p <? starting_attempts st)) eqn:Hbudget;
    [rewrite Hs; discriminate |].
  assert (Hb : 0 <= resarts_allowed p ->
               starting_attempts st <= resarts_allowed p).
  { intros Hrc. apply andb_false_iff in Hbudget.
    destruct Hbudget as [H | H];
      [apply Z.leb_gt in H; lia | apply Z.ltb_ge in H; exact H]. }
  assert (Hgo : forall s,
    state s = ICE_START_DELAY ->
    starter_last_run_ms s = starter_last_run_ms st ->
    state ((fun st0 : AP_ICEngine =>
      if F32.leb (starter_delay p) (F32.of_Z 0) then set_state ICE_STARTING st0
      else if (starter_last_run_ms st0 =? 0)
              || F32.geb (F32.of_Z (U32.sub now_ms (starter_last_run_ms st0)))
                   (F32.mul (starter_delay p) (F32.of_Z 1000))
      then set_state ICE_STARTING (log (Txt_engine_starting (starter_delay p)) st0)
      else st0) s) = ICE_STARTING ->
    F32.leb (starter_delay p) (F32.of_Z 0) = false ->
    starter_last_run_ms st = 0
    \/ F32.geb (F32.of_Z (U32.sub now_ms (starter_last_run_ms st)))
         (F32.mul (starter_delay p) (F32.of_Z 1000)) = true).
  { intros s Hss Hl. cbv beta. intros H Hd. rewrite Hd, Hl in H.
    destruct (starter_last_run_ms st =? 0) eqn:Hz;
      [left; apply Z.eqb_eq, Hz |].
    simpl in H.
    destruct (F32.geb (F32.of_Z (U32.sub now_ms (starter_last_run_ms st)))
                (F32.mul (starter_delay p) (F32.of_Z 1000)));
      [right; reflexivity | rewrite Hss in H; discriminate]. }
  apply ICE_Ignition_State_eqb_eq in Hsel.
  destruct (0 <? power_up_time p) eqn:Hpu.
  - destruct (engine_power_up_wait_ms st =? 0) eqn:Hw;
      [simpl; rewrite Hs; discriminate |].
    destruct (U32.sub now_ms (engine_power_up_wait_ms st)
              <? U32.mul (U32.wrap (power_up_time p)) 1000) eqn:Hel;
      [rewrite Hs; discriminate |].
    intros H. repeat split; try assumption.
    + apply Z.eqb_neq, Hw.
    + apply Z.ltb_ge, Hel.
    + intros Hd. exact (Hgo st Hs eq_refl H Hd).
  - intros H. repeat split; try assumption.
    + apply Z.ltb_ge in Hpu. lia.
    + apply Z.ltb_ge in Hpu. lia.
    + intros Hd. exact (Hgo st Hs eq_refl H Hd).
Qed.

(** X6: the engine leaves START_DELAY for STARTING only with the intent
    at START_RUN, run permission granted, the restart budget not
    exhausted, the power-up wait (if any) stamped and elapsed, and the
    delay since the starter last ran (if any) elapsed. *)
Theorem starting_entered_only_when_permitted pf e p st :
  state (gate_off e p st) = ICE_START_DELAY ->
  state (determine_state pf e p st) = ICE_STARTING ->
  startControlSelect (determine_state pf e p st) = ICE_IGNITION_START_RUN
  /\ arming_OK_to_start_or_run e p = true
  /\ (0 <= resarts_allowed p -> starting_attempts st <= resarts_allowed p)
  /\ (0 < power_up_time p ->
      engine_power_up_wait_ms st <> 0
      /\ U32.mul (U32.wrap (power_up_time p)) 1000
         <= U32.sub (now e At_determine_state) (engine_power_up_wait_ms st))
  /\ (F32.leb (starter_delay p) (F32.of_Z 0) = false ->
      starter_last_run_ms st = 0
      \/ F32.geb (F32.of_Z (U32.sub (now e At_determine_state)
                             (starter_last_run_ms st)))
           (F32.mul (starter_delay p) (F32.of_Z 1000)) = true).
Proof.
  intros Hg H.
  rewrite determine_state_steps, settle_state in H.
  unfold switch_state in H. rewrite Hg in H.
  rewrite (io_startControlSelect _ _ (determine_state_io pf e p st)).
  destruct (gate_off_members e p st) as (Ha & _ & _ & _ & _ & _ & Hsel).
  destruct (gate_off_timers e p st) as (Hw & Hl & _).
  rewrite <- Hsel, <- Ha, <- Hw, <- Hl.
  exact (case_ICE_START_DELAY_starting p _ _ _ Hg H).
Qed.

(** The second tick of the start-up: from START_DELAY to STARTING. *)
Lemma starting_entered_only_when_permitted_witness :
  let p := default_params 0 (-1) 0 0 in
  let e := env_at 120 1800 true 0 in
  let st := update rover_platform (env_at 100 1800 true 0) p boot_default in
  state (determine_state rover_platform e p st) = ICE_STARTING
  /\ startControlSelect (determine_state rover_platform e p st)
     = ICE_IGNITION_START_RUN
  /\ arming_OK_to_start_or_run e p = true.
Proof.
  cbv zeta.
  assert (H : state (determine_state rover_platform (env_at 120 1800 true 0)
                       (default_params 0 (-1) 0 0)
                       (update rover_platform (env_at 100 1800 true 0)
                          (default_params 0 (-1) 0 0) boot_default))
              = ICE_STARTING) by (vm_compute; reflexivity).
  split; [exact H |].
  destruct (starting_entered_only_when_permitted rover_platform
              (env_at 120 1800 true 0) (default_params 0 (-1) 0 0)
              (update rover_platform (env_at 100 1800 true 0)
                 (default_params 0 (-1) 0 0) boot_default))
    as (H1 & H2 & _); [vm_compute; reflexivity | exact H |].
  split; assumption.
Defined.

(** ** Switching off *)

Lemma determine_state_off_clears pf e p st :
  system_should_be_off e p (resolve_startControlSelect e p st) = true ->
  starting_attempts (determine_state pf e p st) = 0
  /\ starter_start_time_ms (determine_state pf e p st) = 0.
Proof.
  intros Hoff.
  rewrite determine_state_steps, settle_starting_attempts,
    settle_starter_start_time_ms.
  pose proof (gate_off_state e p st) as Hg. rewrite Hoff in Hg.
  unfold switch_state. rewrite Hoff, Hg. unfold case_ICE_OFF. simpl.
  rewrite Hg. split; reflexivity.
Qed.

(** X7: an enabled tick that gates the engine off (the intent it
    resolves is OFF, or arming is required for ignition and the vehicle
    is disarmed) clears the restart counter and the start time stamp; a
    tick with the controller disabled leaves the counter as it is. *)
Theorem gated_tick_clears_restart_counter pf e p st :
  (enable p <> 0 ->
   startControlSelect (update pf e p st) = ICE_IGNITION_OFF
   \/ (option_set p AP_ICENGINE_OPTIONS_MASK_ARMING_REQUIRED_IGNITION = true
       /\ soft_armed e = false) ->
   starting_attempts (update pf e p st) = 0
   /\ starter_start_time_ms (update pf e p st) = 0)
  /\ (enable p = 0 ->
      starting_attempts (update pf e p st) = starting_attempts st).
Proof.
  split.
  - intros Hen H.
    rewrite (core_starting_attempts _ _ (update_core pf e p st Hen)).
    rewrite (core_starter_start_time_ms _ _ (update_core pf e p st Hen)).
    apply determine_state_off_clears, system_should_be_off_intro.
    destruct H as [H | [Ho Ha]].
    + left. rewrite <- H. symmetry.
      apply update_startControlSelect; assumption.
    + right. rewrite soft_armed_tick_env. split; assumption.
  - intros Hen.
    rewrite (core_starting_attempts _ _ (update_disabled_core pf e p st Hen)).
    reflexivity.
Qed.

(** After two failed attempts the tick that reads the switch at OFF
    clears the counter. *)
Lemma gated_tick_clears_restart_counter_witness :
  let p := default_params 0 1 1 300 in
  let e := env_at 10500 1200 true 0 in
  let st := run rover_platform p two_failed_starts boot_default in
  starting_attempts st = 2
  /\ enable p <> 0
  /\ startControlSelect (update rover_platform e p st) = ICE_IGNITION_OFF
  /\ starting_attempts (update rover_platform e p st) = 0.
Proof.
  cbv zeta.
  assert (H1 : enable (default_params 0 1 1 300) <> 0) by discriminate.
  assert (H2 : startControlSelect
                 (update rover_platform (env_at 10500 1200 true 0)
                    (default_params 0 1 1 300)
                    (run rover_platform (default_params 0 1 1 300)
                       two_failed_starts boot_default)) = ICE_IGNITION_OFF)
    by (vm_compute; reflexivity).
  split; [vm_compute; reflexivity |].
  split; [exact H1 |]. split; [exact H2 |].
  exact (proj1 (proj1 (gated_tick_clears_restart_counter rover_platform _ _ _)
                  H1 (or_introl H2))).
Defined.

(** ** Leaving RUNNING *)

Lemma settle_timers now_ms s :
  running_rpm_fail_timer_ms (settle now_ms s) = running_rpm_fail_timer_ms s
  /\ force_staying_in_DELAY_NO_IGNITION_duration_ms (settle now_ms s)
     = force_staying_in_DELAY_NO_IGNITION_duration_ms s
  /\ height_pending (settle now_ms s) = height_pending s
  /\ initial_height (settle now_ms s) = initial_height s.
Proof. unfold settle; cbv zeta. repeat break_if; repeat split. Qed.

Lemma case_ICE_RUNNING_result p now_ms rpm armed st :
  state st = ICE_RUNNING ->
  let r := case_ICE_RUNNING p now_ms rpm armed st in
  let first_low := if running_rpm_fail_timer_ms st =? 0
                   then now_ms else running_rpm_fail_timer_ms st in
  (state r, running_rpm_fail_timer_ms r,
   force_staying_in_DELAY_NO_IGNITION_duration_ms r)
  = if negb armed && (idle_percent p <=? 0)
       && negb (option_set p AP_ICENGINE_OPTIONS_MASK_KEEP_RUNNING_WHEN_DISARMED)
    then (ICE_OFF, running_rpm_fail_timer_ms st,
          force_staying_in_DELAY_NO_IGNITION_duration_ms st)
    else if (0 <? rpm_threshold_running p) && (0 <=? rpm)
            && (rpm <? rpm_threshold_running p)
    then if option_set p AP_ICENGINE_OPTIONS_MASK_RPM_FAIL_HAS_TIMER
            && (U32.sub now_ms first_low <=? 500)
         then (ICE_RUNNING, first_low,
               force_staying_in_DELAY_NO_IGNITION_duration_ms st)
         else if option_set p
                   AP_ICENGINE_OPTIONS_MASK_RUNNING_FAIL_FORCE_STOP_MOTOR
         then (ICE_START_DELAY_NO_IGNITION, first_low, 3000)
         else (ICE_START_DELAY, first_low,
               force_staying_in_DELAY_NO_IGNITION_duration_ms st)
    else (ICE_RUNNING, 0, force_staying_in_DELAY_NO_IGNITION_duration_ms st).
Proof.
  intros Hs. unfold case_ICE_RUNNING; cbv zeta.
  destruct (negb armed && (idle_percent p <=? 0)
            && negb (option_set p
                       AP_ICENGINE_OPTIONS_MASK_KEEP_RUNNING_WHEN_DISARMED));
    [reflexivity |].
  destruct ((0 <? rpm_threshold_running p) && (0 <=? rpm)
            && (rpm <? rpm_threshold_running p));
    [| cbn; rewrite Hs; reflexivity].
  cbn [running_rpm_fail_timer_ms set_engine_power_up_wait_ms].
  destruct (running_rpm_fail_timer_ms st =? 0);
    cbn [running_rpm_fail_timer_ms set_running_rpm_fail_timer_ms
         set_engine_power_up_wait_ms];
    destruct (option_set p AP_ICENGINE_OPTIONS_MASK_RPM_FAIL_HAS_TIMER
              && (U32.sub now_ms _ <=? 500));
    try (cbn; rewrite Hs; reflexivity);
    destruct (option_set p
                AP_ICENGINE_OPTIONS_MASK_RUNNING_FAIL_FORCE_STOP_MOTOR);
    reflexivity.
Qed.

(** X8: when the state machine runs its RUNNING case: a disarmed vehicle
    with IDLE_PCT <= 0 and without the keep-running option stops the
    engine; otherwise an RPM reading that is not low (RPM_THRESH <= 0, or
    rpm < 0, or rpm >= RPM_THRESH) keeps it RUNNING and clears the fail
    timer; a low reading keeps it RUNNING only with the timer option and
    within 500 ms of the first low reading, and otherwise sends it to
    START_DELAY_NO_IGNITION with a 3000 ms dwell (force-stop option) or to
    START_DELAY. *)
Theorem running_exits pf e p st :
  state (gate_off e p st) = ICE_RUNNING ->
  let st' := determine_state pf e p st in
  let rpm := read_current_rpm e p in
  let now_ms := now e At_determine_state in
  let disarm_stop :=
    negb (soft_armed e) && (idle_percent p <=? 0)
    && negb (option_set p AP_ICENGINE_OPTIONS_MASK_KEEP_RUNNING_WHEN_DISARMED) in
  let rpm_low :=
    (0 <? rpm_threshold_running p) && (0 <=? rpm)
    && (rpm <? rpm_threshold_running p) in
  let first_low := if running_rpm_fail_timer_ms st =? 0
                   then now_ms else running_rpm_fail_timer_ms st in
  let in_grace :=
    option_set p AP_ICENGINE_OPTIONS_MASK_RPM_FAIL_HAS_TIMER
    && (U32.sub now_ms first_low <=? 500) in
  (disarm_stop = true -> state st' = ICE_OFF)
  /\ (disarm_stop = false -> rpm_low = false ->
      state st' = ICE_RUNNING /\ running_rpm_fail_timer_ms st' = 0)
  /\ (disarm_stop = false -> rpm_low = true -> in_grace = true ->
      state st' = ICE_RUNNING /\ running_rpm_fail_timer_ms st' = first_low)
  /\ (disarm_stop = false -> rpm_low = true -> in_grace = false ->
      if option_set p AP_ICENGINE_OPTIONS_MASK_RUNNING_FAIL_FORCE_STOP_MOTOR
      then state st' = ICE_START_DELAY_NO_IGNITION
           /\ force_staying_in_DELAY_NO_IGNITION_duration_ms st' = 3000
      else state st' = ICE_START_DELAY).
Proof.
  intros Hg st' rpm now_ms disarm_stop rpm_low first_low in_grace.
  subst st'. rewrite determine_state_steps, settle_state.
  destruct (settle_timers now_ms
              (switch_state pf e p now_ms rpm
                 (system_should_be_off e p (resolve_startControlSelect e p st))
                 (gate_off e p st))) as (Ht & Hd & _).
  fold now_ms. fold rpm. rewrite Ht, Hd. clear Ht Hd.
  destruct (gate_off_timers e p st) as (_ & _ & Htm & _).
  unfold switch_state. rewrite Hg.
  pose proof (case_ICE_RUNNING_result p now_ms rpm (soft_armed e)
                (gate_off e p st) Hg) as H.
  cbv zeta in H. rewrite Htm in H.
  fold disarm_stop rpm_low first_low in H. fold in_grace in H.
  split; [| split; [| split]].
  - intros Hd. rewrite Hd in H. congruence.
  - intros Hd Hl. rewrite Hd, Hl in H. split; congruence.
  - intros Hd Hl Hgr. rewrite Hd, Hl, Hgr in H. split; congruence.
  - intros Hd Hl Hgr. rewrite Hd, Hl, Hgr in H.
    destruct (option_set p
                AP_ICENGINE_OPTIONS_MASK_RUNNING_FAIL_FORCE_STOP_MOTOR);
      [split |]; congruence.
Qed.

(** The engine running with RPM feedback on instance 1, OPTIONS bit 5
    set, and the sensor reading 0 at 4000 ms. *)
Lemma running_exits_witness :
  let p := default_params 32 (-1) 1 0 in
  let e := env_at 4000 1800 true 0 in
  let st := run rover_platform p start_up boot_default in
  state (gate_off e p st) = ICE_RUNNING
  /\ state (determine_state rover_platform e p st)
     = ICE_START_DELAY_NO_IGNITION
  /\ force_staying_in_DELAY_NO_IGNITION_duration_ms
       (determine_state rover_platform e p st) = 3000.
Proof.
  cbv zeta.
  assert (Hg : state (gate_off (env_at 4000 1800 true 0)
                        (default_params 32 (-1) 1 0)
                        (run rover_platform (default_params 32 (-1) 1 0)
                           start_up boot_default)) = ICE_RUNNING)
    by (vm_compute; reflexivity).
  split; [exact Hg |].
  exact (proj2 (proj2 (proj2 (running_exits rover_platform _ _ _ Hg)))
           eq_refl eq_refl eq_refl).
Defined.

(** ** The height delay *)

(** X9: when the state machine finds the engine in START_HEIGHT_DELAY,
    the APMrover2 build, which has no case for it, switches the engine
    OFF. The other builds wait: without a position the state is kept;
    while the height is pending or the vehicle is disarmed the initial
    height is reset to the current one; and the engine goes to STARTING
    exactly when, armed and with the height not pending, the current
    height reaches the initial height plus the required one. *)
Theorem height_delay_exits pf e p st :
  state (gate_off e p st) = ICE_START_HEIGHT_DELAY ->
  let st' := determine_state pf e p st in
  (build_is_rover pf = true -> state st' = ICE_OFF)
  /\ (build_is_rover pf = false ->
      (ahrs_position_z e = None -> state st' = ICE_START_HEIGHT_DELAY)
      /\ (forall z, ahrs_position_z e = Some z ->
          (height_pending st || negb (soft_armed e) = true ->
           state st' = ICE_START_HEIGHT_DELAY
           /\ height_pending st' = false
           /\ initial_height st' = F32.neg z)
          /\ (height_pending st || negb (soft_armed e) = false ->
              state st'
              = if F32.geb (F32.neg z)
                     (F32.add (initial_height st) (height_required st))
                then ICE_STARTING else ICE_START_HEIGHT_DELAY))).
Proof.
  intros Hg st'. subst st'.
  rewrite determine_state_steps, settle_state.
  destruct (settle_timers (now e At_determine_state)
              (switch_state pf e p (now e At_determine_state)
                 (read_current_rpm e p)
                 (system_should_be_off e p (resolve_startControlSelect e p st))
                 (gate_off e p st))) as (_ & _ & -> & ->).
  destruct (gate_off_timers e p st) as (_ & _ & _ & Hp & Hi & Hr).
  unfold switch_state. rewrite Hg.
  split.
  - intros ->. reflexivity.
  - intros ->. unfold case_ICE_START_HEIGHT_DELAY. rewrite Hp, Hi, Hr.
    split.
    + intros ->. exact Hg.
    + intros z ->. split.
      * intros ->. simpl. rewrite Hg. repeat split.
      * intros ->.
        destruct (F32.geb (F32.neg z)
                    (F32.add (initial_height st) (height_required st)));
          simpl; [reflexivity | exact Hg].
Qed.

(** A controller left in START_HEIGHT_DELAY on an APMrover2 build is
    switched OFF by the tick. *)
Lemma height_delay_exits_witness :
  let p := default_params 0 (-1) 0 0 in
  let e := env_at 3300 1800 true 0 in
  let st := set_state ICE_START_HEIGHT_DELAY
              (run rover_platform p start_up boot_default) in
  state (gate_off e p st) = ICE_START_HEIGHT_DELAY
  /\ state (determine_state rover_platform e p st) = ICE_OFF.
Proof.
  cbv zeta.
  assert (Hg : state (gate_off (env_at 3300 1800 true 0)
                        (default_params 0 (-1) 0 0)
                        (set_state ICE_START_HEIGHT_DELAY
                           (run rover_platform (default_params 0 (-1) 0 0)
                              start_up boot_default)))
               = ICE_START_HEIGHT_DELAY) by (vm_compute; reflexivity).
  split; [exact Hg |].
  exact (proj1 (height_delay_exits rover_platform _ _ _ Hg) eq_refl).
Defined.

(** ** The ignition and gear outputs *)

Lemma set_output_channels_ignition e p st trim :
  srv_ignition_channel e = Some trim ->
  (is_active (pending (gear st)) && negb (ICE_State_eqb (state st) ICE_OFF)
   = false ->
   srv_ignition (set_output_channels e p st)
   = match state st with
     | ICE_OFF | ICE_START_DELAY_NO_IGNITION => SrvPwm trim
     | _ => SrvScaled 100
     end)
  /\ (is_active (pending (gear st)) && negb (ICE_State_eqb (state st) ICE_OFF)
      = true ->
      srv_ignition (set_output_channels e p st) = srv_ignition st).
Proof.
  intros Hch. unfold set_output_channels; cbv zeta. rewrite Hch.
  destruct (srv_gear_function e) as [t|];
    [destruct (gear_eqb (gear_state (gear st))
                 MAV_ICE_TRANSMISSION_GEAR_STATE_UNKNOWN) |]; simpl;
    (split; intros Hg; rewrite Hg;
     [ destruct (state st); simpl; repeat break_match; reflexivity
     | reflexivity ]).
Qed.

(** X10: on every tick with the controller enabled and an ignition
    channel assigned, if the tick ends with no gear change in flight or
    with the engine OFF, the ignition output is at trim in OFF and
    START_DELAY_NO_IGNITION and full on in every other state. *)
Theorem ignition_output_per_tick pf e p st trim :
  enable p <> 0 ->
  srv_ignition_channel e = Some trim ->
  let st' := update pf e p st in
  is_active (pending (gear st')) = false \/ state st' = ICE_OFF ->
  srv_ignition st'
  = match state st' with
    | ICE_OFF | ICE_START_DELAY_NO_IGNITION => SrvPwm trim
    | _ => SrvScaled 100
    end.
Proof.
  intros Hen Hch st'. subst st'.
  rewrite (update_enabled pf e p st Hen).
  set (e' := tick_env e st).
  set (x := update_gear pf e' p (determine_state pf e' p (tick_sensed pf e p st))).
  rewrite send_status_pending, set_output_channels_pending.
  rewrite (core_state _ _ (send_status_core _ _)).
  rewrite (core_state _ _ (set_output_channels_core _ _ _)).
  rewrite (io_srv_ignition _ _ (send_status_io _ _)).
  assert (Hch' : srv_ignition_channel e' = Some trim)
    by (unfold e', tick_env; destruct (negb (run_once st)); exact Hch).
  destruct (set_output_channels_ignition e' p x trim Hch') as [Hdrive _].
  intros Hidle. apply Hdrive.
  destruct Hidle as [-> | ->]; [reflexivity | apply andb_false_r].
Qed.

Lemma ignition_output_per_tick_witness :
  let p := default_params 32 (-1) 1 0 in
  let e := env_at 4000 1800 true 0 in
  let st := run rover_platform p start_up boot_default in
  state (update rover_platform e p st) = ICE_START_DELAY_NO_IGNITION
  /\ srv_ignition st = SrvScaled 100
  /\ srv_ignition (update rover_platform e p st) = SrvPwm 1100.
Proof.
  cbv zeta. split; [vm_compute; reflexivity |].
  split; [vm_compute; reflexivity |].
  rewrite (ignition_output_per_tick rover_platform (env_at 4000 1800 true 0)
             (default_params 32 (-1) 1 0) _ 1100);
    [vm_compute; reflexivity | discriminate | reflexivity
    | left; vm_compute; reflexivity].
Defined.

Lemma convertPwmToGearState_known p pwm :
  convertPwmToGearState p pwm <> MAV_ICE_TRANSMISSION_GEAR_STATE_UNKNOWN.
Proof. unfold convertPwmToGearState; cbv zeta. repeat break_if; discriminate. Qed.

Lemma gear_eqb_eq a b : gear_eqb a b = true <-> a = b.
Proof.
  unfold gear_eqb. rewrite Z.eqb_eq. split; [| intros ->; reflexivity].
  destruct a, b; simpl; intros H; try reflexivity; discriminate.
Qed.

(** X11: [set_output_channels] settles what the gear is. Without a
    servo assigned to the gear function the gear is made UNKNOWN and the
    active PWM invalid (0), whatever they were; with one assigned the gear
    is never left UNKNOWN: an unknown gear is read back from the trim
    output, a known gear and its PWM are kept and written out. *)
Theorem gear_known_iff_servo_assigned e p st :
  let st' := set_output_channels e p st in
  (srv_gear_function e = None ->
   gear_state (gear st') = MAV_ICE_TRANSMISSION_GEAR_STATE_UNKNOWN
   /\ pwm_active (gear st') = ICE_GEAR_STATE_PWM_INVALID)
  /\ (forall t, srv_gear_function e = Some t ->
      gear_state (gear st') <> MAV_ICE_TRANSMISSION_GEAR_STATE_UNKNOWN
      /\ (gear_state (gear st) <> MAV_ICE_TRANSMISSION_GEAR_STATE_UNKNOWN ->
          gear_state (gear st') = gear_state (gear st)
          /\ pwm_active (gear st') = pwm_active (gear st)
          /\ srv_gear st' = SrvPwm (pwm_active (gear st)))
      /\ (gear_state (gear st) = MAV_ICE_TRANSMISSION_GEAR_STATE_UNKNOWN ->
          pwm_active (gear st') = to_uint16 t
          /\ gear_state (gear st') = convertPwmToGearState p (to_uint16 t)
          /\ srv_gear st' = SrvTrim)).
Proof.
  cbv zeta. unfold set_output_channels; cbv zeta. split.
  - intros ->. repeat (break_if || break_match); split; reflexivity.
  - intros t ->.
    destruct (gear_eqb (gear_state (gear st))
                MAV_ICE_TRANSMISSION_GEAR_STATE_UNKNOWN) eqn:Hu.
    + apply gear_eqb_eq in Hu.
      repeat (break_if || break_match); simpl;
        (split; [apply convertPwmToGearState_known |]);
        (split; [intros Hn; contradiction | intros _; repeat split]).
    + assert (Hn : gear_state (gear st)
                   <> MAV_ICE_TRANSMISSION_GEAR_STATE_UNKNOWN)
        by (intros Heq; apply gear_eqb_eq in Heq; congruence).
      repeat (break_if || break_match); simpl;
        (split; [exact Hn |]);
        (split; [intros _; repeat split | intros Heq; contradiction]).
Qed.

Lemma gear_known_iff_servo_assigned_witness :
  let p := default_params 0 (-1) 0 0 in
  let e := env_at 100 1800 true 0 in
  let st' := set_output_channels e p boot_default in
  srv_gear_function e = Some 1000
  /\ gear_state (gear boot_default) = MAV_ICE_TRANSMISSION_GEAR_STATE_UNKNOWN
  /\ pwm_active (gear st') = to_uint16 1000
  /\ gear_state (gear st') = convertPwmToGearState p (to_uint16 1000)
  /\ srv_gear st' = SrvTrim.
Proof.
  cbv zeta. split; [reflexivity |]. split; [reflexivity |].
  exact (proj2 (proj2 (proj2 (gear_known_iff_servo_assigned
                                (env_at 100 1800 true 0)
                                (default_params 0 (-1) 0 0) boot_default)
                         1000 eq_refl)) eq_refl).
Defined.

(** ** The gear change *)

Lemma set_ice_transmission_state_gear e p g v st :
  gear_state (gear (fst (set_ice_transmission_state e p g v st)))
  = gear_state (gear st)
  /\ pwm_active (gear (fst (set_ice_transmission_state e p g v st)))
     = pwm_active (gear st).
Proof.
  unfold set_ice_transmission_state.
  destruct (pending_pwm_for p (pwm_active (gear st)) g v) as [[g' pw]|];
    [| split; reflexivity].
  break_if; split; reflexivity.
Qed.

(** X12: the current gear and the active PWM are not touched by a gear
    command; a gear tick changes either of them only when it ends a
    running stop-wait, and then to the pending gear and PWM, clearing the
    stop-wait stamp and stamping the shift with the time of the tick. *)
Theorem active_gear_moves_only_at_stop_wait_end pf e p st :
  (forall g v,
      gear_state (gear (fst (set_ice_transmission_state e p g v st)))
      = gear_state (gear st)
      /\ pwm_active (gear (fst (set_ice_transmission_state e p g v st)))
         = pwm_active (gear st))
  /\ (gear_state (gear (update_gear pf e p st)) <> gear_state (gear st)
      \/ pwm_active (gear (update_gear pf e p st)) <> pwm_active (gear st) ->
      stop_wait_running (pending (gear st))
      /\ gear_state (gear (update_gear pf e p st))
         = pending_state (pending (gear st))
      /\ pwm_active (gear (update_gear pf e p st))
         = pending_pwm (pending (gear st))
      /\ stop_vehicle_start_ms (pending (gear (update_gear pf e p st))) = 0
      /\ change_physical_gear_start_ms (pending (gear (update_gear pf e p st)))
         = now e At_update_gear).
Proof.
  split; [intros g v; apply set_ice_transmission_state_gear |].
  unfold update_gear, stop_wait_running; cbv zeta.
  destruct (is_negative pf (stop_duration (pending (gear st))));
    destruct (is_negative pf (change_duration_per_posiiton _));
    cbn [pending gear set_gear_pending set_gear set_pending
         stop_vehicle_start_ms change_physical_gear_start_ms
         set_stop_duration set_change_duration_per_posiiton stop_duration
         pending_state pending_pwm gear_state pwm_active];
    (destruct (0 <? stop_vehicle_start_ms (pending (gear st))) eqn:Hstop;
     [ apply Z.ltb_lt in Hstop; break_if; cbn;
       [ intros _; repeat split; assumption
       | intros [H | H]; contradiction H; reflexivity ]
     | repeat break_if;
       try (cbn; intros [H | H]; contradiction H; reflexivity);
       intros [H | H]; contradiction H;
       match goal with
       | |- context [set_ice_transmission_state ?e ?p ?g ?v ?s] =>
           destruct (set_ice_transmission_state_gear e p g v s) as [H1 H2];
           rewrite ?H1, ?H2; reflexivity
       end ]).
Qed.

Lemma active_gear_moves_only_at_stop_wait_end_witness :
  let p := default_params 0 (-1) 0 0 in
  let e := env_at 5020 1200 true 0 in
  let st := fst (set_ice_transmission_state (env_at 5000 1200 true 0) p
                   MAV_ICE_TRANSMISSION_GEAR_STATE_FORWARD 0 parked) in
  gear_state (gear st) = MAV_ICE_TRANSMISSION_GEAR_STATE_PARK
  /\ gear_state (gear (update_gear rover_platform e p st))
     = MAV_ICE_TRANSMISSION_GEAR_STATE_FORWARD
  /\ stop_wait_running (pending (gear st))
  /\ pwm_active (gear (update_gear rover_platform e p st))
     = pending_pwm (pending (gear st))
  /\ change_physical_gear_start_ms
       (pending (gear (update_gear rover_platform e p st))) = 5020.
Proof.
  cbv zeta. split; [vm_compute; reflexivity |].
  split; [vm_compute; reflexivity |].
  destruct (proj2 (active_gear_moves_only_at_stop_wait_end rover_platform
                     (env_at 5020 1200 true 0) (default_params 0 (-1) 0 0)
                     (fst (set_ice_transmission_state (env_at 5000 1200 true 0)
                             (default_params 0 (-1) 0 0)
                             MAV_ICE_TRANSMISSION_GEAR_STATE_FORWARD 0 parked))))
    as (H1 & _ & H3 & _ & H5).
  - left. vm_compute. discriminate.
  - repeat split; assumption.
Defined.

Lemma pending_pwm_for_not_pwm_value p pwm g v g' pw :
  pending_pwm_for p pwm g v = Some (g', pw) ->
  g <> MAV_ICE_TRANSMISSION_GEAR_STATE_PWM_VALUE ->
  gear_eqb g' MAV_ICE_TRANSMISSION_GEAR_STATE_PWM_VALUE = false.
Proof.
  destruct g; simpl; intros H Hn; inversion H; subst; try reflexivity;
    contradiction Hn; reflexivity.
Qed.

Lemma gear_eqb_refl g : gear_eqb g g = true.
Proof. apply gear_eqb_eq. reflexivity. Qed.

(** X13: commanding the same gear again changes nothing. After a
    command for a gear other than PWM_VALUE, given when the clock does
    not read 0, a second command for that gear returns what the first
    returned and leaves the controller as the first left it. *)
Theorem set_transmission_state_again e1 e2 p g v1 v2 st :
  g <> MAV_ICE_TRANSMISSION_GEAR_STATE_PWM_VALUE ->
  0 < now e1 At_set_transmission ->
  let r := set_ice_transmission_state e1 p g v1 st in
  set_ice_transmission_state e2 p g v2 (fst r) = r.
Proof.
  intros Hg Hnow r. subst r.
  destruct (set_ice_transmission_state_gear e1 p g v1 st) as [Hgs Hpw].
  unfold set_ice_transmission_state at 1. rewrite Hpw.
  unfold set_ice_transmission_state in *.
  destruct (pending_pwm_for p (pwm_active (gear st)) g v1) as [[g1 pw1]|] eqn:H1.
  - assert (H2 : pending_pwm_for p (pwm_active (gear st)) g v2 = Some (g1, pw1)).
    { destruct g; simpl in *; try discriminate; try exact H1.
      contradiction Hg; reflexivity. }
    rewrite H2.
    rewrite (pending_pwm_for_not_pwm_value _ _ _ _ _ _ H1 Hg) in *.
    cbn [negb andb] in *.
    destruct (gear_eqb (gear_state (gear st)) g1
              || is_active (pending (gear st))
                 && gear_eqb (pending_state (pending (gear st))) g1) eqn:Hsame.
    + cbn [fst]. rewrite Hsame. reflexivity.
    + cbn [fst] in *. rewrite Hgs.
      replace (is_active _ && gear_eqb _ g1) with true.
      * rewrite orb_true_r. reflexivity.
      * symmetry. apply andb_true_iff. split.
        -- unfold is_active. cbn. apply orb_true_iff. left.
           apply Z.ltb_lt, Hnow.
        -- cbn. apply gear_eqb_refl.
  - assert (H2 : pending_pwm_for p (pwm_active (gear st)) g v2 = None).
    { destruct g; simpl in *; try discriminate; reflexivity. }
    rewrite H2. reflexivity.
Qed.

Lemma set_transmission_state_again_witness :
  let p := default_params 0 (-1) 0 0 in
  let r := set_ice_transmission_state (env_at 5000 1200 true 0) p
             MAV_ICE_TRANSMISSION_GEAR_STATE_FORWARD_1 0 parked in
  pending_state (pending (gear (fst r))) = MAV_ICE_TRANSMISSION_GEAR_STATE_FORWARD
  /\ set_ice_transmission_state (env_at 5010 1200 true 0) p
       MAV_ICE_TRANSMISSION_GEAR_STATE_FORWARD_1 0 (fst r) = r.
Proof.
  cbv zeta. split; [vm_compute; reflexivity |].
  apply (set_transmission_state_again (env_at 5000 1200 true 0)
           (env_at 5010 1200 true 0));
    [discriminate | vm_compute; reflexivity].
Defined.





(** ** The gear PWM table *)

Lemma to_int16_small x : 0 <= x < 32768 -> to_int16 x = x.
Proof.
  intros H. unfold to_int16. rewrite Z.mod_small by lia.
  destruct (Z.ltb_spec x 32768); [reflexivity | lia].
Qed.

Lemma to_uint16_small x : 0 <= x < 32768 -> to_uint16 x = x.
Proof. intros H. unfold to_uint16. apply Z.mod_small. lia. Qed.

Lemma toward_between pwm_act d u :
  pwm_in_range d -> pwm_in_range u ->
  let r := to_uint16
             (constrain_pwm_with_direction (to_int16 pwm_act)
                (to_int16 (Z.quot (d + u) 2)) (to_int16 d) (to_int16 u)) in
  Z.min d u <= r <= Z.max d u.
Proof.
  unfold pwm_in_range. intros Hd Hu.
  assert (Hq : Z.quot (d + u) 2 = (d + u) / 2)
    by (apply Z.quot_div_nonneg; lia).
  assert (Hm : Z.min d u <= (d + u) / 2 <= Z.max d u).
  { split.
    - apply Z.div_le_lower_bound; lia.
    - apply Z.div_le_upper_bound; lia. }
  cbv zeta. rewrite Hq.
  rewrite (to_int16_small d Hd), (to_int16_small u Hu).
  rewrite (to_int16_small ((d + u) / 2)) by lia.
  unfold constrain_pwm_with_direction.
  destruct (Z.eqb_spec (to_int16 pwm_act) ((d + u) / 2)) as [-> | _].
  - rewrite to_uint16_small; lia.
  - destruct (_ <? _); rewrite to_uint16_small; lia.
Qed.

Lemma pending_pwm_for_between p pwm_act g v g' pw :
  table_in_range p ->
  pending_pwm_for p pwm_act g v = Some (g', pw) ->
  g <> MAV_ICE_TRANSMISSION_GEAR_STATE_PWM_VALUE ->
  Z.min (fst (gear_pwm_pair p g')) (snd (gear_pwm_pair p g')) <= pw
  /\ pw <= Z.max (fst (gear_pwm_pair p g')) (snd (gear_pwm_pair p g')).
Proof.
  intros (H1 & H2 & H3 & H4 & H5 & H6 & H7 & H8 & H9 & H10) H Hg.
  destruct g; simpl in H; try discriminate;
    try (contradiction Hg; reflexivity);
    inversion H; subst; clear H; simpl;
    apply toward_between; assumption.
Qed.

Lemma pending_pwm_for_position p pwm_act g v g' pw :
  pending_pwm_for p pwm_act g v = Some (g', pw) ->
  get_position g' = get_position g.
Proof.
  destruct g; simpl; intros H; try discriminate; inversion H; reflexivity.
Qed.

(** X15: with every PWM value of the gear table in 0..32767, the PWM a
    command for a gear other than PWM_VALUE targets lies between the two
    PWM values the table holds for the targeted gear, whatever the active
    PWM is, and the targeted gear sits at the position of the gear asked
    for. *)
Theorem target_pwm_between_table_values p pwm_act g v g' pw :
  table_in_range p ->
  g <> MAV_ICE_TRANSMISSION_GEAR_STATE_PWM_VALUE ->
  pending_pwm_for p pwm_act g v = Some (g', pw) ->
  get_position g' = get_position g
  /\ Z.min (fst (gear_pwm_pair p g')) (snd (gear_pwm_pair p g')) <= pw
  /\ pw <= Z.max (fst (gear_pwm_pair p g')) (snd (gear_pwm_pair p g')).
Proof.
  intros Ht Hg H. split.
  - exact (pending_pwm_for_position _ _ _ _ _ _ H).
  - exact (pending_pwm_for_between p pwm_act g v g' pw Ht H Hg).
Qed.

Lemma default_table_in_range o r c t : table_in_range (default_params o r c t).
Proof. unfold table_in_range, pwm_in_range; simpl. lia. Qed.

Lemma target_pwm_between_table_values_witness :
  let p := default_params 0 (-1) 0 0 in
  let g' := MAV_ICE_TRANSMISSION_GEAR_STATE_REVERSE in
  table_in_range p
  /\ pending_pwm_for p 1000 MAV_ICE_TRANSMISSION_GEAR_STATE_REVERSE_1 0
     = Some (g', 1200)
  /\ Z.min (fst (gear_pwm_pair p g')) (snd (gear_pwm_pair p g')) <= 1200
  /\ 1200 <= Z.max (fst (gear_pwm_pair p g')) (snd (gear_pwm_pair p g')).
Proof.
  cbv zeta. split; [apply default_table_in_range |].
  assert (H : pending_pwm_for (default_params 0 (-1) 0 0) 1000
                MAV_ICE_TRANSMISSION_GEAR_STATE_REVERSE_1 0
              = Some (MAV_ICE_TRANSMISSION_GEAR_STATE_REVERSE, 1200))
    by (vm_compute; reflexivity).
  split; [exact H |].
  assert (Hg : MAV_ICE_TRANSMISSION_GEAR_STATE_REVERSE_1
               <> MAV_ICE_TRANSMISSION_GEAR_STATE_PWM_VALUE) by discriminate.
  exact (proj2 (target_pwm_between_table_values _ _ _ _ _ _
                  (default_table_in_range 0 (-1) 0 0) Hg H)).
Defined.

Lemma convertPwmToGearState_bands p pwm :
  convertPwmToGearState p pwm
  = if band_catches (pwm_forward2_down p) (pwm_forward2_up p) pwm
    then MAV_ICE_TRANSMISSION_GEAR_STATE_FORWARD_2
    else if band_catches (pwm_forward1_down p) (pwm_forward1_up p) pwm
    then MAV_ICE_TRANSMISSION_GEAR_STATE_FORWARD
    else if band_catches (pwm_neutral_down p) (pwm_neutral_up p) pwm
    then MAV_ICE_TRANSMISSION_GEAR_STATE_NEUTRAL
    else if band_catches (pwm_reverse_down p) (pwm_reverse_up p) pwm
    then MAV_ICE_TRANSMISSION_GEAR_STATE_REVERSE
    else MAV_ICE_TRANSMISSION_GEAR_STATE_PARK.
Proof. reflexivity. Qed.

Lemma band_catches_iff d u x :
  band_catches d u x = true <-> Z.min d u - 20 <= x <= Z.max d u + 20.
Proof.
  unfold band_catches.
  rewrite orb_true_iff, !andb_true_iff, !Z.leb_le, !Z.ltb_lt. lia.
Qed.

Lemma band_catches_inside d u x :
  Z.min d u <= x <= Z.max d u -> band_catches d u x = true.
Proof. intros H. apply band_catches_iff. lia. Qed.

Lemma band_catches_outside d u x :
  x < Z.min d u - 20 \/ Z.max d u + 20 < x -> band_catches d u x = false.
Proof.
  intros H. destruct (band_catches d u x) eqn:Hb; [| reflexivity].
  apply band_catches_iff in Hb. lia.
Qed.

Lemma apart_misses a b x :
  pairs_apart a b \/ pairs_apart b a ->
  Z.min (fst a) (snd a) <= x <= Z.max (fst a) (snd a) ->
  band_catches (fst b) (snd b) x = false.
Proof.
  unfold pairs_apart. intros H Hx. apply band_catches_outside. lia.
Qed.

(** A PWM between a gear's two table values is classified as that gear
    when the bands keep apart. *)
Lemma classify_between p g x :
  bands_apart p ->
  Z.min (fst (gear_pwm_pair p g)) (snd (gear_pwm_pair p g)) <= x
  /\ x <= Z.max (fst (gear_pwm_pair p g)) (snd (gear_pwm_pair p g)) ->
  match g with
  | MAV_ICE_TRANSMISSION_GEAR_STATE_PARK
  | MAV_ICE_TRANSMISSION_GEAR_STATE_REVERSE
  | MAV_ICE_TRANSMISSION_GEAR_STATE_NEUTRAL
  | MAV_ICE_TRANSMISSION_GEAR_STATE_FORWARD
  | MAV_ICE_TRANSMISSION_GEAR_STATE_FORWARD_2 =>
      convertPwmToGearState p x = g
  | _ => True
  end.
Proof.
  intros (B1 & B2 & B3 & B4 & B5 & B6 & B7 & B8 & B9 & B10) Hx.
  rewrite convertPwmToGearState_bands.
  set (park := gear_pwm_pair p MAV_ICE_TRANSMISSION_GEAR_STATE_PARK) in *.
  set (rev := gear_pwm_pair p MAV_ICE_TRANSMISSION_GEAR_STATE_REVERSE) in *.
  set (ntrl := gear_pwm_pair p MAV_ICE_TRANSMISSION_GEAR_STATE_NEUTRAL) in *.
  set (fwd1 := gear_pwm_pair p MAV_ICE_TRANSMISSION_GEAR_STATE_FORWARD) in *.
  set (fwd2 := gear_pwm_pair p MAV_ICE_TRANSMISSION_GEAR_STATE_FORWARD_2) in *.
  change (pwm_forward2_down p) with (fst fwd2).
  change (pwm_forward2_up p) with (snd fwd2).
  change (pwm_forward1_down p) with (fst fwd1).
  change (pwm_forward1_up p) with (snd fwd1).
  change (pwm_neutral_down p) with (fst ntrl).
  change (pwm_neutral_up p) with (snd ntrl).
  change (pwm_reverse_down p) with (fst rev).
  change (pwm_reverse_up p) with (snd rev).
  destruct g; try exact I.
  - fold park in Hx.
    rewrite (apart_misses park fwd2 x (or_introl B4) Hx).
    rewrite (apart_misses park fwd1 x (or_introl B3) Hx).
    rewrite (apart_misses park ntrl x (or_introl B2) Hx).
    rewrite (apart_misses park rev x (or_introl B1) Hx).
    reflexivity.
  - fold rev in Hx.
    rewrite (apart_misses rev fwd2 x (or_introl B7) Hx).
    rewrite (apart_misses rev fwd1 x (or_introl B6) Hx).
    rewrite (apart_misses rev ntrl x (or_introl B5) Hx).
    rewrite (band_catches_inside _ _ _ Hx).
    reflexivity.
  - fold ntrl in Hx.
    rewrite (apart_misses ntrl fwd2 x (or_introl B9) Hx).
    rewrite (apart_misses ntrl fwd1 x (or_introl B8) Hx).
    rewrite (band_catches_inside _ _ _ Hx).
    reflexivity.
  - fold fwd1 in Hx.
    rewrite (apart_misses fwd1 fwd2 x (or_introl B10) Hx).
    rewrite (band_catches_inside _ _ _ Hx).
    reflexivity.
  - fold fwd2 in Hx.
    rewrite (band_catches_inside _ _ _ Hx).
    reflexivity.
Qed.

(** X16: the gear commanded is the gear read back. With every PWM value
    of the gear table in 0..32767, and the PWM pairs of the five gears of
    the table, each widened by the margin of 20, apart from each other,
    the PWM a command for a gear other than PWM_VALUE targets is classified
    by [convertPwmToGearState] as the gear the command targets. *)
Theorem commanded_gear_read_back p pwm_act g v g' pw :
  table_in_range p ->
  bands_apart p ->
  g <> MAV_ICE_TRANSMISSION_GEAR_STATE_PWM_VALUE ->
  pending_pwm_for p pwm_act g v = Some (g', pw) ->
  convertPwmToGearState p pw = g'.
Proof.
  intros Ht Hb Hg H.
  pose proof (pending_pwm_for_between p pwm_act g v g' pw Ht H Hg) as Hin.
  assert (Hc : forall h,
             Z.min (fst (gear_pwm_pair p h)) (snd (gear_pwm_pair p h)) <= pw
             /\ pw <= Z.max (fst (gear_pwm_pair p h)) (snd (gear_pwm_pair p h)) ->
             match h with
             | MAV_ICE_TRANSMISSION_GEAR_STATE_PARK
             | MAV_ICE_TRANSMISSION_GEAR_STATE_REVERSE
             | MAV_ICE_TRANSMISSION_GEAR_STATE_NEUTRAL
             | MAV_ICE_TRANSMISSION_GEAR_STATE_FORWARD
             | MAV_ICE_TRANSMISSION_GEAR_STATE_FORWARD_2 =>
                 convertPwmToGearState p pw = h
             | _ => True
             end)
    by (intros h H3; exact (classify_between p h pw Hb H3)).
  destruct g; cbn [pending_pwm_for] in H; try discriminate;
    try (contradiction Hg; reflexivity);
    injection H as <- _;
    match goal with
    | |- convertPwmToGearState _ _ = ?h =>
        exact (Hc h Hin)
    end.
Qed.

Lemma default_bands_apart o r c t : bands_apart (default_params o r c t).
Proof. unfold bands_apart, pairs_apart; simpl. lia. Qed.

Lemma commanded_gear_read_back_witness :
  let p := default_params 0 (-1) 0 0 in
  table_in_range p /\ bands_apart p
  /\ pending_pwm_for p 1000 MAV_ICE_TRANSMISSION_GEAR_STATE_FORWARD_1 0
     = Some (MAV_ICE_TRANSMISSION_GEAR_STATE_FORWARD, 1425)
  /\ convertPwmToGearState p 1425 = MAV_ICE_TRANSMISSION_GEAR_STATE_FORWARD.
Proof.
  cbv zeta. split; [apply default_table_in_range |].
  split; [apply default_bands_apart |].
  assert (H : pending_pwm_for (default_params 0 (-1) 0 0) 1000
                MAV_ICE_TRANSMISSION_GEAR_STATE_FORWARD_1 0
              = Some (MAV_ICE_TRANSMISSION_GEAR_STATE_FORWARD, 1425))
    by (vm_compute; reflexivity).
  split; [exact H |].
  assert (Hg : MAV_ICE_TRANSMISSION_GEAR_STATE_FORWARD_1
               <> MAV_ICE_TRANSMISSION_GEAR_STATE_PWM_VALUE) by discriminate.
  exact (commanded_gear_read_back _ _ _ _ _ _
           (default_table_in_range 0 (-1) 0 0)
           (default_bands_apart 0 (-1) 0 0) Hg H).
Defined.

(** X17: the name of a gear and its position group the gears alike: two
    gears have the same name exactly when they have the same position. *)
Theorem gear_name_iff_position a b :
  get_gear_name a = get_gear_name b <-> get_position a = get_position b.
Proof.
  destruct a, b; split; intro H; try reflexivity; discriminate H.
Qed.

(** X18: what [brake_override] can do to the brake. With the controller
    enabled, a gear change in flight forces the brake to 100, and so does
    a disarmed vehicle in any reverse, neutral or forward gear; the result
    is otherwise the brake passed in, 100, or a release to 0, and the
    release happens only in NEUTRAL on an armed vehicle with the release
    flag set and no gear change in flight. *)
Theorem brake_override_outcomes pf e p st b ds valid speed :
  enable p <> 0 ->
  let out := fst (brake_override pf e p st b ds valid speed) in
  (is_active (pending (gear st)) = true -> out = F32.of_Z 100)
  /\ (soft_armed e = false -> 2 <= get_position (gear_state (gear st)) ->
      out = F32.of_Z 100)
  /\ (out = b \/ out = F32.of_Z 100
      \/ (out = F32.of_Z 0
          /\ gear_state (gear st) = MAV_ICE_TRANSMISSION_GEAR_STATE_NEUTRAL
          /\ soft_armed e = true
          /\ brakeReleaseAllowedIn_Neutral_and_Disarmed st = true
          /\ is_active (pending (gear st)) = false)).
Proof.
  intros He. apply Z.eqb_neq in He. unfold brake_override; cbv zeta.
  rewrite He. cbv iota. cbn [fst].
  destruct (is_active (pending (gear st))) eqn:Ha.
  - repeat split; auto.
  - split; [discriminate |].
    destruct (soft_armed e) eqn:Hs; cbn [negb].
    + split; [discriminate |].
      destruct (gear_state (gear st)); auto;
        try (break_if; auto).
      right; right. repeat split; assumption.
    + split.
      * intros _ Hp.
        destruct (gear_state (gear st)); try reflexivity;
          cbn in Hp; lia.
      * destruct (gear_state (gear st)); auto.
Qed.

Lemma brake_override_outcomes_witness :
  let out := fst (brake_override rover_platform (env_at 0 1200 true 0)
                    (default_params 0 (-1) 0 0) forward_then_neutral
                    (F32.of_Z 20) (F32.of_Z 3) true (F32.of_Z 3)) in
  enable (default_params 0 (-1) 0 0) <> 0
  /\ is_active (pending (gear forward_then_neutral)) = true
  /\ out = F32.of_Z 100.
Proof.
  cbv zeta.
  assert (He : enable (default_params 0 (-1) 0 0) <> 0) by (simpl; lia).
  assert (Ha : is_active (pending (gear forward_then_neutral)) = true)
    by (vm_compute; reflexivity).
  split; [exact He |]. split; [exact Ha |].
  exact (proj1 (brake_override_outcomes rover_platform (env_at 0 1200 true 0)
                  (default_params 0 (-1) 0 0) forward_then_neutral
                  (F32.of_Z 20) (F32.of_Z 3) true (F32.of_Z 3) He) Ha).
Defined.

(** X19: what [throttle_override] can do to the throttle. With the
    controller enabled, the throttle is replaced by the idle percentage,
    whatever was passed in and whatever the temperature says, while the
    engine is STARTING or in START_DELAY, while it is too cold and while a
    gear change is in flight; the too-hot reduction is applied in none of
    these cases, and the result is always the throttle passed in, the idle
    percentage, or the throttle passed in times the constrained reduction
    factor. *)
Theorem throttle_override_outcomes pf constrain_float cold hot factor scaled
  p st pct :
  enable p <> 0 ->
  let out := fst (throttle_override pf constrain_float cold hot factor scaled
                    p st pct) in
  (state st = ICE_STARTING \/ state st = ICE_START_DELAY \/ cold = true
   \/ is_active (pending (gear st)) = true ->
   out = F32.of_Z (idle_percent p))
  /\ (out = pct \/ out = F32.of_Z (idle_percent p)
      \/ (out = F32.mul pct (constrain_float factor (F32.of_Z 0) (F32.of_Z 1))
          /\ hot = true /\ cold = false
          /\ state st <> ICE_STARTING /\ state st <> ICE_START_DELAY
          /\ is_active (pending (gear st)) = false)).
Proof.
  intros He. apply Z.eqb_neq in He. unfold throttle_override; cbv zeta.
  rewrite He. cbv iota.
  destruct (ICE_State_eqb (state st) ICE_RUNNING && (0 <? idle_percent p)
            && (idle_percent p <? 100)
            && (scaled <? to_int16 (idle_percent p))) eqn:Hrun;
    cbn [fst snd].
  - split; auto.
  - destruct (ICE_State_eqb (state st) ICE_STARTING
              || ICE_State_eqb (state st) ICE_START_DELAY
              || cold || is_active (pending (gear st))) eqn:Hidle;
      cbn [fst snd].
    + split; auto.
    + apply orb_false_elim in Hidle. destruct Hidle as [Hidle Hact].
      apply orb_false_elim in Hidle. destruct Hidle as [Hidle Hcold].
      apply orb_false_elim in Hidle. destruct Hidle as [Hst Hsd].
      apply ICE_State_eqb_neq in Hst. apply ICE_State_eqb_neq in Hsd.
      split.
      * intros [H | [H | [H | H]]]; congruence.
      * destruct hot; cbn [fst snd]; auto.
        right; right. repeat split; assumption.
Qed.

Lemma throttle_override_outcomes_witness :
  let p := default_params 0 (-1) 0 0 in
  let st := set_state ICE_STARTING boot_default in
  enable p <> 0
  /\ fst (throttle_override rover_platform (fun x _ _ => x) false true
            (F32.of_Z 1) 0 p st (F32.of_Z 80))
     = F32.of_Z (idle_percent p).
Proof.
  cbv zeta.
  assert (He : enable (default_params 0 (-1) 0 0) <> 0) by (simpl; lia).
  split; [exact He |].
  exact (proj1 (throttle_override_outcomes rover_platform (fun x _ _ => x)
                  false true (F32.of_Z 1) 0 (default_params 0 (-1) 0 0)
                  (set_state ICE_STARTING boot_default) (F32.of_Z 80) He)
               (or_introl eq_refl)).
Defined.

Lemma update_gear_phase_end_forces_status pf e p st :
  is_negative pf (stop_duration (pending (gear st))) = false ->
  is_negative pf (change_duration_per_posiiton (pending (gear st))) = false ->
  (0 < stop_vehicle_start_ms (pending (gear st))
   /\ stop_wait_elapsed e (pending (gear st)) = true)
  \/ (stop_vehicle_start_ms (pending (gear st)) = 0
      /\ 0 < change_physical_gear_start_ms (pending (gear st))
      /\ shift_elapsed e (pending (gear st)) = true) ->
  force_send_status (update_gear pf e p st) = true.
Proof.
  intros Hn1 Hn2 H. unfold update_gear; cbv zeta.
  rewrite Hn1. cbv iota. rewrite Hn2. cbv iota.
  destruct H as [[Hstop Hel] | (Hstop & Hshift & Hel)].
  - replace (0 <? stop_vehicle_start_ms (pending (gear st))) with true
      by (symmetry; apply Z.ltb_lt; exact Hstop).
    unfold stop_wait_elapsed in Hel. rewrite Hel. reflexivity.
  - rewrite Hstop. cbn [Z.ltb Z.compare].
    replace (0 <? change_physical_gear_start_ms (pending (gear st))) with true
      by (symmetry; apply Z.ltb_lt; exact Hshift).
    unfold shift_elapsed in Hel. rewrite Hel. reflexivity.
Qed.

Lemma set_output_channels_force_send_status e p st :
  force_send_status (set_output_channels e p st) = force_send_status st.
Proof.
  unfold set_output_channels; cbv zeta.
  repeat (break_if || break_match); reflexivity.
Qed.

Lemma send_status_clears_force e st :
  force_send_status (send_status e st) = false.
Proof.
  unfold send_status; cbv zeta.
  repeat (break_if || break_match); reflexivity.
Qed.

Lemma send_status_forced_gear e st trim :
  force_send_status st = true ->
  srv_gear_function e = Some trim ->
  (exists c, In c (mavlink_channels e) /\ snd (fst c) = true) ->
  gear_last_send_ms (gear (send_status e st)) = now e At_send_status.
Proof.
  intros Hf Hg Hc. unfold send_status; cbv zeta. rewrite Hf, Hg.
  cbn [orb andb].
  replace (existsb (fun c : bool * bool * bool => snd (fst c))
             (mavlink_channels e)) with true
    by (symmetry; apply existsb_exists; exact Hc).
  repeat (break_if || break_match); reflexivity.
Qed.

(** X20: a gear phase that ends is reported in the same tick. When the
    gear tick, with the two gear durations not negative, finds the
    stop-wait or the shift elapsed, the status message of the gear goes
    out in that tick whatever the one-second rate limit says, provided a
    gear servo is assigned and an active telemetry channel has room for
    it: the tick ends with the gear's send time at the current time and
    the one-shot force flag cleared. *)
Theorem gear_phase_end_reported pf e p st trim :
  is_negative pf (stop_duration (pending (gear st))) = false ->
  is_negative pf (change_duration_per_posiiton (pending (gear st))) = false ->
  (0 < stop_vehicle_start_ms (pending (gear st))
   /\ stop_wait_elapsed e (pending (gear st)) = true)
  \/ (stop_vehicle_start_ms (pending (gear st)) = 0
      /\ 0 < change_physical_gear_start_ms (pending (gear st))
      /\ shift_elapsed e (pending (gear st)) = true) ->
  srv_gear_function e = Some trim ->
  (exists c, In c (mavlink_channels e) /\ snd (fst c) = true) ->
  let st' := send_status e (set_output_channels e p (update_gear pf e p st)) in
  gear_last_send_ms (gear st') = now e At_send_status
  /\ force_send_status st' = false.
Proof.
  intros Hn1 Hn2 Hend Hg Hc. cbv zeta. split.
  - apply (send_status_forced_gear _ _ trim); [| exact Hg | exact Hc].
    rewrite set_output_channels_force_send_status.
    apply update_gear_phase_end_forces_status; assumption.
  - apply send_status_clears_force.
Qed.

(** The tick at 5060 ms that ends the stop-wait begun at 5040 ms: the
    gear status goes out although the previous one is 20 ms old at most. *)
Lemma gear_phase_end_reported_witness :
  let p := default_params 0 (-1) 0 0 in
  let e := telemetry_env 5060 in
  let st := forward_then_neutral in
  0 < stop_vehicle_start_ms (pending (gear st))
  /\ stop_wait_elapsed e (pending (gear st)) = true
  /\ gear_last_send_ms
       (gear (send_status e
                (set_output_channels e p (update_gear rover_platform e p st))))
     = 5060.
Proof.
  cbv zeta.
  assert (H1 : 0 < stop_vehicle_start_ms (pending (gear forward_then_neutral)))
    by (vm_compute; reflexivity).
  assert (H2 : stop_wait_elapsed (telemetry_env 5060)
                 (pending (gear forward_then_neutral)) = true)
    by (vm_compute; reflexivity).
  split; [exact H1 |]. split; [exact H2 |].
  assert (Hn1 : is_negative rover_platform
                  (stop_duration (pending (gear forward_then_neutral))) = false)
    by (vm_compute; reflexivity).
  assert (Hn2 : is_negative rover_platform
                  (change_duration_per_posiiton
                     (pending (gear forward_then_neutral))) = false)
    by (vm_compute; reflexivity).
  assert (Hc : exists c, In c (mavlink_channels (telemetry_env 5060))
                         /\ snd (fst c) = true)
    by (exists (true, true, true); split; [left; reflexivity | reflexivity]).
  exact (proj1 (gear_phase_end_reported rover_platform (telemetry_env 5060)
                  (default_params 0 (-1) 0 0) forward_then_neutral 1000
                  Hn1 Hn2 (or_introl (conj H1 H2)) eq_refl Hc)).
Defined.

Lemma update_disabled pf e p st :
  enable p = 0 ->
  update pf e p st
  = if run_once st
    then init e p true (set_run_once false (set_state ICE_OFF st))
    else set_state ICE_OFF st.
Proof.
  intros He. unfold update. rewrite He. cbn [Z.eqb]. cbv zeta.
  reflexivity.
Qed.

Lemma set_state_same st : set_state (state st) st = st.
Proof. destruct st; reflexivity. Qed.

(** X21: a tick of the disabled controller. With ICE_ENABLE = 0 a tick
    leaves the engine OFF and the controller marked as not initialised (so
    that enabling it initialises it again), and a further disabled tick
    changes nothing at all, whatever it reads. *)
Theorem disabled_tick_settles pf e1 e2 p st :
  enable p = 0 ->
  let st1 := update pf e1 p st in
  state st1 = ICE_OFF
  /\ run_once st1 = false
  /\ update pf e2 p st1 = st1.
Proof.
  intros He. cbv zeta.
  assert (Hs : state (update pf e1 p st) = ICE_OFF).
  { rewrite (update_disabled _ _ _ _ He).
    destruct (run_once st);
      [rewrite (core_state _ _ (init_core _ _ _ _)) |]; reflexivity. }
  assert (Hr : run_once (update pf e1 p st) = false).
  { rewrite (update_disabled _ _ _ _ He).
    destruct (run_once st) eqn:Hr;
      [rewrite (core_run_once _ _ (init_core _ _ _ _)); reflexivity |].
    destruct st; exact Hr. }
  split; [exact Hs |]. split; [exact Hr |].
  rewrite (update_disabled pf e2 p _ He). rewrite Hr.
  rewrite <- Hs at 1. apply set_state_same.
Qed.

Lemma disabled_tick_settles_witness :
  let p := disabled (default_params 0 (-1) 0 0) in
  let st := run rover_platform (default_params 0 (-1) 0 0) start_up
              boot_default in
  run_once st = true
  /\ state (update rover_platform (env_at 9000 1800 true 0) p st) = ICE_OFF
  /\ run_once (update rover_platform (env_at 9000 1800 true 0) p st) = false.
Proof.
  cbv zeta. split; [vm_compute; reflexivity |].
  assert (He : enable (disabled (default_params 0 (-1) 0 0)) = 0)
    by reflexivity.
  pose proof (disabled_tick_settles rover_platform (env_at 9000 1800 true 0)
                (env_at 9020 1800 true 0)
                (disabled (default_params 0 (-1) 0 0))
                (run rover_platform (default_params 0 (-1) 0 0) start_up
                   boot_default) He) as H.
  cbv zeta in H. split; [exact (proj1 H) | exact (proj1 (proj2 H))].
Defined.

Lemma low_pass_nan y : low_pass y S754_nan = S754_nan.
Proof.
  unfold low_pass, F32.add, F32.mul.
  replace (SFmul F32.prec F32.emax F32.c0_9 S754_nan) with S754_nan
    by (vm_compute; reflexivity).
  destruct (SFmul F32.prec F32.emax F32.c0_1 y); reflexivity.
Qed.

(** X22: the temperature filter guards against an infinite sample only.
    With the source set and the pin enabled, a sample that converts to
    infinity leaves the stored temperature and its sample time as they
    were, while a sample that converts to NaN is taken: the stored
    temperature becomes NaN and the sample time the current time. *)
Theorem temperature_nan_sample_is_stored pf e p st t :
  temperature_source st = true ->
  0 < temperature_pin p ->
  temperature_of_voltage pf p
    (if negb (temperature_ratiometric p =? 0)
     then voltage_average_ratiometric e else voltage_average e) = Some t ->
  let st' := update_temperature pf e p st in
  (F32.isinf t = true -> st' = st)
  /\ (t = S754_nan ->
      value (temperature st') = S754_nan
      /\ last_sample_ms (temperature st') = now e At_update_temperature).
Proof.
  intros Hsrc Hpin Ht. unfold update_temperature; cbv zeta.
  rewrite Hsrc. cbn [negb].
  replace (temperature_pin p <=? 0) with false
    by (symmetry; apply Z.leb_gt; exact Hpin).
  rewrite Ht. split.
  - intros Hi. rewrite Hi. reflexivity.
  - intros ->. cbn [F32.isinf negb].
    break_if; cbn; fold (low_pass S754_nan S754_nan);
      try fold (low_pass (value (temperature st)) S754_nan);
      rewrite low_pass_nan; split; reflexivity.
Qed.

Lemma temperature_nan_sample_is_stored_witness :
  let e := infinite_voltage_env in
  let p := with_temperature_scaler (F32.of_Z 0) sensor_params in
  temperature_source sampled_at_1000 = true
  /\ 0 < temperature_pin p
  /\ value (temperature (update_temperature rover_platform e p
                           sampled_at_1000)) = S754_nan.
Proof.
  cbv zeta. split; [reflexivity |]. split; [simpl; lia |].
  refine (proj1 (proj2 (temperature_nan_sample_is_stored rover_platform
                          infinite_voltage_env
                          (with_temperature_scaler (F32.of_Z 0) sensor_params)
                          sampled_at_1000 S754_nan eq_refl _ _) eq_refl)).
  - simpl; lia.
  - vm_compute; reflexivity.
Defined.

Lemma set_ice_transmission_state_state e p g v st :
  state (fst (set_ice_transmission_state e p g v st)) = state st.
Proof. apply core_state, set_ice_transmission_state_core. Qed.

(** X23: what a DO_ENGINE_CONTROL command can do to the engine state
    machine. The command leaves the engine state as it is, except that in
    a build other than APMrover2 an accepted command with a positive
    height delay puts the engine in START_HEIGHT_DELAY, whatever state it
    was in; the restart counter and the starter's start time are never
    touched. *)
Theorem engine_control_engine_state pf e p sc cs hd gs fm st :
  let r := engine_control pf e p sc cs hd gs fm st in
  (state (fst r) = state st
   \/ (build_is_rover pf = false /\ F32.gtb hd (F32.of_Z 0) = true
       /\ snd r = true /\ state (fst r) = ICE_START_HEIGHT_DELAY))
  /\ (build_is_rover pf = false -> F32.gtb hd (F32.of_Z 0) = true ->
      snd r = true -> state (fst r) = ICE_START_HEIGHT_DELAY)
  /\ starting_attempts (fst r) = starting_attempts st
  /\ starter_start_time_ms (fst r) = starter_start_time_ms st.
Proof.
  assert (Hs : forall e p g v s,
             state (fst (set_ice_transmission_state e p g v s)) = state s)
    by (intros; apply set_ice_transmission_state_state).
  assert (Ha : forall e p g v s,
             starting_attempts (fst (set_ice_transmission_state e p g v s))
             = starting_attempts s)
    by (intros; apply core_starting_attempts,
          set_ice_transmission_state_core).
  assert (Ht : forall e p g v s,
             starter_start_time_ms (fst (set_ice_transmission_state e p g v s))
             = starter_start_time_ms s)
    by (intros; apply core_starter_start_time_ms,
          set_ice_transmission_state_core).
  unfold engine_control; cbv zeta.
  destruct (option_set p AP_ICENGINE_OPTIONS_MASK_BLOCK_EXTERNAL_STARTER_CMDS).
  { cbn. repeat split; auto; discriminate. }
  destruct (negb (auto_mode_active st
                  && option_set p AP_ICENGINE_OPTIONS_MASK_AUTO_ALWAYS_AUTOSTART)
            && rc_start_control_disabled e).
  { cbn. repeat split; auto; discriminate. }
  destruct (build_is_rover pf); destruct (F32.gtb hd (F32.of_Z 0));
    cbn [negb andb fst snd];
    repeat (break_if || break_match); cbn; rewrite ?Hs, ?Ha, ?Ht; cbn;
    repeat split; auto; try discriminate;
    right; repeat split; reflexivity.
Qed.

(** A command with a height delay of 10 m, accepted by a build other
    than APMrover2 while the engine runs: the engine leaves RUNNING for
    START_HEIGHT_DELAY. *)
Lemma engine_control_engine_state_witness :
  let p := default_params 0 (-1) 0 0 in
  let st := run rover_platform p start_up boot_default in
  let r := engine_control plane_platform (env_at 3300 1800 true 0) p
             (F32.of_Z 2) (F32.of_Z 0) (F32.of_Z 10) (F32.of_Z 0) false st in
  state st = ICE_RUNNING /\ state (fst r) = ICE_START_HEIGHT_DELAY.
Proof.
  cbv zeta. split; [vm_compute; reflexivity |].
  apply (proj1 (proj2 (engine_control_engine_state plane_platform
                         (env_at 3300 1800 true 0) (default_params 0 (-1) 0 0)
                         (F32.of_Z 2) (F32.of_Z 0) (F32.of_Z 10) (F32.of_Z 0)
                         false
                         (run rover_platform (default_params 0 (-1) 0 0)
                            start_up boot_default))));
    vm_compute; reflexivity.
Defined.

(** X24: a rejected DO_ENGINE_CONTROL command changes nothing. Whenever
    [engine_control] returns false, the engine state machine, the intent,
    the outputs and the gear are as they were. *)
Theorem engine_control_rejected_changes_nothing pf e p sc cs hd gs fm st :
  snd (engine_control pf e p sc cs hd gs fm st) = false ->
  let st' := fst (engine_control pf e p sc cs hd gs fm st) in
  engine_core st' = engine_core st
  /\ engine_io st' = engine_io st
  /\ gear st' = gear st
  /\ force_send_status st' = force_send_status st.
Proof.
  unfold engine_control; cbv zeta.
  destruct (option_set p AP_ICENGINE_OPTIONS_MASK_BLOCK_EXTERNAL_STARTER_CMDS).
  { intros _. cbn. repeat split. }
  destruct (negb (auto_mode_active st
                  && option_set p AP_ICENGINE_OPTIONS_MASK_AUTO_ALWAYS_AUTOSTART)
            && rc_start_control_disabled e).
  { intros _. cbn. repeat split. }
  cbn [snd]. discriminate.
Qed.

Lemma engine_control_rejected_changes_nothing_witness :
  let p := default_params 64 (-1) 0 0 in
  let r := engine_control rover_platform (env_at 3300 1800 true 0) p
             (F32.of_Z 2) (F32.of_Z 0) (F32.of_Z 0) (F32.of_Z 4) false
             boot_default in
  snd r = false /\ gear (fst r) = gear boot_default.
Proof.
  cbv zeta.
  assert (H : snd (engine_control rover_platform (env_at 3300 1800 true 0)
                     (default_params 64 (-1) 0 0)
                     (F32.of_Z 2) (F32.of_Z 0) (F32.of_Z 0) (F32.of_Z 4) false
                     boot_default) = false)
    by (vm_compute; reflexivity).
  split; [exact H |].
  exact (proj1 (proj2 (proj2
           (engine_control_rejected_changes_nothing rover_platform
              (env_at 3300 1800 true 0) (default_params 64 (-1) 0 0)
              (F32.of_Z 2) (F32.of_Z 0) (F32.of_Z 0) (F32.of_Z 4) false
              boot_default H)))).
Defined.

